(** * Real-time chat of diabetic-care-ai: a shallow embedding

    The development follows the three chat screens of the application:
    - [PatientChat]  : app/chat/[patientId].tsx  (doctor's view of a patient thread)
    - [RealTimeChat] : components/RealTimeChat.tsx (thread keyed by chat id)
    - [UserChat]     : app/chat/[userId].tsx     (thread keyed by sender/receiver)

    React state is a record threaded through the handlers; an [async]
    function is a program in the small interaction monad [io], whose calls
    are the requests sent to the hosted backend; the realtime client and the
    hosted tables are explicit state. *)

From Stdlib Require Import List String Ascii Bool Arith NArith ZArith Lia.
From Stdlib Require Import DecimalString DecimalN Permutation Sorted.
Import ListNotations.

Local Open Scope string_scope.
Local Open Scope list_scope.

(** ** JavaScript strings and [String.prototype.trim] *)

Module JS.

(** A JavaScript string is a sequence of UTF-16 code units. *)
Definition code_unit := N.
Definition jsstring := list code_unit.

(** ECMAScript WhiteSpace and LineTerminator code points, the ones [trim]
    strips: TAB, LF, VT, FF, CR, SP, NBSP, the Zs category, LS, PS, BOM. *)
Definition isWhiteSpace (c : code_unit) : bool :=
  ((9 <=? c) && (c <=? 13) || (c =? 32) || (c =? 160) || (c =? 5760)
   || (8192 <=? c) && (c <=? 8202) || (c =? 8232) || (c =? 8233)
   || (c =? 8239) || (c =? 8287) || (c =? 12288) || (c =? 65279))%N.

Fixpoint trimStart (s : jsstring) : jsstring :=
  match s with
  | [] => []
  | c :: r => if isWhiteSpace c then trimStart r else s
  end.

Definition trimEnd (s : jsstring) : jsstring := rev (trimStart (rev s)).

Definition trim (s : jsstring) : jsstring := trimEnd (trimStart s).

(** Truthiness of a string: only the empty string is falsy. *)
Definition truthy (s : jsstring) : bool :=
  match s with [] => false | _ :: _ => true end.

(** Truthiness of an ordinary (id) string. *)
Definition truthy_str (s : string) : bool :=
  match s with EmptyString => false | String _ _ => true end.

(** [Number.prototype.toString] of a non-negative integer, as in a template
    literal. *)
Definition toString (n : N) : string := NilEmpty.string_of_uint (N.to_uint n).

Definition blank (s : jsstring) : bool := forallb isWhiteSpace s.

End JS.

(** ** Rows of the hosted tables (types/database.ts) *)

Module Msg.

(** [Tables<'messages'>]: the [Row] of table [messages].  [created_at] is a
    [timestamptz]; it is kept as the number of microseconds it denotes, which
    is what the backend orders by. *)
Record t : Type := mk {
  id : string;
  chat_id : string;
  patient_id : string;
  sender_id : string;
  sender_type : string;
  message : JS.jsstring;
  created_at : Z
}.

(** Value of a text column of the row, by column name. *)
Definition column (c : string) (m : t) : option string :=
  if c =? "id" then Some (id m)
  else if c =? "chat_id" then Some (chat_id m)
  else if c =? "patient_id" then Some (patient_id m)
  else if c =? "sender_id" then Some (sender_id m)
  else if c =? "sender_type" then Some (sender_type m)
  else None.

Definition ids (l : list t) : list string := map id l.

(** [a] was not created after [b]. *)
Definition not_later (a b : t) : Prop := (created_at a <= created_at b)%Z.

End Msg.

Module Chat.

(** [Tables<'chats'>]. *)
Record t : Type := mk {
  id : string;
  patient_id : string;
  doctor_id : string;
  created_at : Z
}.

End Chat.

(** ** The realtime client *)

Module Realtime.

(** A [postgres_changes] filter [`col=eq.val`]. *)
Record row_filter : Type := Eq { col : string; val : string }.

(** Whether a row satisfies a filter; [column] reads a column of the row. *)
Definition matches {Row : Type} (column : string -> Row -> option string)
    (f : row_filter) (m : Row) : bool :=
  match column (col f) m with
  | Some v => v =? val f
  | None => false
  end.

(** A subscribed channel object.  [handle] stands for the identity of the
    JavaScript object, [name] for the topic string it was created with. *)
Record channel : Type := Channel {
  handle : nat;
  name : string;
  on_insert : row_filter
}.

(** The client keeps the channels that are currently subscribed. *)
Record client : Type := Client {
  channels : list channel;
  next_handle : nat
}.

Definition empty : client := {| channels := []; next_handle := 0 |}.

(** Modelled from the spec: [supabase.channel(name).on('postgres_changes',
    {event: 'INSERT', filter}, handler).subscribe()] of the realtime client,
    which is not part of the sources: it "establishes a filtered subscription
    to insert events" and yields a new channel object. *)
Definition subscribe (c : client) (nm : string) (f : row_filter) : channel * client :=
  let ch := {| handle := next_handle c; name := nm; on_insert := f |} in
  (ch, {| channels := channels c ++ [ch]; next_handle := S (next_handle c) |}).

(** Modelled from the spec: [supabase.removeChannel(ch)] (v1:
    [removeSubscription]) of the realtime client: it "unregisters the
    subscription" so that the channel object receives no further events. *)
Definition removeChannel (c : client) (ch : channel) : client :=
  {| channels := filter (fun x => negb (Nat.eqb (handle x) (handle ch))) (channels c);
     next_handle := next_handle c |}.

(** Modelled from the spec: the channels to whose handler the client passes
    the insert event of row [m]: the subscribed ones whose filter the row
    satisfies. *)
Definition receivers {Row : Type} (column : string -> Row -> option string)
    (c : client) (m : Row) : list channel :=
  filter (fun ch => matches column (on_insert ch) m) (channels c).

End Realtime.

(** ** Backend answers *)

Module Pg.

(** A PostgREST error object.  The screens inspect [code]; [message] is what
    [err.message] shows when the object is an [Error] instance. *)
Record PgError : Type := {
  code : string;
  message : string;
  instanceofError : bool
}.

(** The [{ data, error }] object a query resolves to. *)
Record response (A : Type) : Type := Response {
  data : option A;
  error : option PgError
}.
Arguments Response {A} _ _.
Arguments data {A} _.
Arguments error {A} _.

Definition ok {A} (a : A) : response A := Response (Some a) None.
Definition failed {A} (e : PgError) : response A := Response None (Some e).

(** No (or more than one) row for [.single()]. *)
Definition PGRST116 : PgError :=
  {| code := "PGRST116";
     message := "JSON object requested, multiple (or no) rows returned";
     instanceofError := false |}.

(** unique_violation. *)
Definition E23505 : PgError :=
  {| code := "23505";
     message := "duplicate key value violates unique constraint";
     instanceofError := false |}.

(** not_null_violation. *)
Definition E23502 : PgError :=
  {| code := "23502";
     message := "null value violates not-null constraint";
     instanceofError := false |}.

End Pg.

(** ** Requests to the backend and the programs that issue them *)

Module IO.

(** The payload of an insert into [messages]: the columns the caller gives. *)
Record MsgInsert : Type := {
  chat_id : option string;
  patient_id : option string;
  sender_id : option string;
  sender_type : option string;
  message : option JS.jsstring
}.

(** The queries the chat screens send. *)
Inductive request : Type -> Type :=
| SelectChat (patient doctor : string) : request (Pg.response string)
    (* from('chats').select('id').eq('patient_id', patient)
         .eq('doctor_id', doctor).single(); [data] is the row's id *)
| InsertChat (patient doctor : string) : request (Pg.response string)
    (* from('chats').insert({patient_id, doctor_id}).select('id').single() *)
| InsertMessage (row : MsgInsert) : request (Pg.response unit)
    (* from('messages').insert(row) *)
| SelectMessages (column value : string) : request (Pg.response (list Msg.t)).
    (* from('messages').select('*').eq(column, value)
         .order('created_at', {ascending: true}) *)

(** A program that awaits backend calls and then returns. *)
Inductive io (A : Type) : Type :=
| Ret (a : A)
| Call {R : Type} (q : request R) (k : R -> io A).
Arguments Ret {A} _.
Arguments Call {A R} _ _.

Fixpoint bind {A B} (p : io A) (f : A -> io B) : io B :=
  match p with
  | Ret a => f a
  | Call q k => Call q (fun r => bind (k r) f)
  end.

Definition await {R} (q : request R) : io R := Call q Ret.

(** A request as it appears in a call log. *)
Inductive call : Type :=
| CallSelectChat (patient doctor : string)
| CallInsertChat (patient doctor : string)
| CallInsertMessage (row : MsgInsert)
| CallSelectMessages (column value : string).

Definition logged {R} (q : request R) : call :=
  match q with
  | SelectChat p d => CallSelectChat p d
  | InsertChat p d => CallInsertChat p d
  | InsertMessage row => CallInsertMessage row
  | SelectMessages c v => CallSelectMessages c v
  end.

(** A backend with state [S]. *)
Definition backend (S : Type) : Type := forall R, request R -> S -> R * S.

(** Running a program against a backend: the result, the backend's final
    state and the calls that reached it, in order. *)
Fixpoint run {S A} (serve : backend S) (p : io A) (s : S) : A * S * list call :=
  match p with
  | Ret a => (a, s, [])
  | Call q k =>
      let '(r, s1) := serve _ q s in
      let '(a, s2, l) := run serve (k r) s1 in
      (a, s2, logged q :: l)
  end.

(** How a JavaScript promise settles. *)
Inductive completion : Type :=
| Resolved
| Rejected (reason : string).

(** Scripted answers, one per kind of request. *)
Record answers : Type := {
  on_SelectChat : Pg.response string;
  on_InsertChat : Pg.response string;
  on_InsertMessage : Pg.response unit;
  on_SelectMessages : Pg.response (list Msg.t)
}.

Definition answer (a : answers) : backend unit :=
  fun R q s =>
    match q in request R0 return R0 * unit with
    | SelectChat _ _ => (on_SelectChat a, s)
    | InsertChat _ _ => (on_InsertChat a, s)
    | InsertMessage _ => (on_InsertMessage a, s)
    | SelectMessages _ _ => (on_SelectMessages a, s)
    end.

(** [P] holds of whatever [p] returns, whatever the backend answers. *)
Fixpoint always {A} (P : A -> Prop) (p : io A) : Prop :=
  match p with
  | Ret a => P a
  | Call q k => forall r, always P (k r)
  end.

(** The result and the call log of [p] under scripted answers. *)
Definition play {A} (a : answers) (p : io A) : A * list call :=
  let '(x, _, l) := run (answer a) p tt in (x, l).

End IO.

Notation "x <- p ;; q" := (IO.bind p (fun x => q))
  (at level 61, p at next level, right associativity).

(** ** The hosted tables *)

Module Store.

(** The tables [chats] and [messages] in insertion order, the constraint on
    [chats] (its migration is not among the sources, so whether the pair
    (patient_id, doctor_id) is unique is a parameter), the clock behind
    [DEFAULT now()] and the supply behind [DEFAULT gen_random_uuid()]. *)
Record t : Type := mk {
  chats : list Chat.t;
  messages : list Msg.t;
  chats_pair_unique : bool;
  now : Z;
  next_uuid : N
}.

Definition uuid (n : N) : string := "u" ++ JS.toString n.

Definition is_pair (patient doctor : string) (c : Chat.t) : bool :=
  (Chat.patient_id c =? patient) && (Chat.doctor_id c =? doctor).

Definition pair_rows (patient doctor : string) (s : t) : list Chat.t :=
  filter (is_pair patient doctor) (chats s).

(** Modelled from the spec: [.single()] of the hosted query service, which
    is not part of the sources: the row when exactly one is "found", else
    the error PGRST116 that the screen reads as "not found". *)
Definition single {A} (l : list A) : Pg.response A :=
  match l with
  | [x] => Pg.ok x
  | _ => Pg.failed Pg.PGRST116
  end.

Definition on_column (column value : string) (m : Msg.t) : bool :=
  match Msg.column column m with
  | Some v => v =? value
  | None => false
  end.

Fixpoint insert_by_created_at (m : Msg.t) (l : list Msg.t) : list Msg.t :=
  match l with
  | [] => [m]
  | x :: r =>
      if (Msg.created_at m <=? Msg.created_at x)%Z then m :: l
      else x :: insert_by_created_at m r
  end.

(** [ORDER BY created_at ASC]; rows of equal time keep their table order. *)
Definition order_by_created_at (l : list Msg.t) : list Msg.t :=
  fold_right insert_by_created_at [] l.

(** Modelled from the spec: the hosted query behind [fetchMessages]: it
    "returns all messages for the conversation ordered by creation timestamp
    ascending", the conversation being what the [eq] filter of the caller
    selects. *)
Definition select_messages (column value : string) (s : t) : list Msg.t :=
  order_by_created_at (filter (on_column column value) (messages s)).

(** Modelled from the spec: the hosted insert into [chats]: it creates the
    record with a store-assigned id, and fails with a "unique-constraint
    violation" when the id is taken or, under the constraint, when the pair
    already has a record. *)
Definition insert_chat (patient doctor : string) (s : t)
    : Pg.response string * t :=
  let new_id := uuid (next_uuid s) in
  if existsb (fun c => Chat.id c =? new_id) (chats s) then
    (Pg.failed Pg.E23505, s)
  else if chats_pair_unique s && existsb (is_pair patient doctor) (chats s) then
    (Pg.failed Pg.E23505, s)
  else
    (Pg.ok new_id,
     mk (chats s ++ [Chat.mk new_id patient doctor (now s)]) (messages s)
        (chats_pair_unique s) (now s) (N.succ (next_uuid s))).

(** The row an insert creates; every column of [Insert] that
    types/database.ts requires must be given. *)
Definition new_row (row : IO.MsgInsert) (s : t) : option Msg.t :=
  match IO.chat_id row, IO.patient_id row, IO.sender_id row,
        IO.sender_type row, IO.message row with
  | Some c, Some p, Some sd, Some st, Some body =>
      Some (Msg.mk (uuid (next_uuid s)) c p sd st body (now s))
  | _, _, _, _, _ => None
  end.

(** Modelled from the spec: the hosted insert into [messages]: it "persists
    a new message" with "store-assigned id and timestamp", or fails. *)
Definition insert_message (row : IO.MsgInsert) (s : t)
    : Pg.response unit * t :=
  match new_row row s with
  | None => (Pg.failed Pg.E23502, s)
  | Some m =>
      if existsb (fun x => Msg.id x =? Msg.id m) (messages s) then
        (Pg.failed Pg.E23505, s)
      else
        (Pg.Response None None,
         mk (chats s) (messages s ++ [m]) (chats_pair_unique s) (now s)
            (N.succ (next_uuid s)))
  end.

Definition serve : IO.backend t :=
  fun R q s =>
    match q in IO.request R0 return R0 * t with
    | IO.SelectChat p d => (single (map Chat.id (pair_rows p d s)), s)
    | IO.InsertChat p d => insert_chat p d s
    | IO.InsertMessage row => insert_message row s
    | IO.SelectMessages c v => (Pg.ok (select_messages c v s), s)
    end.

(** A backend shared with other clients: after each of our requests the
    next pending action of the others is applied. *)
Definition shared : IO.backend (t * list (t -> t)) :=
  fun R q st =>
    let '(r, s1) := serve R q (fst st) in
    match snd st with
    | [] => (r, (s1, []))
    | f :: others => (r, (f s1, others))
    end.

End Store.

(** What reaches the user or the developer console. *)
Inductive ui_effect : Type :=
| Alert (title text : string)
| ConsoleError (label : string).

(** ** app/chat/[patientId].tsx: subscription life cycle *)

Module PatientChat.

Record Doctor : Type := { doctor_id : string; doctor_name : string }.
Record Patient : Type := { patient_id : string; patient_name : string }.

(** The component's state ([useState] and [useRef] cells) and the effects it
    has produced so far. *)
Record View : Type := mkView {
  messages : list Msg.t;
  newMessage : JS.jsstring;
  error : option string;
  sending : bool;
  patient : option Patient;
  currentDoctor : option Doctor;
  channelRef : option Realtime.channel;
  ui : list ui_effect
}.

Definition set_messages (l : list Msg.t) (v : View) : View :=
  mkView l (newMessage v) (error v) (sending v) (patient v) (currentDoctor v)
         (channelRef v) (ui v).
Definition set_newMessage (s : JS.jsstring) (v : View) : View :=
  mkView (messages v) s (error v) (sending v) (patient v) (currentDoctor v)
         (channelRef v) (ui v).
Definition set_error (e : option string) (v : View) : View :=
  mkView (messages v) (newMessage v) e (sending v) (patient v) (currentDoctor v)
         (channelRef v) (ui v).
Definition set_sending (b : bool) (v : View) : View :=
  mkView (messages v) (newMessage v) (error v) b (patient v) (currentDoctor v)
         (channelRef v) (ui v).
Definition set_channelRef (c : option Realtime.channel) (v : View) : View :=
  mkView (messages v) (newMessage v) (error v) (sending v) (patient v)
         (currentDoctor v) c (ui v).
Definition emit (e : ui_effect) (v : View) : View :=
  mkView (messages v) (newMessage v) (error v) (sending v) (patient v)
         (currentDoctor v) (channelRef v) (ui v ++ [e]).

Definition initial : View :=
  mkView [] [] None false None None None [].

(** [handleNewMessage]: [setMessages(prev => [...prev, payload.new])]. *)
Definition handleNewMessage (payload_new : Msg.t) (v : View) : View :=
  set_messages (messages v ++ [payload_new]) v.

(** The view together with the realtime client it subscribes through. *)
Record World : Type := mkWorld { view : View; client : Realtime.client }.

Definition start : World := mkWorld initial Realtime.empty.

(** The topic [`chat:${patientId}:${Date.now()}`]. *)
Definition channelName (patientId : string) (now : N) : string :=
  "chat:" ++ patientId ++ ":" ++ JS.toString now.

(** The effect clean-up, also the first statement of [subscribeToMessages]:
    [if (channelRef.current) { supabase.removeChannel(channelRef.current);
    channelRef.current = null; }]. *)
Definition cleanup (w : World) : World :=
  match channelRef (view w) with
  | Some ch => mkWorld (set_channelRef None (view w))
                       (Realtime.removeChannel (client w) ch)
  | None => w
  end.

(** [subscribeToMessages], called in a closure over [patientId] when the
    clock reads [now]. *)
Definition subscribeToMessages (patientId : string) (now : N) (w : World) : World :=
  let w1 := cleanup w in
  let '(ch, c) :=
    Realtime.subscribe (client w1) (channelName patientId now)
      (Realtime.Eq "patient_id" patientId) in
  mkWorld (set_channelRef (Some ch) (view w1)) c.

(** The end of [fetchMessages], once the query has resolved to [r]. *)
Definition fetched (r : Pg.response (list Msg.t)) (v : View) : View :=
  match Pg.error r with
  | Some err =>
      set_error
        (Some (if Pg.instanceofError err then Pg.message err
               else "Failed to load messages."))
        (emit (ConsoleError "Error fetching messages:") v)
  | None =>
      set_messages (match Pg.data r with Some l => l | None => [] end) v
  end.

(** The backend broadcasts the insertion of row [m]: the client calls the
    handler of every receiving channel, here always [handleNewMessage]. *)
Definition deliver (m : Msg.t) (w : World) : World :=
  mkWorld (fold_left (fun v _ => handleNewMessage m v)
                     (Realtime.receivers Msg.column (client w) m) (view w))
          (client w).

(** Whether the insertion of [m] reaches the view. *)
Definition delivers (w : World) (m : Msg.t) : bool :=
  match Realtime.receivers Msg.column (client w) m with [] => false | _ :: _ => true end.

(** What can happen to an open view. *)
Inductive event : Type :=
| Fetched (r : Pg.response (list Msg.t))
| Subscribe (patientId : string) (now : N)
| Cleanup
| Inserted (m : Msg.t).

Definition step (w : World) (e : event) : World :=
  match e with
  | Fetched r => mkWorld (fetched r (view w)) (client w)
  | Subscribe p now => subscribeToMessages p now w
  | Cleanup => cleanup w
  | Inserted m => deliver m w
  end.

Definition run (w : World) (tr : list event) : World := fold_left step tr w.

(** The channels the client holds are exactly the one in [channelRef]. *)
Definition owned (w : World) : Prop :=
  Realtime.channels (client w) =
  match channelRef (view w) with Some ch => [ch] | None => [] end.

(** The channel in [channelRef] was created by [subscribeToMessages]. *)
Definition tagged (w : World) : Prop :=
  forall ch, channelRef (view w) = Some ch ->
    Realtime.handle ch < Realtime.next_handle (client w)
    /\ Realtime.col (Realtime.on_insert ch) = "patient_id".

(** [fetchMessages]. *)
Definition fetchMessages (patientId : string) (v : View) : IO.io View :=
  r <- IO.await (IO.SelectMessages "patient_id" patientId) ;;
  IO.Ret (fetched r v).

(** How the body of the [try] block of [sendMessage] ends. *)
Inductive outcome (A : Type) : Type :=
| Done (a : A)
| Threw.
Arguments Done {A} _.
Arguments Threw {A}.

(** Lines 185-195 of [sendMessage]: insert the [chats] record of the pair
    and read back its id. *)
Definition createChat (patientId doctorId : string) : IO.io (outcome string) :=
  newChat <- IO.await (IO.InsertChat patientId doctorId) ;;
  match Pg.error newChat with
  | Some _ => IO.Ret Threw
  | None =>
      match Pg.data newChat with
      | Some new_id => IO.Ret (Done new_id)
      | None => IO.Ret Threw              (* [newChat.id] of null *)
      end
  end.

(** [chatError && chatError.code !== 'PGRST116']. *)
Definition fatal (chatError : option Pg.PgError) : bool :=
  match chatError with
  | Some e => negb (Pg.code e =? "PGRST116")
  | None => false
  end.

(** [!chatId] for [chatId = chat?.id]. *)
Definition missing (chat : option string) : bool :=
  match chat with
  | Some chatId => negb (JS.truthy_str chatId)
  | None => true
  end.

(** Lines 172-196 of [sendMessage]: find the [chats] record of the pair or
    create it. *)
Definition resolveConversation (patientId doctorId : string)
    : IO.io (outcome string) :=
  chat <- IO.await (IO.SelectChat patientId doctorId) ;;
  if fatal (Pg.error chat) then IO.Ret Threw
  else
    match Pg.data chat with
    | Some chatId =>
        if missing (Pg.data chat) then createChat patientId doctorId
        else IO.Ret (Done chatId)
    | None => createChat patientId doctorId
    end.

(** The [catch] block followed by [finally]. *)
Definition caught (v : View) : View :=
  set_sending false
    (emit (Alert "Error" "Failed to send message")
       (emit (ConsoleError "Error sending message:") v)).

(** The row [sendMessage] inserts. *)
Definition outgoing (patientId : string) (doc : Doctor) (chatId : string)
    (body : JS.jsstring) : IO.MsgInsert :=
  {| IO.chat_id := Some chatId;
     IO.patient_id := Some patientId;
     IO.sender_id := Some (doctor_id doc);
     IO.sender_type := Some "doctor";
     IO.message := Some (JS.trim body) |}.

(** [sendMessage]; the promise it returns always resolves. *)
Definition sendMessage (patientId : string) (v : View)
    : IO.io (IO.completion * View) :=
  match currentDoctor v with
  | None => IO.Ret (IO.Resolved, v)
  | Some doc =>
      if negb (JS.truthy (JS.trim (newMessage v))) || sending v then
        IO.Ret (IO.Resolved, v)
      else
        let v1 := set_sending true v in
        chatId <- resolveConversation patientId (doctor_id doc) ;;
        match chatId with
        | Threw => IO.Ret (IO.Resolved, caught v1)
        | Done chatId =>
            r <- IO.await (IO.InsertMessage
                             (outgoing patientId doc chatId (newMessage v))) ;;
            match Pg.error r with
            | Some _ => IO.Ret (IO.Resolved, caught v1)
            | None => IO.Ret (IO.Resolved, set_sending false (set_newMessage [] v1))
            end
        end
  end.

End PatientChat.

(** ** components/RealTimeChat.tsx *)

Module RealTimeChat.

(** The component's state and the effects it has produced. *)
Record View : Type := mkView {
  messages : list Msg.t;
  input : JS.jsstring;
  ui : list ui_effect
}.

Definition initial : View := mkView [] [] [].

(** The [INSERT] handler: [setMessages(prev => [...prev, payload.new])]. *)
Definition onInsert (payload_new : Msg.t) (v : View) : View :=
  mkView (messages v ++ [payload_new]) (input v) (ui v).

(** The view, the realtime client and the [subscription] constant of the
    effect that is in force. *)
Record World : Type := mkWorld {
  view : View;
  client : Realtime.client;
  subscription : option Realtime.channel
}.

Definition start : World := mkWorld initial Realtime.empty None.

(** The clean-up the effect returns:
    [supabase.removeSubscription(subscription)]. *)
Definition cleanup (w : World) : World :=
  match subscription w with
  | Some sub => mkWorld (view w) (Realtime.removeChannel (client w) sub) None
  | None => w
  end.

(** The effect of [useEffect(..., [chatId])]; React runs the clean-up of the
    previous run first.  The topic is [`messages:chat_id=eq.${chatId}`]. *)
Definition effect (chatId : string) (w : World) : World :=
  let w1 := cleanup w in
  let '(sub, c) :=
    Realtime.subscribe (client w1) ("messages:chat_id=eq." ++ chatId)
      (Realtime.Eq "chat_id" chatId) in
  mkWorld (view w1) c (Some sub).

(** The end of [fetchMessages], once the query has resolved to [r]. *)
Definition fetched (r : Pg.response (list Msg.t)) (v : View) : View :=
  match Pg.error r with
  | Some _ =>
      mkView (messages v) (input v)
             (ui v ++ [ConsoleError "Error fetching messages:"])
  | None =>
      mkView (match Pg.data r with Some l => l | None => [] end)
             (input v) (ui v)
  end.

Definition fetchMessages (chatId : string) (v : View) : IO.io View :=
  r <- IO.await (IO.SelectMessages "chat_id" chatId) ;;
  IO.Ret (fetched r v).

Definition deliver (m : Msg.t) (w : World) : World :=
  mkWorld (fold_left (fun v _ => onInsert m v)
                     (Realtime.receivers Msg.column (client w) m) (view w))
          (client w) (subscription w).

Definition delivers (w : World) (m : Msg.t) : bool :=
  match Realtime.receivers Msg.column (client w) m with
  | [] => false
  | _ :: _ => true
  end.

Inductive event : Type :=
| Fetched (r : Pg.response (list Msg.t))
| Effect (chatId : string)
| Unmount
| Inserted (m : Msg.t).

Definition step (w : World) (e : event) : World :=
  match e with
  | Fetched r => mkWorld (fetched r (view w)) (client w) (subscription w)
  | Effect c => effect c w
  | Unmount => cleanup w
  | Inserted m => deliver m w
  end.

Definition run (w : World) (tr : list event) : World := fold_left step tr w.

Definition owned (w : World) : Prop :=
  Realtime.channels (client w) =
  match subscription w with Some ch => [ch] | None => [] end.

(** The row [sendMessage] inserts. *)
Definition outgoing (chatId currentUserId : string) (body : JS.jsstring)
    : IO.MsgInsert :=
  {| IO.chat_id := Some chatId;
     IO.patient_id := None;
     IO.sender_id := Some currentUserId;
     IO.sender_type := None;
     IO.message := Some (JS.trim body) |}.

(** [sendMessage]. *)
Definition sendMessage (chatId currentUserId : string) (v : View)
    : IO.io (IO.completion * View) :=
  if Nat.eqb (List.length (JS.trim (input v))) 0 then IO.Ret (IO.Resolved, v)
  else
    r <- IO.await (IO.InsertMessage (outgoing chatId currentUserId (input v))) ;;
    match Pg.error r with
    | Some _ =>
        IO.Ret (IO.Resolved,
                mkView (messages v) (input v)
                       (ui v ++ [ConsoleError "Error sending message:"]))
    | None => IO.Ret (IO.Resolved, mkView (messages v) [] (ui v))
    end.

End RealTimeChat.

(** ** app/chat/[userId].tsx *)

Module UserChat.

(** The screen's own [Message] interface. *)
Record Message : Type := mkMessage {
  id : string;
  sender_id : string;
  receiver_id : string;
  content : JS.jsstring;
  created_at : Z
}.

Definition column (c : string) (m : Message) : option string :=
  if c =? "id" then Some (id m)
  else if c =? "sender_id" then Some (sender_id m)
  else if c =? "receiver_id" then Some (receiver_id m)
  else None.

(** The filter of the topic [`messages:receiver_id=eq.${user.id}`]. *)
Definition subscription_filter (user : string) : Realtime.row_filter :=
  Realtime.Eq "receiver_id" user.

(** The two disjuncts of the handler's test. *)
Definition from_partner (user userId : string) (newMsg : Message) : bool :=
  (sender_id newMsg =? userId) && (receiver_id newMsg =? user).

Definition from_me (user userId : string) (newMsg : Message) : bool :=
  (sender_id newMsg =? user) && (receiver_id newMsg =? userId).

(** The [INSERT] handler; [user] is [user.id], [userId] the chat partner. *)
Definition onInsert (user userId : string) (newMsg : Message)
    (messages : list Message) : list Message :=
  if from_partner user userId newMsg || from_me user userId newMsg
  then messages ++ [newMsg]
  else messages.

(** The subscription passes to the handler the inserted rows that satisfy
    its filter. *)
Definition deliver (user userId : string) (newMsg : Message)
    (messages : list Message) : list Message :=
  if Realtime.matches column (subscription_filter user) newMsg
  then onInsert user userId newMsg messages
  else messages.

End UserChat.

(** ** Sample data *)

Module Sample.

(** "hello" *)
Definition hello : JS.jsstring := [104; 101; 108; 108; 111]%N.

(** Two spaces, a tab and a no-break space. *)
Definition spaces : JS.jsstring := [32; 32; 9; 160]%N.

Definition m1 : Msg.t := Msg.mk "m1" "c1" "p1" "p1" "patient" hello 1000.
Definition m2 : Msg.t := Msg.mk "m2" "c1" "p1" "d1" "doctor" hello 2000.
Definition m3 : Msg.t := Msg.mk "m3" "c1" "p1" "p1" "patient" hello 2000.

(** A message of patient p1's conversation with another doctor, d2. *)
Definition foreign : Msg.t := Msg.mk "m9" "c2" "p1" "d2" "doctor" hello 3000.

Definition c1 : Chat.t := Chat.mk "c1" "p1" "d1" 10.
Definition c2 : Chat.t := Chat.mk "c2" "p1" "d2" 20.

(** Patient p1 talks to the doctors d1 and d2. *)
Definition two_doctors : Store.t :=
  Store.mk [c1; c2] [m1; foreign] true 5000 0.

(** No conversation yet; the pair is protected by a unique constraint. *)
Definition fresh_unique : Store.t := Store.mk [] [] true 5000 0.

(** No conversation yet and no constraint on the pair. *)
Definition fresh_free : Store.t := Store.mk [] [] false 5000 0.

Definition d1 : PatientChat.Doctor :=
  {| PatientChat.doctor_id := "d1"; PatientChat.doctor_name := "Dr One" |}.

(** Doctor d1 has typed [body] for patient p1. *)
Definition typing (body : JS.jsstring) : PatientChat.View :=
  PatientChat.mkView [m1] body None false None (Some d1) None [].

(** RealTimeChat with [body] in the input box. *)
Definition drafting (body : JS.jsstring) : RealTimeChat.View :=
  RealTimeChat.mkView [m1] body [].

(** The backend finds the conversation c1 and refuses every write (row
    level security). *)
Definition denied : IO.answers :=
  {| IO.on_SelectChat := Pg.ok "c1";
     IO.on_InsertChat := Pg.failed Pg.E23505;
     IO.on_InsertMessage :=
       Pg.failed {| Pg.code := "42501";
                    Pg.message := "new row violates row-level security policy";
                    Pg.instanceofError := false |};
     IO.on_SelectMessages := Pg.ok [] |}.

(** The millisecond clock at the time of a subscription. *)
Definition t0 : N := 1700000000000%N.

End Sample.

(** ** Programs over any family of requests *)

Module Prog.

(** A program that awaits requests of the family [E] and then returns. *)
Inductive t (E : Type -> Type) (A : Type) : Type :=
| Ret (a : A)
| Call {R : Type} (q : E R) (k : R -> t E A).
Arguments Ret {E A} _.
Arguments Call {E A R} _ _.

Fixpoint bind {E A B} (p : t E A) (f : A -> t E B) : t E B :=
  match p with
  | Ret a => f a
  | Call q k => Call q (fun r => bind (k r) f)
  end.

Definition await {E R} (q : E R) : t E R := Call q Ret.

(** What answers the requests, with its own state [S]. *)
Definition handler (E : Type -> Type) (S : Type) : Type :=
  forall R, E R -> S -> R * S.

(** Running a program: the result, the final state of the handler and the
    requests made, in order, as [tag] records them. *)
Fixpoint run {E S L A} (tag : forall R, E R -> L) (serve : handler E S)
    (p : t E A) (s : S) : A * S * list L :=
  match p with
  | Ret a => (a, s, [])
  | Call q k =>
      let '(r, s1) := serve _ q s in
      let '(a, s2, l) := run tag serve (k r) s1 in
      (a, s2, tag _ q :: l)
  end.

(** [P] holds of whatever [p] returns, whatever the answers. *)
Fixpoint always {E A} (P : A -> Prop) (p : t E A) : Prop :=
  match p with
  | Ret a => P a
  | Call q k => forall r, always P (k r)
  end.

End Prog.

Notation "x <-- p ;; q" := (Prog.bind p (fun x => q))
  (at level 61, p at next level, right associativity).

(** ** supabase/migrations: [get_chat_context] *)

Module Db.

(** The JSON object the function returns: [{patient, doctor}], each field
    null when its query has no row. *)
Record ChatContext : Type := {
  patient_info : option PatientChat.Patient;
  doctor_info : option PatientChat.Doctor
}.

Section Tables.

(** The SQL type [uuid] of the id columns and of both arguments: its
    values, their equality, and the text a value has inside a JSON
    result. *)
Variable uuid : Type.
Variable uuid_eqb : uuid -> uuid -> bool.
Variable uuid_out : uuid -> string.

(** The columns of [profiles], [patients] and [doctors] that the function
    reads. *)
Record profile : Type := { profile_user_id : uuid; full_name : string }.
Record patient : Type := { patient_id : uuid; patient_user_id : uuid }.
Record doctor : Type := { doctor_id : uuid; doctor_user_id : uuid }.

Record t : Type := mk {
  patients : list patient;
  doctors : list doctor;
  profiles : list profile
}.

(** [SELECT json_build_object('id', p.id, 'profiles',
    json_build_object('full_name', pr.full_name)) FROM patients p JOIN
    profiles pr ON p.user_id = pr.user_id WHERE p.id = p_patient_id]. *)
Definition patient_rows (p_patient_id : uuid) (db : t)
    : list PatientChat.Patient :=
  flat_map
    (fun p =>
       if uuid_eqb (patient_id p) p_patient_id then
         map (fun pr => {| PatientChat.patient_id := uuid_out (patient_id p);
                           PatientChat.patient_name := full_name pr |})
             (filter (fun pr => uuid_eqb (patient_user_id p)
                                         (profile_user_id pr))
                     (profiles db))
       else [])
    (patients db).

(** The same for [doctors d ... WHERE d.user_id = d_user_id]. *)
Definition doctor_rows (d_user_id : uuid) (db : t)
    : list PatientChat.Doctor :=
  flat_map
    (fun d =>
       if uuid_eqb (doctor_user_id d) d_user_id then
         map (fun pr => {| PatientChat.doctor_id := uuid_out (doctor_id d);
                           PatientChat.doctor_name := full_name pr |})
             (filter (fun pr => uuid_eqb (doctor_user_id d)
                                         (profile_user_id pr))
                     (profiles db))
       else [])
    (doctors db).

(** [get_chat_context(p_patient_id uuid, d_user_id uuid)]; [SELECT ... INTO]
    keeps the first row of its query, or null. *)
Definition get_chat_context (p_patient_id d_user_id : uuid) (db : t)
    : ChatContext :=
  {| patient_info := hd_error (patient_rows p_patient_id db);
     doctor_info := hd_error (doctor_rows d_user_id db) |}.

End Tables.

Arguments profile_user_id {uuid} _.
Arguments full_name {uuid} _.
Arguments patient_id {uuid} _.
Arguments patient_user_id {uuid} _.
Arguments doctor_id {uuid} _.
Arguments doctor_user_id {uuid} _.
Arguments mk {uuid} _ _ _.
Arguments patients {uuid} _.
Arguments doctors {uuid} _.
Arguments profiles {uuid} _.
Arguments patient_rows {uuid} _ _ _ _.
Arguments doctor_rows {uuid} _ _ _ _.
Arguments get_chat_context {uuid} _ _ _ _ _.

End Db.

(** ** app/chat/[patientId].tsx: loading and rendering *)

Module PatientScreen.

Import PatientChat.

(** What [supabase.auth.getUser()] resolves to: the id of [data.user], and
    [error]. *)
Record AuthResponse : Type := {
  user : option string;
  authError : option Pg.PgError
}.

(** The requests of the screen: the ones of [IO], the session, the remote
    procedure and the clock. *)
Inductive request : Type -> Type :=
| GetUser : request AuthResponse
| GetChatContext (p_patient_id d_user_id : string)
    : request (Pg.response Db.ChatContext)
| Query {R : Type} (q : IO.request R) : request R
| DateNow : request N.

Inductive call : Type :=
| CallGetUser
| CallGetChatContext (p_patient_id d_user_id : string)
| CallQuery (c : IO.call)
| CallDateNow.

Definition logged {R} (q : request R) : call :=
  match q with
  | GetUser => CallGetUser
  | GetChatContext p d => CallGetChatContext p d
  | Query q0 => CallQuery (IO.logged q0)
  | DateNow => CallDateNow
  end.

(** A program of [IO] as a program of the screen. *)
Fixpoint lift {A} (p : IO.io A) : Prog.t request A :=
  match p with
  | IO.Ret a => Prog.Ret a
  | IO.Call q k => Prog.Call (Query q) (fun r => lift (k r))
  end.

(** [new Error(message)]. *)
Definition newError (msg : string) : Pg.PgError :=
  {| Pg.code := ""; Pg.message := msg; Pg.instanceofError := true |}.

Definition set_patient (p : option Patient) (v : View) : View :=
  mkView (messages v) (newMessage v) (error v) (sending v) p (currentDoctor v)
         (channelRef v) (ui v).
Definition set_currentDoctor (d : option Doctor) (v : View) : View :=
  mkView (messages v) (newMessage v) (error v) (sending v) (patient v) d
         (channelRef v) (ui v).

(** The [catch] block of [fetchChatContext]. *)
Definition caughtContext (err : Pg.PgError) (v : View) : bool * View :=
  (false,
   set_error
     (Some (if Pg.instanceofError err then Pg.message err
            else "An unknown error occurred while loading chat information."))
     (emit (ConsoleError "Error fetching chat context:") v)).

(** [fetchChatContext]. *)
Definition fetchChatContext (patientId : string) (v : View)
    : Prog.t request (bool * View) :=
  auth <-- Prog.await GetUser ;;
  match authError auth with
  | Some e => Prog.Ret (caughtContext e v)
  | None =>
      match user auth with
      | None =>
          Prog.Ret (caughtContext
                      (newError "User not authenticated. Please log in.") v)
      | Some uid =>
          r <-- Prog.await (GetChatContext patientId uid) ;;
          match Pg.error r with
          | Some e => Prog.Ret (caughtContext e v)
          | None =>
              match Pg.data r with
              | Some chatContext =>
                  match Db.patient_info chatContext,
                        Db.doctor_info chatContext with
                  | Some p, Some d =>
                      Prog.Ret (true,
                                set_currentDoctor (Some d)
                                  (set_patient (Some p) v))
                  | _, _ =>
                      Prog.Ret (caughtContext
                        (newError "Could not load patient or doctor information. The user may not exist or you may not have permission.")
                        v)
                  end
              | None =>
                  Prog.Ret (caughtContext
                    (newError "Failed to retrieve chat context from the server.")
                    v)
              end
          end
      end
  end.

(** The screen: the view with its realtime client, and [loading]. *)
Record Screen : Type := mkScreen { world : World; loading : bool }.

(** The state a newly mounted screen starts from. *)
Definition mounted : Screen := mkScreen start true.

(** [loadChatData] of the effect. *)
Definition loadChatData (patientId : string) (s : Screen)
    : Prog.t request Screen :=
  let v0 := set_error None (view (world s)) in
  r <-- fetchChatContext patientId v0 ;;
  if fst r then
    v1 <-- lift (fetchMessages patientId (snd r)) ;;
    now <-- Prog.await DateNow ;;
    Prog.Ret (mkScreen
                (subscribeToMessages patientId now
                   (mkWorld v1 (client (world s))))
                false)
  else
    Prog.Ret (mkScreen (mkWorld (snd r) (client (world s))) false).

(** The body of the effect, up to the clean-up it returns. *)
Definition effect (patientId : string) (s : Screen) : Prog.t request Screen :=
  if negb (JS.truthy_str patientId) then
    Prog.Ret (mkScreen
                (mkWorld (set_error (Some "No patient ID provided.")
                            (view (world s)))
                         (client (world s)))
                false)
  else loadChatData patientId s.

(** Which of the three returns of the component is rendered. *)
Inductive shown : Type :=
| LoadingView
| ErrorView (msg : string)
| ChatView.

Definition render (s : Screen) : shown :=
  if loading s then LoadingView
  else
    match error (view (world s)) with
    | Some e => if JS.truthy_str e then ErrorView e else ChatView
    | None => ChatView
    end.

(** [a || b] on strings. *)
Definition or_else (a b : string) : string :=
  if JS.truthy_str a then a else b.

(** What [renderMessage] shows of a message: on which side, under which
    name, with which time and text. *)
Record bubble : Type := {
  isDoctor : bool;
  senderName : string;
  messageTime : string;
  messageContent : JS.jsstring
}.

(** [renderMessage]; [formatTime] renders the time of day in the locale of
    the device. *)
Definition renderMessage (formatTime : Z -> string) (item : Msg.t) (v : View)
    : option bubble :=
  match currentDoctor v, patient v with
  | Some d, Some p =>
      let is_doctor := Msg.sender_id item =? doctor_id d in
      Some {| isDoctor := is_doctor;
              senderName :=
                if is_doctor
                then ("Dr. " ++ or_else (doctor_name d) "Doctor")%string
                else or_else (patient_name p) "Patient";
              messageTime := formatTime (Msg.created_at item);
              messageContent := Msg.message item |}
  | _, _ => None
  end.

(** [disabled] of the send button. *)
Definition sendDisabled (v : View) : bool :=
  negb (JS.truthy (JS.trim (newMessage v))) || sending v.

(** Scripted answers for one run of the effect. *)
Record answers : Type := {
  on_GetUser : AuthResponse;
  on_GetChatContext : Pg.response Db.ChatContext;
  on_Query : IO.answers;
  on_DateNow : N
}.

Definition answer (a : answers) : Prog.handler request unit :=
  fun R q s =>
    match q in request R0 return R0 * unit with
    | GetUser => (on_GetUser a, s)
    | GetChatContext _ _ => (on_GetChatContext a, s)
    | Query q0 => IO.answer (on_Query a) _ q0 s
    | DateNow => (on_DateNow a, s)
    end.

Definition play {A} (a : answers) (p : Prog.t request A) : A * list call :=
  let '(x, _, l) := Prog.run (@logged) (answer a) p tt in (x, l).

Section Backend.

(** The SQL type [uuid] as in [Db], and the cast of a JSON text to it, which
    the service applies to both arguments of the call; [None] for a text
    that is not a uuid. *)
Variable uuid : Type.
Variable uuid_eqb : uuid -> uuid -> bool.
Variable uuid_out : uuid -> string.
Variable uuid_in : string -> option uuid.

(** The backend proper: the session, the tables behind the procedure, the
    message store, the clock of the device, and whether the error objects
    of the client library are [Error] instances. *)
Record Server : Type := {
  session : AuthResponse;
  db : Db.t uuid;
  store : Store.t;
  clock : N;
  errors_are_Errors : bool
}.

(** invalid_text_representation, the answer to an argument that is not a
    uuid; the procedure is not run. *)
Definition E22P02 (text : string) (is_Error : bool) : Pg.PgError :=
  {| Pg.code := "22P02";
     Pg.message :=
       ("invalid input syntax for type uuid: "
        ++ String (ascii_of_nat 34) text
        ++ String (ascii_of_nat 34) EmptyString)%string;
     Pg.instanceofError := is_Error |}.

Definition rpc_get_chat_context (p_patient_id d_user_id : string)
    (s : Server) : Pg.response Db.ChatContext :=
  match uuid_in p_patient_id with
  | None => Pg.failed (E22P02 p_patient_id (errors_are_Errors s))
  | Some p =>
      match uuid_in d_user_id with
      | None => Pg.failed (E22P02 d_user_id (errors_are_Errors s))
      | Some d => Pg.ok (Db.get_chat_context uuid_eqb uuid_out p d (db s))
      end
  end.

Definition serve : Prog.handler request Server :=
  fun R q s =>
    match q in request R0 return R0 * Server with
    | GetUser => (session s, s)
    | GetChatContext p d => (rpc_get_chat_context p d s, s)
    | Query q0 =>
        let '(r, st) := Store.serve _ q0 (store s) in
        (r, {| session := session s; db := db s; store := st;
               clock := clock s;
               errors_are_Errors := errors_are_Errors s |})
    | DateNow => (clock s, s)
    end.

End Backend.

Arguments session {uuid} _.
Arguments db {uuid} _.
Arguments store {uuid} _.
Arguments clock {uuid} _.
Arguments errors_are_Errors {uuid} _.
Arguments rpc_get_chat_context {uuid} _ _ _ _ _ _.
Arguments serve {uuid} _ _ _ _ _ _.

End PatientScreen.

(** ** Text *)

Module Text.

(** The code units of a string literal of the sources (ASCII). *)
Definition lit (s : string) : JS.jsstring :=
  map N_of_ascii (list_ascii_of_string s).

Fixpoint startsWith (s sub : JS.jsstring) : bool :=
  match sub, s with
  | [], _ => true
  | _ :: _, [] => false
  | c :: sub', d :: s' => (c =? d)%N && startsWith s' sub'
  end.

(** [String.prototype.includes]. *)
Fixpoint includes (s sub : JS.jsstring) : bool :=
  startsWith s sub
  || match s with
     | [] => false
     | _ :: s' => includes s' sub
     end.

End Text.

(** ** app/chat/[userId].tsx: sending and history *)

Module UserChatScreen.

Import UserChat.

(** The component's state and what it has written to the console. *)
Record View : Type := mkView {
  messages : list Message;
  newMessage : JS.jsstring;
  ui : list ui_effect
}.

(** A row given to [insert]; [content] is absent when the reply read from
    the endpoint has no [advice]. *)
Record Insert : Type := {
  insert_sender_id : string;
  insert_receiver_id : string;
  insert_content : option JS.jsstring
}.

(** How [fetch] and then [response.json()] end: the request fails, or a
    response arrives with its [ok] flag and, when its body parses to an
    object, the [advice] field of it, if any. *)
Inductive HttpResult : Type :=
| NetworkError
| HttpResponse (ok : bool) (json : option (option JS.jsstring)).

Inductive request : Type -> Type :=
| InsertMessages (row : Insert) : request (Pg.response unit)
    (* from('messages').insert([row]) *)
| PostChat (message : JS.jsstring) : request HttpResult.
    (* fetch('http://localhost:8000/chat', POST, {message}) *)

Inductive call : Type :=
| CallInsertMessages (row : Insert)
| CallPostChat (message : JS.jsstring).

Definition logged {R} (q : request R) : call :=
  match q with
  | InsertMessages row => CallInsertMessages row
  | PostChat m => CallPostChat m
  end.

Definition log_error (label : string) (v : View) : View :=
  mkView (messages v) (newMessage v) (ui v ++ [ConsoleError label]).

(** [sendMessage]; [user] is [user?.id], [userId] the chat partner. *)
Definition sendMessage (user : option string) (userId : string) (v : View)
    : Prog.t request View :=
  match user with
  | None => Prog.Ret v
  | Some uid =>
      if negb (JS.truthy (JS.trim (newMessage v))) then Prog.Ret v
      else
        r <-- Prog.await (InsertMessages
                {| insert_sender_id := uid;
                   insert_receiver_id := userId;
                   insert_content := Some (JS.trim (newMessage v)) |}) ;;
        match Pg.error r with
        | Some _ => Prog.Ret (log_error "Error sending user message:" v)
        | None =>
            let v1 := mkView (messages v) [] (ui v) in
            h <-- Prog.await (PostChat (JS.trim (newMessage v))) ;;
            match h with
            | NetworkError =>
                Prog.Ret (log_error
                            "Error communicating with AI chat endpoint:" v1)
            | HttpResponse false _ =>
                Prog.Ret (log_error "Error from AI chat endpoint:" v1)
            | HttpResponse true None =>
                Prog.Ret (log_error
                            "Error communicating with AI chat endpoint:" v1)
            | HttpResponse true (Some aiAdvice) =>
                r2 <-- Prog.await (InsertMessages
                         {| insert_sender_id := "ai_bot";
                            insert_receiver_id := uid;
                            insert_content := aiAdvice |}) ;;
                match Pg.error r2 with
                | Some _ => Prog.Ret (log_error "Error sending AI message:" v1)
                | None => Prog.Ret v1
                end
            end
        end
  end.

(** The filter of [fetchMessages]:
    [or(and(sender_id.eq.user, receiver_id.eq.userId),
        and(sender_id.eq.userId, receiver_id.eq.user))]. *)
Definition selected (user userId : string) (m : Message) : bool :=
  (sender_id m =? user) && (receiver_id m =? userId)
  || (sender_id m =? userId) && (receiver_id m =? user).

Fixpoint insert_by_created_at (m : Message) (l : list Message)
    : list Message :=
  match l with
  | [] => [m]
  | x :: r =>
      if (created_at m <=? created_at x)%Z then m :: l
      else x :: insert_by_created_at m r
  end.

(** Modelled from the spec: the hosted query behind [fetchMessages], which
    is not part of the sources: the rows of the table that satisfy the
    filter, "ordered by creation timestamp ascending". *)
Definition history (user userId : string) (table : list Message)
    : list Message :=
  fold_right insert_by_created_at [] (filter (selected user userId) table).

(** The end of [fetchMessages]: [if (!error && data) setMessages(data)]. *)
Definition fetched (r : Pg.response (list Message)) (v : View) : View :=
  match Pg.error r, Pg.data r with
  | None, Some l => mkView l (newMessage v) (ui v)
  | _, _ => v
  end.

(** Scripted answers: one per inserted row and per posted message. *)
Record answers : Type := {
  on_InsertMessages : Insert -> Pg.response unit;
  on_PostChat : JS.jsstring -> HttpResult
}.

Definition answer (a : answers) : Prog.handler request unit :=
  fun R q s =>
    match q in request R0 return R0 * unit with
    | InsertMessages row => (on_InsertMessages a row, s)
    | PostChat m => (on_PostChat a m, s)
    end.

Definition play {A} (a : answers) (p : Prog.t request A) : A * list call :=
  let '(x, _, l) := Prog.run (@logged) (answer a) p tt in (x, l).

End UserChatScreen.

(** ** components/AIChat.tsx: sending *)

Module AIChat.

Section Component.

(** JSON numbers and the rows of the context are only passed on. *)
Variables (number context : Type).

Inductive sender : Type := user | ai.

(** A JSON value, as [response.json()] resolves to. *)
#[warnings="-register-all"] Inductive json : Type :=
| JNull
| JBool (b : bool)
| JNumber (n : number)
| JString (s : JS.jsstring)
| JArray (items : list json)
| JObject (members : list (string * json)).

(** The member of an object under a key; [JSON.parse] keeps the last of
    several members with one key. *)
Fixpoint lookup (k : string) (ms : list (string * json)) : option json :=
  match ms with
  | [] => None
  | (k', x) :: rest =>
      match lookup k rest with
      | Some y => Some y
      | None => if (k' =? k)%string then Some x else None
      end
  end.

(** [value.key] for a value that is not null, [None] for [undefined]; none
    of the names the component reads is a property of a string, a number, a
    boolean or an array. *)
Definition member (k : string) (value : json) : option json :=
  match value with
  | JObject ms => lookup k ms
  | _ => None
  end.

(** The fields hold what was assigned, whatever the declared type; [None]
    is [undefined] or an absent field. *)
Record Message : Type := mkMessage {
  id : string;
  text : option json;
  from : sender;
  timestamp : N;
  suggestions : option json;
  confidence : option json
}.

(** How [fetch] and then [response.json()] end: [fetch] rejects, or it
    resolves to a response with its [ok] flag and a body that parses to a
    JSON value or does not parse. *)
Inductive HttpResult : Type :=
| NetworkError
| HttpResponse (ok : bool) (body : option json).

Record View : Type := mkView {
  messages : list Message;
  input : JS.jsstring;
  loading : bool;
  aiContext : context;
  ui : list ui_effect
}.

Inductive request : Type -> Type :=
| DateNow : request N
    (* Date.now() and new Date() *)
| PostAiChat (message : JS.jsstring) (user_id : string) (ctx : context)
    : request HttpResult.
    (* fetch('http://localhost:8000/ai-chat', POST, {message, user_id, context}) *)

Inductive call : Type :=
| CallDateNow
| CallPostAiChat (message : JS.jsstring) (user_id : string).

Definition logged {R} (q : request R) : call :=
  match q with
  | DateNow => CallDateNow
  | PostAiChat m u _ => CallPostAiChat m u
  end.

Definition append (m : Message) (v : View) : View :=
  mkView (messages v ++ [m]) (input v) (loading v) (aiContext v) (ui v).

Definition fallbackText : JS.jsstring :=
  Text.lit "I'm having trouble connecting to the AI service. Please check your internet connection and try again.".

(** The [catch] block with the fallback reply, then [finally]. *)
Definition fallback (v : View) : Prog.t request View :=
  now <-- Prog.await DateNow ;;
  stamp <-- Prog.await DateNow ;;
  Prog.Ret
    (mkView
       (messages v
        ++ [mkMessage (JS.toString (now + 1)) (Some (JString fallbackText))
              ai stamp None None])
       (input v) false (aiContext v)
       (ui v ++ [ConsoleError "Error getting AI response:";
                 Alert "Error" "Failed to get AI response. Please try again."])).

(** [sendMessage].  The fields of [aiMessage] are evaluated in the order
    written: [Date.now()] for the id is read before [aiData.response], which
    throws when the body is null; everything thrown inside [try] ends in the
    fallback. *)
Definition sendMessage (userId : string) (v : View) : Prog.t request View :=
  if negb (JS.truthy (JS.trim (input v))) then Prog.Ret v
  else
    now <-- Prog.await DateNow ;;
    stamp <-- Prog.await DateNow ;;
    let userMessage :=
      mkMessage (JS.toString now) (Some (JString (input v))) user stamp
        None None in
    let v1 :=
      mkView (messages v ++ [userMessage]) [] true (aiContext v) (ui v) in
    h <-- Prog.await (PostAiChat (input v) userId (aiContext v)) ;;
    match h with
    | NetworkError => fallback v1
    | HttpResponse false _ => fallback v1
    | HttpResponse true None => fallback v1
    | HttpResponse true (Some aiData) =>
        now2 <-- Prog.await DateNow ;;
        match aiData with
        | JNull => fallback v1
        | _ =>
            stamp2 <-- Prog.await DateNow ;;
            Prog.Ret
              (mkView
                 (messages v1
                  ++ [mkMessage (JS.toString (now2 + 1))
                        (member "response" aiData) ai stamp2
                        (member "suggestions" aiData)
                        (member "confidence" aiData)])
                 (input v1) false (aiContext v1) (ui v1))
        end
    end.

(** [handleSuggestion]. *)
Definition handleSuggestion (suggestion : JS.jsstring) (v : View) : View :=
  mkView (messages v) suggestion (loading v) (aiContext v) (ui v).

(** The device: its clock at each reading and the endpoint. *)
Record device : Type := {
  clock : nat -> N;
  endpoint : JS.jsstring -> HttpResult
}.

(** Answers of the device; the state counts the clock readings. *)
Definition answer (d : device) : Prog.handler request nat :=
  fun R q n =>
    match q in request R0 return R0 * nat with
    | DateNow => (clock d n, S n)
    | PostAiChat m _ _ => (endpoint d m, n)
    end.

Definition play {A} (d : device) (p : Prog.t request A) : A * list call :=
  let '(x, _, l) := Prog.run (@logged) (answer d) p 0 in (x, l).

End Component.

Arguments JNull {number}.
Arguments JBool {number} _.
Arguments JNumber {number} _.
Arguments JString {number} _.
Arguments JArray {number} _.
Arguments JObject {number} _.
Arguments lookup {number} _ _.
Arguments member {number} _ _.
Arguments mkMessage {number} _ _ _ _ _ _.
Arguments id {number} _.
Arguments text {number} _.
Arguments from {number} _.
Arguments timestamp {number} _.
Arguments suggestions {number} _.
Arguments confidence {number} _.
Arguments NetworkError {number}.
Arguments HttpResponse {number} _ _.
Arguments mkView {number context} _ _ _ _ _.
Arguments messages {number context} _.
Arguments input {number context} _.
Arguments loading {number context} _.
Arguments aiContext {number context} _.
Arguments ui {number context} _.
Arguments sendMessage {number context} _ _.
Arguments handleSuggestion {number context} _ _.
Arguments play {number context A} _ _.
Arguments clock {number} _ _.
Arguments endpoint {number} _ _.

End AIChat.

(** ** The patients screen and the dashboard: health submissions *)

Module Submissions.

Section Screens.

(** JSON numbers are only passed on and tested for truth; [toLowerCase] is
    the one of the engine. *)
Variables (number : Type) (zero : number) (truthy_number : number -> bool).
Variable toLowerCase : JS.jsstring -> JS.jsstring.

Record Prediction : Type := {
  risk_score : number;
  risk_category : string
}.

(** A row of the query on [health_submissions] with its patient, the
    patient's profile and its predictions (the dashboard selects the same
    without age and gender). *)
Record Submission : Type := {
  id : string;
  status : option string;
  submitted_at : option string;
  patients_id : string;
  patients_age : option number;
  patients_gender : option string;
  full_name : JS.jsstring;
  risk_predictions : option (list Prediction)
}.

(** The [Patient] of the patients screen. *)
Record Patient : Type := mkPatient {
  patient_id : string;
  name : JS.jsstring;
  age : number;
  gender : string;
  lastAssessment : option string;
  riskCategory : string;
  riskScore : number;
  patient_status : option string;
  submissionId : string
}.

(** [risk_predictions?.[0]]. *)
Definition first_prediction (s : Submission) : option Prediction :=
  match risk_predictions s with
  | Some (p :: _) => Some p
  | _ => None
  end.

(** The body of the [map] in [loadPatients]. *)
Definition toPatient (s : Submission) : Patient :=
  {| patient_id := patients_id s;
     name := full_name s;
     age := match patients_age s with
            | Some a => if truthy_number a then a else zero
            | None => zero
            end;
     gender := match patients_gender s with
               | Some g => if JS.truthy_str g then g else "Unknown"
               | None => "Unknown"
               end;
     lastAssessment := submitted_at s;
     riskCategory := match first_prediction s with
                     | Some p => if JS.truthy_str (risk_category p)
                                 then risk_category p else "low"
                     | None => "low"
                     end;
     riskScore := match first_prediction s with
                  | Some p => if truthy_number (risk_score p)
                              then risk_score p else zero
                  | None => zero
                  end;
     patient_status := status s;
     submissionId := id s |}.

(** What [loadPatients] sets [patients] to when the query has data. *)
Definition loadPatients (submissions : list Submission) : list Patient :=
  map toPatient submissions.

Inductive filter_key : Type := all | pending | critical.

Definition equals (value : string) (field : option string) : bool :=
  match field with
  | Some x => x =? value
  | None => false
  end.

(** [filterPatients]. *)
Definition filterPatients (patients : list Patient)
    (searchQuery : JS.jsstring) (selectedFilter : filter_key)
    : list Patient :=
  let filtered :=
    if JS.truthy searchQuery then
      filter (fun patient =>
                Text.includes (toLowerCase (name patient))
                              (toLowerCase searchQuery))
             patients
    else patients in
  match selectedFilter with
  | all => filtered
  | pending => filter (fun p => equals "pending" (patient_status p)) filtered
  | critical => filter (fun p => riskCategory p =? "critical") filtered
  end.

(** [getRiskColor]. *)
Definition getRiskColor (category : string) : string :=
  if category =? "low" then "#28A745"
  else if category =? "moderate" then "#FFA500"
  else if category =? "high" then "#FF6B35"
  else if category =? "critical" then "#DC3545"
  else "#64748B".

(** The three numbers of the quick stats of the patients screen. *)
Definition quickTotal (patients : list Patient) : nat :=
  List.length patients.
Definition quickPending (patients : list Patient) : nat :=
  List.length (filter (fun p => equals "pending" (patient_status p)) patients).
Definition quickCritical (patients : list Patient) : nat :=
  List.length (filter (fun p => riskCategory p =? "critical") patients).

(** The counts of [loadPatientStats] of the dashboard:
    [new Set(submissions.map(s => s.patients.id)).size] and the lengths of
    three filters. *)
Definition totalPatients (submissions : list Submission) : nat :=
  List.length (nodup string_dec (map patients_id submissions)).
Definition pendingReviews (submissions : list Submission) : nat :=
  List.length (filter (fun s => equals "pending" (status s)) submissions).
Definition criticalCases (submissions : list Submission) : nat :=
  List.length
    (filter (fun s => match first_prediction s with
                      | Some p => risk_category p =? "critical"
                      | None => false
                      end)
            submissions).
Definition reviewedCount (submissions : list Submission) : nat :=
  List.length (filter (fun s => equals "reviewed" (status s)) submissions).

End Screens.

End Submissions.

(** ** The conversations screen: [formatTime] *)

Module ChatsScreen.

(** [formatTime]; [parse] is [new Date(dateString).getTime()], absent for an
    invalid date, [now] is [new Date().getTime()], and the three formats are
    those of the locale.  Times are whole milliseconds, on which the
    division followed by [Math.floor] is the floor of the quotient. *)
Definition formatTime (parse : string -> option Z)
    (timeOfDay weekday : Z -> string) (monthDay : option Z -> string)
    (now : Z) (dateString : string) : string :=
  match parse dateString with
  | None => monthDay None
  | Some date =>
      let diffDays := ((now - date) / (1000 * 60 * 60 * 24))%Z in
      if (diffDays =? 0)%Z then timeOfDay date
      else if (diffDays =? 1)%Z then "Yesterday"
      else if (diffDays <? 7)%Z then weekday date
      else monthDay (Some date)
  end.

End ChatsScreen.

(** ** More sample data *)

Module Sample2.

(** "hello" between two spaces. *)
Definition spaces_hello : JS.jsstring := [32; 104; 101; 108; 108; 111; 32]%N.

Definition signed_in : PatientScreen.AuthResponse :=
  {| PatientScreen.user := Some "user-d1"; PatientScreen.authError := None |}.

Definition p1 : PatientChat.Patient :=
  {| PatientChat.patient_id := "p1"; PatientChat.patient_name := "Pat One" |}.

(** Everything succeeds; the history holds m1. *)
Definition all_good : PatientScreen.answers :=
  {| PatientScreen.on_GetUser := signed_in;
     PatientScreen.on_GetChatContext :=
       Pg.ok {| Db.patient_info := Some p1; Db.doctor_info := Some Sample.d1 |};
     PatientScreen.on_Query :=
       {| IO.on_SelectChat := Pg.ok "c1";
          IO.on_InsertChat := Pg.ok "c1";
          IO.on_InsertMessage := Pg.Response None None;
          IO.on_SelectMessages := Pg.ok [Sample.m1] |};
     PatientScreen.on_DateNow := Sample.t0 |}.

Definition denied_select : IO.answers :=
  {| IO.on_SelectChat := Pg.ok "c1";
     IO.on_InsertChat := Pg.ok "c1";
     IO.on_InsertMessage := Pg.Response None None;
     IO.on_SelectMessages := Pg.failed Pg.E23502 |}.

(** Everything succeeds but the history cannot be read. *)
Definition no_history : PatientScreen.answers :=
  {| PatientScreen.on_GetUser := signed_in;
     PatientScreen.on_GetChatContext :=
       Pg.ok {| Db.patient_info := Some p1; Db.doctor_info := Some Sample.d1 |};
     PatientScreen.on_Query := denied_select;
     PatientScreen.on_DateNow := Sample.t0 |}.

(** Nobody is signed in. *)
Definition signed_out : PatientScreen.answers :=
  {| PatientScreen.on_GetUser :=
       {| PatientScreen.user := None; PatientScreen.authError := None |};
     PatientScreen.on_GetChatContext := Pg.Response None None;
     PatientScreen.on_Query := Sample.denied;
     PatientScreen.on_DateNow := Sample.t0 |}.

(** The standard text form of a uuid: 32 hexadecimal digits in groups of
    8, 4, 4, 4 and 12 with hyphens between them; upper-case digits are
    accepted and come out in lower case.  The service reads a few more
    spellings, which the samples do not use. *)
Definition is_hex (c : ascii) : bool :=
  let n := nat_of_ascii c in
  (Nat.leb 48 n && Nat.leb n 57) || (Nat.leb 97 n && Nat.leb n 102)
  || (Nat.leb 65 n && Nat.leb n 70).

Definition lower (c : ascii) : ascii :=
  let n := nat_of_ascii c in
  if Nat.leb 65 n && Nat.leb n 70 then ascii_of_nat (n + 32) else c.

Fixpoint well_formed (i : nat) (s : string) : bool :=
  match s with
  | EmptyString => Nat.eqb i 36
  | String c r =>
      (if Nat.eqb i 8 || Nat.eqb i 13 || Nat.eqb i 18 || Nat.eqb i 23
       then Ascii.eqb c "-"%char else is_hex c)
      && well_formed (S i) r
  end.

Fixpoint lowered (s : string) : string :=
  match s with
  | EmptyString => EmptyString
  | String c r => String (lower c) (lowered r)
  end.

(** A uuid is kept as its lower-case text. *)
Definition uuid_in (s : string) : option string :=
  if well_formed 0 s then Some (lowered s) else None.

Definition uuid_out (u : string) : string := u.

Definition patient_uuid : string := "0a4e1f6c-2b7d-4c3a-9e5f-000000000001".
Definition patient_user_uuid : string :=
  "0a4e1f6c-2b7d-4c3a-9e5f-0000000000a1".
Definition doctor_uuid : string := "0a4e1f6c-2b7d-4c3a-9e5f-000000000002".
Definition doctor_user_uuid : string :=
  "0a4e1f6c-2b7d-4c3a-9e5f-0000000000a2".

(** The patient id as a route may carry it, in upper case. *)
Definition patient_route : string := "0A4E1F6C-2B7D-4C3A-9E5F-000000000001".

(** A database with one patient and one doctor, both with a profile. *)
Definition clinic : Db.t string :=
  Db.mk [{| Db.patient_id := patient_uuid;
            Db.patient_user_id := patient_user_uuid |}]
        [{| Db.doctor_id := doctor_uuid;
            Db.doctor_user_id := doctor_user_uuid |}]
        [{| Db.profile_user_id := patient_user_uuid;
            Db.full_name := "Pat One" |};
         {| Db.profile_user_id := doctor_user_uuid;
            Db.full_name := "Dr One" |}].

Definition server : PatientScreen.Server string :=
  {| PatientScreen.session :=
       {| PatientScreen.user := Some doctor_user_uuid;
          PatientScreen.authError := None |};
     PatientScreen.db := clinic;
     PatientScreen.store := Sample.two_doctors;
     PatientScreen.clock := Sample.t0;
     PatientScreen.errors_are_Errors := false |}.

(** A store with conversation c1 and one older message of patient p1. *)
Definition one_chat : Store.t := Store.mk [Sample.c1] [Sample.m1] true 5000 7.

End Sample2.

(** * Properties *)

(** ** Subscription life cycle of the patient screen *)

Section PatientChatLifeCycle.

Import PatientChat.

Lemma handled_channelRef (m : Msg.t) (l : list Realtime.channel) (v : View) :
  channelRef (fold_left (fun v0 _ => handleNewMessage m v0) l v) = channelRef v.
Proof.
  revert v; induction l as [|c l IH]; intros v; simpl; [reflexivity|].
  now rewrite IH.
Qed.

Lemma handled_messages (m : Msg.t) (l : list Realtime.channel) (v : View) :
  messages (fold_left (fun v0 _ => handleNewMessage m v0) l v)
  = messages v ++ repeat m (List.length l).
Proof.
  revert v; induction l as [|c l IH]; intros v; simpl.
  - now rewrite app_nil_r.
  - rewrite IH; simpl. now rewrite <- app_assoc.
Qed.

Lemma cleanup_released (w : World) :
  owned w ->
  Realtime.channels (client (cleanup w)) = []
  /\ channelRef (view (cleanup w)) = None.
Proof.
  unfold owned, cleanup; intros H.
  destruct (channelRef (view w)) as [ch|] eqn:E; simpl.
  - rewrite H; simpl. now rewrite Nat.eqb_refl.
  - now rewrite E.
Qed.

Lemma subscribed_channel (p : string) (now : N) (w : World) :
  owned w ->
  let ch := {| Realtime.handle := Realtime.next_handle (client w);
               Realtime.name := channelName p now;
               Realtime.on_insert := Realtime.Eq "patient_id" p |} in
  channelRef (view (subscribeToMessages p now w)) = Some ch
  /\ Realtime.channels (client (subscribeToMessages p now w)) = [ch].
Proof.
  intros H; destruct (cleanup_released w H) as [Hc Hr].
  unfold subscribeToMessages, Realtime.subscribe; simpl.
  rewrite Hc; simpl.
  assert (Hn : Realtime.next_handle (client (cleanup w))
               = Realtime.next_handle (client w)).
  { unfold cleanup; destruct (channelRef (view w)); reflexivity. }
  rewrite Hn; split; reflexivity.
Qed.

Lemma step_owned (w : World) (e : event) : owned w -> owned (step w e).
Proof.
  intros H; destruct e as [r|p now| |m]; simpl.
  - unfold owned in *; simpl. rewrite H.
    unfold fetched; destruct (Pg.error r); reflexivity.
  - destruct (subscribed_channel p now w H) as [Hr Hc].
    unfold owned; now rewrite Hr, Hc.
  - destruct (cleanup_released w H) as [Hc Hr].
    unfold owned; now rewrite Hr, Hc.
  - unfold owned in *; simpl. now rewrite handled_channelRef.
Qed.

Lemma run_owned (tr : list event) (w : World) : owned w -> owned (run w tr).
Proof.
  revert w; induction tr as [|e tr IH]; intros w H; simpl; [exact H|].
  apply IH, step_owned, H.
Qed.

Lemma start_owned : owned start.
Proof. reflexivity. Qed.

Lemma reachable_owned (tr : list event) : owned (run start tr).
Proof. apply run_owned, start_owned. Qed.

Lemma receivers_owned (w : World) (m : Msg.t) :
  owned w ->
  Realtime.receivers Msg.column (client w) m
  = match channelRef (view w) with
    | Some ch =>
        if Realtime.matches Msg.column (Realtime.on_insert ch) m then [ch] else []
    | None => []
    end.
Proof.
  unfold owned, Realtime.receivers; intros ->.
  destruct (channelRef (view w)) as [ch|]; simpl; [|reflexivity].
  now destruct (Realtime.matches _ _ m).
Qed.

Lemma deliver_owned (w : World) (m : Msg.t) :
  owned w ->
  messages (view (deliver m w))
  = messages (view w) ++ (if delivers w m then [m] else []).
Proof.
  intros H; unfold deliver, delivers; simpl.
  rewrite handled_messages, (receivers_owned w m H).
  destruct (channelRef (view w)) as [ch|]; [|reflexivity].
  now destruct (Realtime.matches _ _ m).
Qed.

Lemma deliver_client (w : World) (m : Msg.t) : client (deliver m w) = client w.
Proof. reflexivity. Qed.

Lemma delivers_after (w : World) (a m : Msg.t) :
  delivers (deliver a w) m = delivers w m.
Proof. reflexivity. Qed.

Lemma next_handle_step (w : World) (e : event) :
  Realtime.next_handle (client w) <= Realtime.next_handle (client (step w e)).
Proof.
  destruct e as [r|p now| |m]; simpl; try lia.
  - unfold subscribeToMessages, cleanup.
    destruct (channelRef (view w)); simpl; lia.
  - unfold cleanup; destruct (channelRef (view w)); simpl; lia.
Qed.

Lemma next_handle_run (tr : list event) (w : World) :
  Realtime.next_handle (client w) <= Realtime.next_handle (client (run w tr)).
Proof.
  revert w; induction tr as [|e tr IH]; intros w; simpl; [lia|].
  etransitivity; [apply (next_handle_step w e)|apply IH].
Qed.

Lemma step_tagged (w : World) (e : event) :
  owned w -> tagged w -> tagged (step w e).
Proof.
  intros Ho Ht; destruct e as [r|p now| |m]; simpl.
  - intros ch Hch; apply Ht. revert Hch; simpl.
    unfold fetched; now destruct (Pg.error r).
  - destruct (subscribed_channel p now w Ho) as [Hr Hc].
    intros ch Hch; rewrite Hr in Hch; injection Hch as <-; simpl.
    split; [|reflexivity].
    unfold subscribeToMessages, cleanup.
    destruct (channelRef (view w)); simpl; lia.
  - destruct (cleanup_released w Ho) as [_ Hr].
    intros ch Hch; rewrite Hr in Hch; discriminate.
  - intros ch Hch; apply Ht. revert Hch; simpl.
    now rewrite handled_channelRef.
Qed.

Lemma run_tagged (tr : list event) (w : World) :
  owned w -> tagged w -> tagged (run w tr).
Proof.
  revert w; induction tr as [|e tr IH]; intros w Ho Ht; simpl; [exact Ht|].
  apply IH; [apply step_owned, Ho|apply step_tagged; assumption].
Qed.

Lemma reachable_tagged (tr : list event) : tagged (run start tr).
Proof. apply run_tagged; [reflexivity|]. intros ch H; discriminate. Qed.

Lemma quiet_run (ms : list Msg.t) (w : World) :
  Realtime.channels (client w) = [] -> run w (map Inserted ms) = w.
Proof.
  revert w; induction ms as [|m ms IH]; intros w H; simpl; [reflexivity|].
  assert (E : deliver m w = w).
  { unfold deliver, Realtime.receivers; rewrite H; simpl. now destruct w. }
  rewrite E; apply IH, H.
Qed.

End PatientChatLifeCycle.

(** ** Subscription life cycle of the RealTimeChat component *)

Section RealTimeChatLifeCycle.

Import RealTimeChat.

Lemma rtc_handled_messages (m : Msg.t) (l : list Realtime.channel) (v : View) :
  messages (fold_left (fun v0 _ => onInsert m v0) l v)
  = messages v ++ repeat m (List.length l).
Proof.
  revert v; induction l as [|c l IH]; intros v; simpl.
  - now rewrite app_nil_r.
  - rewrite IH; simpl. now rewrite <- app_assoc.
Qed.

Lemma rtc_cleanup_released (w : World) :
  owned w ->
  Realtime.channels (client (cleanup w)) = [] /\ subscription (cleanup w) = None.
Proof.
  unfold owned, cleanup; intros H.
  destruct (subscription w) as [ch|] eqn:E; simpl.
  - rewrite H; simpl. now rewrite Nat.eqb_refl.
  - now rewrite E.
Qed.

Lemma rtc_effect_channel (chatId : string) (w : World) :
  owned w ->
  let ch := {| Realtime.handle := Realtime.next_handle (client w);
               Realtime.name := "messages:chat_id=eq." ++ chatId;
               Realtime.on_insert := Realtime.Eq "chat_id" chatId |} in
  subscription (effect chatId w) = Some ch
  /\ Realtime.channels (client (effect chatId w)) = [ch].
Proof.
  intros H; destruct (rtc_cleanup_released w H) as [Hc Hr].
  unfold effect, Realtime.subscribe; simpl.
  rewrite Hc; simpl.
  assert (Hn : Realtime.next_handle (client (cleanup w))
               = Realtime.next_handle (client w)).
  { unfold cleanup; destruct (subscription w); reflexivity. }
  rewrite Hn; split; reflexivity.
Qed.

Lemma rtc_step_owned (w : World) (e : event) : owned w -> owned (step w e).
Proof.
  intros H; destruct e as [r|c| |m]; simpl.
  - exact H.
  - destruct (rtc_effect_channel c w H) as [Hr Hc].
    unfold owned; now rewrite Hr, Hc.
  - destruct (rtc_cleanup_released w H) as [Hc Hr].
    unfold owned; now rewrite Hr, Hc.
  - exact H.
Qed.

Lemma rtc_run_owned (tr : list event) (w : World) : owned w -> owned (run w tr).
Proof.
  revert w; induction tr as [|e tr IH]; intros w H; simpl; [exact H|].
  apply IH, rtc_step_owned, H.
Qed.

Lemma rtc_reachable_owned (tr : list event) : owned (run start tr).
Proof. apply rtc_run_owned; reflexivity. Qed.

Lemma rtc_receivers_owned (w : World) (m : Msg.t) :
  owned w ->
  Realtime.receivers Msg.column (client w) m
  = match subscription w with
    | Some ch =>
        if Realtime.matches Msg.column (Realtime.on_insert ch) m then [ch] else []
    | None => []
    end.
Proof.
  unfold owned, Realtime.receivers; intros ->.
  destruct (subscription w) as [ch|]; simpl; [|reflexivity].
  now destruct (Realtime.matches _ _ m).
Qed.

Lemma rtc_deliver_owned (w : World) (m : Msg.t) :
  owned w ->
  messages (view (deliver m w))
  = messages (view w) ++ (if delivers w m then [m] else []).
Proof.
  intros H; unfold deliver, delivers; simpl.
  rewrite rtc_handled_messages, (rtc_receivers_owned w m H).
  destruct (subscription w) as [ch|]; [|reflexivity].
  now destruct (Realtime.matches _ _ m).
Qed.

Lemma rtc_tagged (tr : list event) :
  forall ch, subscription (run start tr) = Some ch ->
    Realtime.col (Realtime.on_insert ch) = "chat_id".
Proof.
  assert (G : forall w, owned w ->
            (forall ch, subscription w = Some ch ->
               Realtime.col (Realtime.on_insert ch) = "chat_id") ->
            forall ch, subscription (run w tr) = Some ch ->
               Realtime.col (Realtime.on_insert ch) = "chat_id").
  { induction tr as [|e tr IH]; intros w Ho Ht; simpl; [exact Ht|].
    apply IH; [apply rtc_step_owned, Ho|].
    destruct e as [r|c| |m]; try exact Ht.
    - change (step w (Effect c)) with (effect c w).
      destruct (rtc_effect_channel c w Ho) as [Hr _].
      intros ch Hch; rewrite Hr in Hch; now injection Hch as <-.
    - change (step w Unmount) with (cleanup w).
      destruct (rtc_cleanup_released w Ho) as [_ Hr].
      intros ch Hch; rewrite Hr in Hch; discriminate. }
  apply G; [reflexivity|intros ch H; discriminate].
Qed.

Lemma rtc_quiet_run (ms : list Msg.t) (w : World) :
  Realtime.channels (client w) = [] -> run w (map Inserted ms) = w.
Proof.
  revert w; induction ms as [|m ms IH]; intros w H; simpl; [reflexivity|].
  assert (E : deliver m w = w).
  { unfold deliver, Realtime.receivers; rewrite H; simpl. now destruct w. }
  rewrite E; apply IH, H.
Qed.

End RealTimeChatLifeCycle.

(** ** Duplicate ids *)

Lemma NoDup_snoc {A : Type} (l : list A) (x : A) :
  NoDup (l ++ [x]) <-> NoDup l /\ ~ In x l.
Proof.
  split.
  - intros H. apply NoDup_remove in H. rewrite app_nil_r in H. exact H.
  - intros [H1 H2]. apply NoDup_app; [exact H1|repeat constructor; intros []|].
    intros y Hy [<-|[]]. exact (H2 Hy).
Qed.

(** ** Claims on the merge of live events *)

(** C1, as stated, fails: the history holds m1, the view subscribes, and the
    insert event of m1 arrives afterwards; m1 is appended a second time. *)
Lemma echo_duplicates_message :
  let before :=
    PatientChat.run PatientChat.start
      [PatientChat.Fetched (Pg.ok [Sample.m1]);
       PatientChat.Subscribe "p1" Sample.t0] in
  let after := PatientChat.step before (PatientChat.Inserted Sample.m1) in
  In (Msg.id Sample.m1) (Msg.ids (PatientChat.messages (PatientChat.view before)))
  /\ PatientChat.messages (PatientChat.view after) = [Sample.m1; Sample.m1]
  /\ ~ NoDup (Msg.ids (PatientChat.messages (PatientChat.view after))).
Proof.
  simpl; split; [now left|split; [reflexivity|]].
  intros H; inversion H as [|x l Hin _]; subst. apply Hin; now left.
Qed.

(** C1, amended: in both screens every insert event that reaches the view is
    appended at the tail whether or not its id is already there; so the
    sequence is free of duplicate ids after a delivery exactly when it was
    before and the delivered id is new. *)
Theorem live_insert_always_appended
    (tr : list PatientChat.event) (tr' : list RealTimeChat.event) (m : Msg.t) :
  let w := PatientChat.run PatientChat.start tr in
  let w' := RealTimeChat.run RealTimeChat.start tr' in
  let prev := PatientChat.messages (PatientChat.view w) in
  let prev' := RealTimeChat.messages (RealTimeChat.view w') in
  let next := PatientChat.messages (PatientChat.view (PatientChat.deliver m w)) in
  let next' :=
    RealTimeChat.messages (RealTimeChat.view (RealTimeChat.deliver m w')) in
  next = prev ++ (if PatientChat.delivers w m then [m] else [])
  /\ (NoDup (Msg.ids next) <->
      NoDup (Msg.ids prev)
      /\ (PatientChat.delivers w m = true -> ~ In (Msg.id m) (Msg.ids prev)))
  /\ next' = prev' ++ (if RealTimeChat.delivers w' m then [m] else [])
  /\ (NoDup (Msg.ids next') <->
      NoDup (Msg.ids prev')
      /\ (RealTimeChat.delivers w' m = true -> ~ In (Msg.id m) (Msg.ids prev'))).
Proof.
  intros w w' prev prev' next next'.
  assert (E : next = prev ++ (if PatientChat.delivers w m then [m] else []))
    by apply deliver_owned, reachable_owned.
  assert (E' : next' = prev' ++ (if RealTimeChat.delivers w' m then [m] else []))
    by apply rtc_deliver_owned, rtc_reachable_owned.
  split; [exact E|split; [|split; [exact E'|]]].
  - rewrite E; destruct (PatientChat.delivers w m).
    + unfold Msg.ids; rewrite map_app; simpl. rewrite NoDup_snoc.
      split; intros [H1 H2]; split; auto.
    + rewrite app_nil_r; split; [intros H; split; [exact H|discriminate]|tauto].
  - rewrite E'; destruct (RealTimeChat.delivers w' m).
    + unfold Msg.ids; rewrite map_app; simpl. rewrite NoDup_snoc.
      split; intros [H1 H2]; split; auto.
    + rewrite app_nil_r; split; [intros H; split; [exact H|discriminate]|tauto].
Qed.

(** C3, as stated, fails: m2 and m3 carry the same creation time; when m3
    arrives first the sequence ends [m3; m2], when m2 arrives first it ends
    [m2; m3]. *)
Lemma equal_time_events_keep_arrival_order :
  let w := PatientChat.run PatientChat.start
             [PatientChat.Fetched (Pg.ok [Sample.m1]);
              PatientChat.Subscribe "p1" Sample.t0] in
  Msg.created_at Sample.m2 = Msg.created_at Sample.m3
  /\ PatientChat.messages (PatientChat.view
       (PatientChat.run w [PatientChat.Inserted Sample.m3;
                           PatientChat.Inserted Sample.m2]))
     = [Sample.m1; Sample.m3; Sample.m2]
  /\ PatientChat.messages (PatientChat.view
       (PatientChat.run w [PatientChat.Inserted Sample.m2;
                           PatientChat.Inserted Sample.m3]))
     = [Sample.m1; Sample.m2; Sample.m3].
Proof. repeat split. Qed.

(** C3, amended: two live events that reach the view are placed at the tail
    in their order of arrival, whatever their creation times, ids and
    conversations; the two arrival orders give the same sequence only when
    the two events are the same row.  This holds of each screen by itself;
    in general each event is appended, in arrival order, exactly when it
    reaches the view. *)
Theorem live_events_in_arrival_order
    (tr : list PatientChat.event) (tr' : list RealTimeChat.event)
    (a b a' b' : Msg.t) :
  let w := PatientChat.run PatientChat.start tr in
  let w' := RealTimeChat.run RealTimeChat.start tr' in
  let seq x y :=
    PatientChat.messages (PatientChat.view
      (PatientChat.run w [PatientChat.Inserted x; PatientChat.Inserted y])) in
  let seq' x y :=
    RealTimeChat.messages (RealTimeChat.view
      (RealTimeChat.run w' [RealTimeChat.Inserted x; RealTimeChat.Inserted y])) in
  (PatientChat.delivers w a = true -> PatientChat.delivers w b = true ->
   seq a b = PatientChat.messages (PatientChat.view w) ++ [a; b]
   /\ seq b a = PatientChat.messages (PatientChat.view w) ++ [b; a]
   /\ (seq a b = seq b a <-> a = b))
  /\ (RealTimeChat.delivers w' a' = true ->
      RealTimeChat.delivers w' b' = true ->
      seq' a' b' = RealTimeChat.messages (RealTimeChat.view w') ++ [a'; b']
      /\ seq' b' a' = RealTimeChat.messages (RealTimeChat.view w') ++ [b'; a']
      /\ (seq' a' b' = seq' b' a' <-> a' = b'))
  /\ seq a b
     = PatientChat.messages (PatientChat.view w)
       ++ (if PatientChat.delivers w a then [a] else [])
       ++ (if PatientChat.delivers w b then [b] else [])
  /\ seq' a' b'
     = RealTimeChat.messages (RealTimeChat.view w')
       ++ (if RealTimeChat.delivers w' a' then [a'] else [])
       ++ (if RealTimeChat.delivers w' b' then [b'] else []).
Proof.
  intros w w' seq seq'.
  assert (Ho : PatientChat.owned w) by apply reachable_owned.
  assert (Ho' : RealTimeChat.owned w') by apply rtc_reachable_owned.
  assert (G : forall x y,
            seq x y = PatientChat.messages (PatientChat.view w)
                      ++ (if PatientChat.delivers w x then [x] else [])
                      ++ (if PatientChat.delivers w y then [y] else [])).
  { intros x y.
    change (seq x y) with
      (PatientChat.messages (PatientChat.view
         (PatientChat.deliver y (PatientChat.deliver x w)))).
    rewrite deliver_owned by (apply (step_owned w (PatientChat.Inserted x)), Ho).
    rewrite delivers_after, deliver_owned by exact Ho.
    now rewrite <- app_assoc. }
  assert (G' : forall x y,
            seq' x y = RealTimeChat.messages (RealTimeChat.view w')
                       ++ (if RealTimeChat.delivers w' x then [x] else [])
                       ++ (if RealTimeChat.delivers w' y then [y] else [])).
  { intros x y.
    change (seq' x y) with
      (RealTimeChat.messages (RealTimeChat.view
         (RealTimeChat.deliver y (RealTimeChat.deliver x w')))).
    rewrite rtc_deliver_owned
      by (apply (rtc_step_owned w' (RealTimeChat.Inserted x)), Ho').
    change (RealTimeChat.delivers (RealTimeChat.deliver x w') y)
      with (RealTimeChat.delivers w' y).
    rewrite rtc_deliver_owned by exact Ho'.
    now rewrite <- app_assoc. }
  split; [|split; [|split; [apply G|apply G']]].
  - intros Ha Hb. rewrite (G a b), (G b a), Ha, Hb; simpl.
    repeat split; [|now intros ->].
    intros H; apply app_inv_head in H; now injection H.
  - intros Ha Hb. rewrite (G' a' b'), (G' b' a'), Ha, Hb; simpl.
    repeat split; [|now intros ->].
    intros H; apply app_inv_head in H; now injection H.
Qed.

Lemma live_events_in_arrival_order_witness :
  let w := PatientChat.run PatientChat.start
             [PatientChat.Subscribe "p1" Sample.t0] in
  let w' := RealTimeChat.run RealTimeChat.start [RealTimeChat.Effect "c1"] in
  PatientChat.messages (PatientChat.view
    (PatientChat.run w [PatientChat.Inserted Sample.foreign;
                        PatientChat.Inserted Sample.m2]))
  = PatientChat.messages (PatientChat.view w) ++ [Sample.foreign; Sample.m2]
  /\ RealTimeChat.messages (RealTimeChat.view
       (RealTimeChat.run w' [RealTimeChat.Inserted Sample.m3;
                             RealTimeChat.Inserted Sample.m2]))
     = RealTimeChat.messages (RealTimeChat.view w') ++ [Sample.m3; Sample.m2].
Proof.
  pose proof (live_events_in_arrival_order
                [PatientChat.Subscribe "p1" Sample.t0]
                [RealTimeChat.Effect "c1"]
                Sample.foreign Sample.m2 Sample.m3 Sample.m2) as H.
  split.
  - exact (proj1 (proj1 H eq_refl eq_refl)).
  - exact (proj1 (proj1 (proj2 H) eq_refl eq_refl)).
Defined.

(** ** Claims on the subscription *)

Lemma append_inv_head (p s1 s2 : string) :
  (p ++ s1)%string = (p ++ s2)%string -> s1 = s2.
Proof.
  induction p as [|c p IH]; simpl; intros H; [exact H|].
  injection H as H; apply IH, H.
Qed.

Lemma toString_inj (n1 n2 : N) : JS.toString n1 = JS.toString n2 -> n1 = n2.
Proof.
  unfold JS.toString; intros H.
  apply Unsigned.to_uint_inj.
  assert (E : Some (N.to_uint n1) = Some (N.to_uint n2))
    by (rewrite <- !NilEmpty.usu; now rewrite H).
  now injection E.
Qed.

Lemma channelName_inj (p : string) (n1 n2 : N) :
  PatientChat.channelName p n1 = PatientChat.channelName p n2 -> n1 = n2.
Proof.
  unfold PatientChat.channelName; intros H.
  repeat apply append_inv_head in H. apply toString_inj, H.
Qed.

(** What the clean-up does guarantee, in both screens: once it has run the
    client holds no channel of the view, the closed channel in particular,
    and insert events that follow directly leave the in-memory sequence as
    it was. *)
Theorem no_delivery_after_close
    (tr : list PatientChat.event) (tr' : list RealTimeChat.event)
    (ms : list Msg.t) :
  let open := PatientChat.run PatientChat.start tr in
  let closed := PatientChat.cleanup open in
  let open' := RealTimeChat.run RealTimeChat.start tr' in
  let closed' := RealTimeChat.cleanup open' in
  (forall ch, PatientChat.channelRef (PatientChat.view open) = Some ch ->
     ~ In ch (Realtime.channels (PatientChat.client closed)))
  /\ PatientChat.messages (PatientChat.view closed)
     = PatientChat.messages (PatientChat.view open)
  /\ PatientChat.messages (PatientChat.view
       (PatientChat.run closed (map PatientChat.Inserted ms)))
     = PatientChat.messages (PatientChat.view closed)
  /\ (forall ch, RealTimeChat.subscription open' = Some ch ->
        ~ In ch (Realtime.channels (RealTimeChat.client closed')))
  /\ RealTimeChat.messages (RealTimeChat.view closed')
     = RealTimeChat.messages (RealTimeChat.view open')
  /\ RealTimeChat.messages (RealTimeChat.view
       (RealTimeChat.run closed' (map RealTimeChat.Inserted ms)))
     = RealTimeChat.messages (RealTimeChat.view closed').
Proof.
  intros open closed open' closed'.
  destruct (cleanup_released open (reachable_owned tr)) as [Hc _].
  destruct (rtc_cleanup_released open' (rtc_reachable_owned tr')) as [Hc' _].
  fold closed in Hc; fold closed' in Hc'.
  repeat split.
  - intros ch _; rewrite Hc; intros [].
  - unfold closed, PatientChat.cleanup.
    now destruct (PatientChat.channelRef (PatientChat.view open)).
  - now rewrite quiet_run.
  - intros ch _; rewrite Hc'; intros [].
  - unfold closed', RealTimeChat.cleanup.
    now destruct (RealTimeChat.subscription open').
  - now rewrite rtc_quiet_run.
Qed.


(** C5: along every sequence of fetches, subscriptions, clean-ups and insert
    events the client holds at most one channel of the view, the one in
    [channelRef]; [subscribeToMessages] leaves exactly the channel it
    creates, the previous one being removed first; the new channel object
    differs from every channel created before, and its name differs from
    the name of any subscription of the same patient made at another clock
    reading. *)
Theorem one_channel_per_view
    (tr tr2 : list PatientChat.event) (p p2 : string) (now now2 : N) :
  let w := PatientChat.run PatientChat.start tr in
  let w1 := PatientChat.subscribeToMessages p now w in
  let w2 := PatientChat.subscribeToMessages p2 now2 (PatientChat.run w1 tr2) in
  List.length (Realtime.channels (PatientChat.client w)) <= 1
  /\ PatientChat.owned w
  /\ (exists ch,
        PatientChat.channelRef (PatientChat.view w1) = Some ch
        /\ Realtime.channels (PatientChat.client w1) = [ch]
        /\ Realtime.name ch = PatientChat.channelName p now
        /\ (forall old,
              PatientChat.channelRef (PatientChat.view w) = Some old ->
              ~ In old (Realtime.channels (PatientChat.client w1))
              /\ Realtime.handle old < Realtime.handle ch)
        /\ (forall later,
              PatientChat.channelRef (PatientChat.view w2) = Some later ->
              Realtime.handle ch < Realtime.handle later))
  /\ (PatientChat.channelName p now = PatientChat.channelName p now2 ->
      now = now2).
Proof.
  intros w w1 w2.
  assert (Ho : PatientChat.owned w) by apply reachable_owned.
  assert (Ht : PatientChat.tagged w) by apply reachable_tagged.
  destruct (subscribed_channel p now w Ho) as [Hr Hc].
  fold w1 in Hr, Hc.
  split; [|split; [exact Ho|split; [|apply channelName_inj]]].
  - rewrite Ho; destruct (PatientChat.channelRef (PatientChat.view w));
      simpl; lia.
  - eexists; split; [exact Hr|split; [exact Hc|split; [reflexivity|split]]].
    + intros old Hold; destruct (Ht old Hold) as [Hlt _]; split.
      * rewrite Hc; simpl; intros [E|[]]. rewrite <- E in Hlt; simpl in Hlt; lia.
      * simpl; exact Hlt.
    + intros later Hl.
      assert (Ho1 : PatientChat.owned w1)
        by apply (step_owned w (PatientChat.Subscribe p now)), Ho.
      destruct (subscribed_channel p2 now2 (PatientChat.run w1 tr2)
                  (run_owned tr2 w1 Ho1)) as [Hr2 _].
      fold w2 in Hr2; rewrite Hr2 in Hl; injection Hl as <-; simpl.
      assert (Hn : Realtime.next_handle (PatientChat.client w1)
                   = S (Realtime.next_handle (PatientChat.client w))).
      { unfold w1, PatientChat.subscribeToMessages, PatientChat.cleanup.
        destruct (PatientChat.channelRef (PatientChat.view w)); reflexivity. }
      pose proof (next_handle_run tr2 w1) as Hm. lia.
Qed.

(** C6, as stated, fails in the patient screen: doctor d1 has patient p1's
    thread open, and the conversation of that pair is c1; a message of the
    conversation c2, between p1 and another doctor, is delivered and
    appended. *)
Lemma other_conversation_is_appended :
  let w := PatientChat.subscribeToMessages "p1" Sample.t0 PatientChat.start in
  fst (fst (IO.run Store.serve (PatientChat.resolveConversation "p1" "d1")
              Sample.two_doctors)) = PatientChat.Done "c1"
  /\ Msg.chat_id Sample.foreign <> "c1"
  /\ PatientChat.messages (PatientChat.view
       (PatientChat.deliver Sample.foreign w)) = [Sample.foreign].
Proof. repeat split. discriminate. Qed.

(** C6, amended: the patient screen subscribes with the filter
    [patient_id = patientId] and RealTimeChat with [chat_id = chatId]; an
    insert event is appended to the view exactly when a subscription is in
    force and the row's [patient_id] (patient screen) or [chat_id]
    (RealTimeChat) equals the id subscribed with, whatever the row's other
    columns. *)
Theorem delivery_follows_filter_column
    (tr : list PatientChat.event) (tr' : list RealTimeChat.event)
    (p c : string) (now : N) (m : Msg.t) :
  let w := PatientChat.run PatientChat.start tr in
  let w' := RealTimeChat.run RealTimeChat.start tr' in
  (exists ch,
     PatientChat.channelRef
       (PatientChat.view (PatientChat.subscribeToMessages p now w)) = Some ch
     /\ Realtime.on_insert ch = Realtime.Eq "patient_id" p)
  /\ PatientChat.messages (PatientChat.view (PatientChat.deliver m w))
     = PatientChat.messages (PatientChat.view w)
       ++ match PatientChat.channelRef (PatientChat.view w) with
          | Some ch =>
              if Msg.patient_id m =? Realtime.val (Realtime.on_insert ch)
              then [m] else []
          | None => []
          end
  /\ (exists ch,
        RealTimeChat.subscription (RealTimeChat.effect c w') = Some ch
        /\ Realtime.on_insert ch = Realtime.Eq "chat_id" c)
  /\ RealTimeChat.messages (RealTimeChat.view (RealTimeChat.deliver m w'))
     = RealTimeChat.messages (RealTimeChat.view w')
       ++ match RealTimeChat.subscription w' with
          | Some ch =>
              if Msg.chat_id m =? Realtime.val (Realtime.on_insert ch)
              then [m] else []
          | None => []
          end.
Proof.
  intros w w'.
  assert (Ho : PatientChat.owned w) by apply reachable_owned.
  assert (Ho' : RealTimeChat.owned w') by apply rtc_reachable_owned.
  split; [|split; [|split]].
  - destruct (subscribed_channel p now w Ho) as [Hr _].
    eexists; split; [exact Hr|reflexivity].
  - rewrite deliver_owned by exact Ho.
    unfold PatientChat.delivers; rewrite receivers_owned by exact Ho.
    pose proof (reachable_tagged tr) as Ht; fold w in Ht.
    destruct (PatientChat.channelRef (PatientChat.view w)) as [ch|] eqn:E;
      [|reflexivity].
    destruct (Ht ch E) as [_ Hcol].
    unfold Realtime.matches; rewrite Hcol; simpl.
    now destruct (Msg.patient_id m =? _).
  - destruct (rtc_effect_channel c w' Ho') as [Hr _].
    eexists; split; [exact Hr|reflexivity].
  - rewrite rtc_deliver_owned by exact Ho'.
    unfold RealTimeChat.delivers; rewrite rtc_receivers_owned by exact Ho'.
    pose proof (rtc_tagged tr') as Ht; fold w' in Ht.
    destruct (RealTimeChat.subscription w') as [ch|] eqn:E; [|reflexivity].
    unfold Realtime.matches; rewrite (Ht ch eq_refl); simpl.
    now destruct (Msg.chat_id m =? _).
Qed.

(** ** Trimming *)

Lemma trimStart_nil (s : JS.jsstring) :
  JS.trimStart s = [] <-> JS.blank s = true.
Proof.
  induction s as [|c s IH]; simpl; [tauto|].
  destruct (JS.isWhiteSpace c); simpl; [exact IH|].
  split; discriminate.
Qed.

Lemma trimStart_head (s : JS.jsstring) (c : JS.code_unit) (r : JS.jsstring) :
  JS.trimStart s = c :: r -> JS.isWhiteSpace c = false.
Proof.
  induction s as [|x s IH]; simpl; [discriminate|].
  destruct (JS.isWhiteSpace x) eqn:E; [exact IH|].
  intros H; injection H as -> _; exact E.
Qed.

Lemma blank_rev (s : JS.jsstring) : JS.blank (rev s) = JS.blank s.
Proof.
  unfold JS.blank; induction s as [|c s IH]; simpl; [reflexivity|].
  rewrite forallb_app, IH; simpl. rewrite andb_true_r; apply andb_comm.
Qed.

(** A string trims to the empty string exactly when it consists of white
    space only. *)
Lemma trim_nil (s : JS.jsstring) : JS.trim s = [] <-> JS.blank s = true.
Proof.
  unfold JS.trim, JS.trimEnd; split.
  - intros H.
    assert (H1 : JS.trimStart (rev (JS.trimStart s)) = []).
    { destruct (JS.trimStart (rev (JS.trimStart s))) as [|x l];
        [reflexivity|].
      simpl in H; destruct (rev l); discriminate. }
    apply trimStart_nil in H1; rewrite blank_rev in H1.
    destruct (JS.trimStart s) as [|c r] eqn:E; [now apply trimStart_nil|].
    apply trimStart_head in E; simpl in H1; rewrite E in H1; discriminate.
  - intros H; apply trimStart_nil in H; now rewrite H.
Qed.

Lemma run_always {S A} (serve : IO.backend S) (P : A -> Prop) (p : IO.io A) (s : S) :
  IO.always P p -> P (fst (fst (IO.run serve p s))).
Proof.
  revert s; induction p as [a|R q k IH]; intros s H; simpl; [exact H|].
  destruct (serve R q s) as [r s1].
  specialize (IH r s1 (H r)).
  destruct (IO.run serve (k r) s1) as [[a s2] l]; exact IH.
Qed.

Lemma run_bind {S A B} (serve : IO.backend S) (p : IO.io A)
    (f : A -> IO.io B) (s : S) :
  IO.run serve (IO.bind p f) s
  = let '(a, s1, l1) := IO.run serve p s in
    let '(b, s2, l2) := IO.run serve (f a) s1 in
    (b, s2, l1 ++ l2).
Proof.
  revert s; induction p as [a|R q k IH]; intros s; simpl.
  - now destruct (IO.run serve (f a) s) as [[b s2] l2].
  - destruct (serve R q s) as [r s1]. rewrite IH.
    destruct (IO.run serve (k r) s1) as [[a s2] l].
    now destruct (IO.run serve (f a) s2) as [[b s3] l2].
Qed.

(** ** Claims on sending *)

(** Case analysis on the answers a program inspects. *)
Ltac answers_cases :=
  repeat (simpl;
          match goal with
          | |- forall _, _ => intro
          | |- IO.always _ (if ?b then _ else _) => destruct b eqn:?
          | |- IO.always _ (match ?x with _ => _ end) => destruct x eqn:?
          | |- IO.always _ (IO.bind (if ?b then _ else _) _) => destruct b eqn:?
          | |- IO.always _ (IO.bind (match ?x with _ => _ end) _) =>
              destruct x eqn:?
          end).

(** Whatever the backend answers, [sendMessage] of the patient screen
    resolves and leaves the in-memory sequence as it was. *)
Lemma send_keeps_messages (patientId : string) (v : PatientChat.View) :
  IO.always
    (fun r => fst r = IO.Resolved
              /\ PatientChat.messages (snd r) = PatientChat.messages v)
    (PatientChat.sendMessage patientId v).
Proof.
  unfold PatientChat.sendMessage, PatientChat.resolveConversation,
    PatientChat.createChat, IO.await.
  answers_cases; split; reflexivity.
Qed.

Lemma rtc_send_keeps_messages (chatId currentUserId : string)
    (v : RealTimeChat.View) :
  IO.always
    (fun r => fst r = IO.Resolved
              /\ RealTimeChat.messages (snd r) = RealTimeChat.messages v)
    (RealTimeChat.sendMessage chatId currentUserId v).
Proof.
  unfold RealTimeChat.sendMessage, IO.await.
  answers_cases; split; reflexivity.
Qed.

(** C7, as stated, fails: a send of white space only is not rejected with an
    error; in both screens the promise resolves, as it does after a
    successful send, and nothing is reported. *)
Lemma blank_send_raises_no_error :
  JS.trim Sample.spaces = []
  /\ PatientChat.sendMessage "p1" (Sample.typing Sample.spaces)
     = IO.Ret (IO.Resolved, Sample.typing Sample.spaces)
  /\ RealTimeChat.sendMessage "c1" "d1" (Sample.drafting Sample.spaces)
     = IO.Ret (IO.Resolved, Sample.drafting Sample.spaces)
  /\ (forall reason, IO.Resolved <> IO.Rejected reason)
  /\ PatientChat.ui (Sample.typing Sample.spaces) = []
  /\ PatientChat.error (Sample.typing Sample.spaces) = None
  /\ RealTimeChat.ui (Sample.drafting Sample.spaces) = [].
Proof. repeat split; discriminate. Qed.

(** C7, amended: for every body that is empty or white space only,
    [sendMessage] returns at once in both screens: no request reaches the
    backend, the view (its in-memory sequence included) is unchanged, and the
    promise resolves without any error or message. *)
Theorem blank_send_does_nothing
    (patientId chatId currentUserId : string)
    (v : PatientChat.View) (v' : RealTimeChat.View)
    (Hv : JS.blank (PatientChat.newMessage v) = true)
    (Hv' : JS.blank (RealTimeChat.input v') = true) :
  JS.trim (PatientChat.newMessage v) = []
  /\ JS.trim (RealTimeChat.input v') = []
  /\ (forall (S : Type) (serve : IO.backend S) (s : S),
        IO.run serve (PatientChat.sendMessage patientId v) s
        = ((IO.Resolved, v), s, [])
        /\ IO.run serve (RealTimeChat.sendMessage chatId currentUserId v') s
           = ((IO.Resolved, v'), s, [])).
Proof.
  apply trim_nil in Hv; apply trim_nil in Hv'.
  split; [exact Hv|split; [exact Hv'|]].
  intros S serve s; unfold PatientChat.sendMessage, RealTimeChat.sendMessage.
  rewrite Hv, Hv'; simpl.
  now destruct (PatientChat.currentDoctor v).
Qed.

Lemma blank_send_does_nothing_witness :
  IO.run Store.serve
    (PatientChat.sendMessage "p1" (Sample.typing Sample.spaces))
    Sample.two_doctors
  = ((IO.Resolved, Sample.typing Sample.spaces), Sample.two_doctors, []).
Proof.
  exact (proj1 (proj2 (proj2
           (blank_send_does_nothing "p1" "c1" "d1"
              (Sample.typing Sample.spaces) (Sample.drafting Sample.spaces)
              eq_refl eq_refl)) _ Store.serve Sample.two_doctors)).
Defined.

(** C8, as stated, fails in RealTimeChat: when the insert is refused the
    promise still resolves and the only trace is a line on the developer
    console; no alert is raised and the view shown to the user is the one
    from before the send. *)
Lemma refused_send_only_logged :
  IO.play Sample.denied
    (RealTimeChat.sendMessage "c1" "d1" (Sample.drafting Sample.hello))
  = ((IO.Resolved,
      RealTimeChat.mkView [Sample.m1] Sample.hello
        [ConsoleError "Error sending message:"]),
     [IO.CallInsertMessage (RealTimeChat.outgoing "c1" "d1" Sample.hello)])
  /\ Pg.error (IO.on_InsertMessage Sample.denied) <> None.
Proof. split; [reflexivity|discriminate]. Qed.

(** C8, amended: when the insert of the message is refused, for whatever
    reason, the in-memory sequence is unchanged and the draft is kept; the
    patient screen logs the error and raises the alert "Failed to send
    message", RealTimeChat only logs it; in both the promise resolves.  The
    sequence is in fact unchanged by every send, refused or not, whatever the
    backend does. *)
Theorem refused_send_keeps_sequence
    (patientId chatId currentUserId : string)
    (v : PatientChat.View) (v' : RealTimeChat.View)
    (a : IO.answers) (e : Pg.PgError)
    (He : Pg.error (IO.on_InsertMessage a) = Some e) :
  let r := IO.play a (PatientChat.sendMessage patientId v) in
  let r' := IO.play a (RealTimeChat.sendMessage chatId currentUserId v') in
  (forall (S : Type) (serve : IO.backend S) (s : S),
     let g := fst (fst (IO.run serve (PatientChat.sendMessage patientId v) s)) in
     let g' := fst (fst (IO.run serve
                 (RealTimeChat.sendMessage chatId currentUserId v') s)) in
     fst g = IO.Resolved
     /\ PatientChat.messages (snd g) = PatientChat.messages v
     /\ fst g' = IO.Resolved
     /\ RealTimeChat.messages (snd g') = RealTimeChat.messages v')
  /\ ((exists row, In (IO.CallInsertMessage row) (snd r)) ->
      PatientChat.ui (snd (fst r))
      = PatientChat.ui v ++ [ConsoleError "Error sending message:";
                             Alert "Error" "Failed to send message"]
      /\ PatientChat.newMessage (snd (fst r)) = PatientChat.newMessage v
      /\ PatientChat.sending (snd (fst r)) = false)
  /\ ((exists row, In (IO.CallInsertMessage row) (snd r')) ->
      RealTimeChat.ui (snd (fst r'))
      = RealTimeChat.ui v' ++ [ConsoleError "Error sending message:"]
      /\ RealTimeChat.input (snd (fst r')) = RealTimeChat.input v').
Proof.
  intros r r'; split; [|split].
  - intros S serve s g g'.
    destruct (run_always serve _ _ s (send_keeps_messages patientId v))
      as [H1 H2].
    destruct (run_always serve _ _ s
                (rtc_send_keeps_messages chatId currentUserId v'))
      as [H3 H4].
    repeat split; assumption.
  - unfold r, IO.play, PatientChat.sendMessage, PatientChat.resolveConversation,
      PatientChat.createChat, PatientChat.fatal, PatientChat.missing, IO.await.
    repeat (simpl; rewrite ?He;
            match goal with
            | |- context [PatientChat.currentDoctor v] =>
                destruct (PatientChat.currentDoctor v)
            | |- context [Pg.data (IO.on_SelectChat a)] =>
                destruct (Pg.data (IO.on_SelectChat a))
            | |- context [Pg.error (IO.on_SelectChat a)] =>
                destruct (Pg.error (IO.on_SelectChat a))
            | |- context [Pg.data (IO.on_InsertChat a)] =>
                destruct (Pg.data (IO.on_InsertChat a))
            | |- context [Pg.error (IO.on_InsertChat a)] =>
                destruct (Pg.error (IO.on_InsertChat a))
            | |- context [if ?b then _ else _] => destruct b
            end);
      simpl; rewrite ?He; simpl;
      first [ intros [row H]; simpl in H;
              repeat (destruct H as [H|H]; [discriminate|]); contradiction
            | intros _; repeat split; now rewrite <- app_assoc ].
  - unfold r', IO.play, RealTimeChat.sendMessage, IO.await.
    destruct (Nat.eqb _ 0); simpl; [intros [row []]|].
    rewrite He; simpl. intros _; split; reflexivity.
Qed.

Lemma refused_send_keeps_sequence_witness :
  PatientChat.ui (snd (fst (IO.play Sample.denied
    (PatientChat.sendMessage "p1" (Sample.typing Sample.hello)))))
  = [ConsoleError "Error sending message:";
     Alert "Error" "Failed to send message"].
Proof.
  refine (proj1 (proj1 (proj2
            (refused_send_keeps_sequence "p1" "c1" "d1"
               (Sample.typing Sample.hello) (Sample.drafting Sample.hello)
               Sample.denied _ eq_refl)) _)).
  exists (PatientChat.outgoing "p1" Sample.d1 "c1" Sample.hello).
  right; left; reflexivity.
Defined.

(** ** Claims on the conversation record *)

Lemma filter_nil_existsb {A : Type} (f : A -> bool) (l : list A) :
  filter f l = [] -> existsb f l = false.
Proof.
  induction l as [|x l IH]; simpl; [reflexivity|].
  destruct (f x); [discriminate|exact IH].
Qed.

Lemma uuid_truthy (n : N) : JS.truthy_str (Store.uuid n) = true.
Proof. reflexivity. Qed.

(** The lookup finds the one record of the pair: its id, and no insert. *)
Lemma resolve_found (p d : string) (s : Store.t) (c : Chat.t) :
  Store.pair_rows p d s = [c] ->
  JS.truthy_str (Chat.id c) = true ->
  IO.run Store.serve (PatientChat.resolveConversation p d) s
  = (PatientChat.Done (Chat.id c), s, [IO.CallSelectChat p d]).
Proof.
  intros H Ht; unfold PatientChat.resolveConversation, IO.await; simpl.
  rewrite H; simpl. now rewrite Ht.
Qed.

(** The lookup finds no record: one insert; when it succeeds the pair has
    exactly the new record and a second resolution finds it. *)
Lemma resolve_created (p d : string) (s : Store.t) :
  Store.pair_rows p d s = [] ->
  let '(r, s1, log) :=
    IO.run Store.serve (PatientChat.resolveConversation p d) s in
  log = [IO.CallSelectChat p d; IO.CallInsertChat p d]
  /\ match r with
     | PatientChat.Done id =>
         map Chat.id (Store.pair_rows p d s1) = [id]
         /\ Store.messages s1 = Store.messages s
         /\ IO.run Store.serve (PatientChat.resolveConversation p d) s1
            = (PatientChat.Done id, s1, [IO.CallSelectChat p d])
     | PatientChat.Threw => s1 = s
     end.
Proof.
  intros H.
  unfold PatientChat.resolveConversation, PatientChat.createChat, IO.await.
  simpl; rewrite H; simpl.
  unfold Store.insert_chat.
  destruct (existsb _ (Store.chats s)); simpl; [split; reflexivity|].
  pose proof (filter_nil_existsb _ _ H) as Hex.
  unfold Store.pair_rows in H; rewrite Hex, andb_false_r; simpl.
  split; [reflexivity|].
  set (new := Chat.mk (Store.uuid (Store.next_uuid s)) p d (Store.now s)).
  set (s1 := Store.mk _ _ _ _ _).
  assert (Hp : Store.pair_rows p d s1 = [new]).
  { unfold Store.pair_rows, s1; simpl. rewrite filter_app, H; simpl.
    unfold Store.is_pair; simpl. now rewrite !String.eqb_refl. }
  split; [now rewrite Hp|split; [reflexivity|]].
  apply (resolve_found p d s1 new Hp), uuid_truthy.
Qed.

(** C2, as stated, fails: the pair has no record, another client creates it
    between our lookup and our insert.  With a unique constraint on the pair
    our insert is refused and the send is given up: no second lookup, an
    alert, no message stored.  Without the constraint the pair ends up with
    two records. *)
Lemma lost_race_is_not_retried :
  let other := fun s => snd (Store.insert_chat "p1" "d1" s) in
  let send := PatientChat.sendMessage "p1" (Sample.typing Sample.hello) in
  let guarded := IO.run Store.shared send (Sample.fresh_unique, [other]) in
  let free := IO.run Store.shared send (Sample.fresh_free, [other]) in
  snd guarded = [IO.CallSelectChat "p1" "d1"; IO.CallInsertChat "p1" "d1"]
  /\ PatientChat.ui (snd (fst (fst guarded)))
     = [ConsoleError "Error sending message:";
        Alert "Error" "Failed to send message"]
  /\ Store.messages (fst (snd (fst guarded))) = []
  /\ map Chat.id (Store.pair_rows "p1" "d1" (fst (snd (fst guarded)))) = ["u0"]
  /\ map Chat.id (Store.pair_rows "p1" "d1" (fst (snd (fst free))))
     = ["u0"; "u1"].
Proof. repeat split. Qed.

(** The lookup finds nothing and the insert is refused: no second lookup. *)
Lemma resolve_insert_refused (p d : string) (a : IO.answers) :
  PatientChat.fatal (Pg.error (IO.on_SelectChat a)) = false ->
  PatientChat.missing (Pg.data (IO.on_SelectChat a)) = true ->
  Pg.error (IO.on_InsertChat a) <> None ->
  IO.run (IO.answer a) (PatientChat.resolveConversation p d) tt
  = (PatientChat.Threw, tt, [IO.CallSelectChat p d; IO.CallInsertChat p d]).
Proof.
  intros Hf Hm He.
  unfold PatientChat.resolveConversation, PatientChat.createChat, IO.await;
    simpl.
  rewrite Hf.
  destruct (Pg.data (IO.on_SelectChat a)) as [cid|]; simpl.
  - simpl in Hm; rewrite Hm; simpl.
    destruct (Pg.error (IO.on_InsertChat a)); [reflexivity|now elim He].
  - destruct (Pg.error (IO.on_InsertChat a)); [reflexivity|now elim He].
Qed.

(** C2, amended: when the lookup finds the record of the pair, the resolver
    returns its id and inserts nothing; when the pair has no record it makes
    exactly one insert, after which, if the insert succeeded, the pair has
    exactly one record and a repeated resolution returns the same id; when
    the insert fails, for a unique-constraint violation or anything else,
    it looks up nothing again: the send is given up with the alert "Failed
    to send message" and no message is inserted. *)
Theorem find_or_create_conversation
    (p d : string) (s : Store.t) (a : IO.answers) :
  (forall c, Store.pair_rows p d s = [c] ->
     JS.truthy_str (Chat.id c) = true ->
     IO.run Store.serve (PatientChat.resolveConversation p d) s
     = (PatientChat.Done (Chat.id c), s, [IO.CallSelectChat p d]))
  /\ (Store.pair_rows p d s = [] ->
      let '(r, s1, log) :=
        IO.run Store.serve (PatientChat.resolveConversation p d) s in
      log = [IO.CallSelectChat p d; IO.CallInsertChat p d]
      /\ match r with
         | PatientChat.Done id =>
             map Chat.id (Store.pair_rows p d s1) = [id]
             /\ Store.messages s1 = Store.messages s
             /\ IO.run Store.serve (PatientChat.resolveConversation p d) s1
                = (PatientChat.Done id, s1, [IO.CallSelectChat p d])
         | PatientChat.Threw => s1 = s
         end)
  /\ (PatientChat.fatal (Pg.error (IO.on_SelectChat a)) = false ->
      PatientChat.missing (Pg.data (IO.on_SelectChat a)) = true ->
      Pg.error (IO.on_InsertChat a) <> None ->
      IO.play a (PatientChat.resolveConversation p d)
      = (PatientChat.Threw, [IO.CallSelectChat p d; IO.CallInsertChat p d])
      /\ forall (v : PatientChat.View) (doc : PatientChat.Doctor),
           PatientChat.currentDoctor v = Some doc ->
           JS.blank (PatientChat.newMessage v) = false ->
           PatientChat.sending v = false ->
           IO.play a (PatientChat.sendMessage p v)
           = ((IO.Resolved,
               PatientChat.caught (PatientChat.set_sending true v)),
              [IO.CallSelectChat p (PatientChat.doctor_id doc);
               IO.CallInsertChat p (PatientChat.doctor_id doc)])).
Proof.
  split; [intros c; apply resolve_found|split; [apply resolve_created|]].
  intros Hf Hm He; split.
  - unfold IO.play; now rewrite resolve_insert_refused.
  - intros v doc Hdoc Hbody Hsending.
    assert (Ht : JS.truthy (JS.trim (PatientChat.newMessage v)) = true).
    { destruct (JS.trim (PatientChat.newMessage v)) eqn:E; [|reflexivity].
      apply trim_nil in E; congruence. }
    unfold IO.play, PatientChat.sendMessage.
    rewrite Hdoc, Ht, Hsending; cbv beta iota delta [negb orb].
    rewrite run_bind, resolve_insert_refused by assumption.
    reflexivity.
Qed.

Lemma find_or_create_conversation_witness :
  IO.run Store.serve (PatientChat.resolveConversation "p1" "d1")
    Sample.two_doctors
  = (PatientChat.Done "c1", Sample.two_doctors, [IO.CallSelectChat "p1" "d1"]).
Proof.
  exact (proj1 (find_or_create_conversation "p1" "d1" Sample.two_doctors
                  Sample.denied) Sample.c1 eq_refl eq_refl).
Defined.

(** ** Claims on the history *)

Section Ordering.

Import Store.

Lemma insert_by_created_at_perm (m : Msg.t) (l : list Msg.t) :
  Permutation (insert_by_created_at m l) (m :: l).
Proof.
  induction l as [|x l IH]; simpl; [reflexivity|].
  destruct (Msg.created_at m <=? Msg.created_at x)%Z; [reflexivity|].
  rewrite IH; apply perm_swap.
Qed.

Lemma order_by_created_at_perm (l : list Msg.t) :
  Permutation (order_by_created_at l) l.
Proof.
  induction l as [|x l IH]; simpl; [reflexivity|].
  rewrite insert_by_created_at_perm; now constructor.
Qed.

Lemma insert_by_created_at_sorted (m : Msg.t) (l : list Msg.t) :
  Sorted Msg.not_later l -> Sorted Msg.not_later (insert_by_created_at m l).
Proof.
  induction l as [|x l IH]; simpl; intros H.
  - repeat constructor.
  - destruct (Msg.created_at m <=? Msg.created_at x)%Z eqn:E.
    + constructor; [exact H|constructor]. unfold Msg.not_later; lia.
    + inversion H as [|? ? Hs Hh]; subst.
      constructor; [apply IH, Hs|].
      destruct l as [|y l]; simpl.
      * constructor; unfold Msg.not_later; lia.
      * destruct (Msg.created_at m <=? Msg.created_at y)%Z;
          constructor; [unfold Msg.not_later; lia|].
        now inversion Hh.
Qed.

Lemma order_by_created_at_sorted (l : list Msg.t) :
  StronglySorted Msg.not_later (order_by_created_at l).
Proof.
  apply Sorted_StronglySorted.
  - intros a b c; unfold Msg.not_later; lia.
  - induction l as [|x l IH]; simpl; [constructor|].
    apply insert_by_created_at_sorted, IH.
Qed.

Lemma insert_by_created_at_snoc (y x : Msg.t) (l : list Msg.t) :
  (Msg.created_at y <= Msg.created_at x)%Z ->
  insert_by_created_at y (l ++ [x]) = insert_by_created_at y l ++ [x].
Proof.
  intros H; induction l as [|z l IH]; simpl.
  - now apply Z.leb_le in H; rewrite H.
  - destruct (Msg.created_at y <=? Msg.created_at z)%Z; [reflexivity|].
    now rewrite IH.
Qed.

(** A row that is not older than the others is ordered last. *)
Lemma order_by_created_at_snoc (x : Msg.t) (l : list Msg.t) :
  Forall (fun y => (Msg.created_at y <= Msg.created_at x)%Z) l ->
  order_by_created_at (l ++ [x]) = order_by_created_at l ++ [x].
Proof.
  induction 1 as [|y l Hy Hl IH]; simpl; [reflexivity|].
  rewrite IH; apply insert_by_created_at_snoc, Hy.
Qed.

Lemma select_messages_perm (column value : string) (s : t) :
  Permutation (select_messages column value s)
              (filter (on_column column value) (messages s)).
Proof. apply order_by_created_at_perm. Qed.

End Ordering.

(** C9, as stated, fails in the patient screen: doctor d1 opens patient p1's
    thread, whose conversation is c1; the history fetched holds the message
    of conversation c2, between p1 and another doctor, as well. *)
Lemma history_spans_conversations :
  fst (fst (IO.run Store.serve (PatientChat.resolveConversation "p1" "d1")
              Sample.two_doctors)) = PatientChat.Done "c1"
  /\ PatientChat.messages (fst (fst
       (IO.run Store.serve
          (PatientChat.fetchMessages "p1" (Sample.typing Sample.hello))
          Sample.two_doctors)))
     = [Sample.m1; Sample.foreign]
  /\ Msg.chat_id Sample.foreign <> "c1".
Proof. repeat split. discriminate. Qed.

(** C9, amended: [fetchMessages] sets the in-memory sequence to all stored
    messages whose [patient_id] equals the view's patient id (patient screen)
    or whose [chat_id] equals the chat id (RealTimeChat), ordered by creation
    time ascending, hence empty when there is none, with one request and
    without changing the store; after a successful insert whose creation time
    is later than that of every message stored under the key, the selection
    for that key is the former one followed by the new message, whose id
    occurs nowhere before. *)
Theorem fetch_selects_by_key_in_time_order
    (s : Store.t) (p c : string)
    (v : PatientChat.View) (v' : RealTimeChat.View) :
  let fetch := IO.run Store.serve (PatientChat.fetchMessages p v) s in
  let fetch' := IO.run Store.serve (RealTimeChat.fetchMessages c v') s in
  let got := PatientChat.messages (fst (fst fetch)) in
  let got' := RealTimeChat.messages (fst (fst fetch')) in
  snd fetch = [IO.CallSelectMessages "patient_id" p]
  /\ snd (fst fetch) = s
  /\ Permutation got
       (filter (fun m => Msg.patient_id m =? p) (Store.messages s))
  /\ StronglySorted Msg.not_later got
  /\ snd fetch' = [IO.CallSelectMessages "chat_id" c]
  /\ snd (fst fetch') = s
  /\ Permutation got'
       (filter (fun m => Msg.chat_id m =? c) (Store.messages s))
  /\ StronglySorted Msg.not_later got'
  /\ (filter (fun m => Msg.patient_id m =? p) (Store.messages s) = [] ->
      got = [])
  /\ (filter (fun m => Msg.chat_id m =? c) (Store.messages s) = [] ->
      got' = [])
  /\ (forall (row : IO.MsgInsert) (s2 : Store.t) (column key : string),
        Store.insert_message row s = (Pg.Response None None, s2) ->
        column = "patient_id" /\ IO.patient_id row = Some key
        \/ column = "chat_id" /\ IO.chat_id row = Some key ->
        Forall (fun m => Store.on_column column key m = true ->
                         (Msg.created_at m < Store.now s)%Z)
               (Store.messages s) ->
        exists m,
          Store.new_row row s = Some m
          /\ Store.select_messages column key s2
             = Store.select_messages column key s ++ [m]
          /\ ~ In (Msg.id m) (Msg.ids (Store.select_messages column key s))).
Proof.
  intros fetch fetch' got got'.
  split; [reflexivity|split; [reflexivity|split; [|split]]].
  - apply (select_messages_perm "patient_id" p s).
  - apply order_by_created_at_sorted.
  - split; [reflexivity|split; [reflexivity|split; [|split; [|split; [|split]]]]].
    + apply (select_messages_perm "chat_id" c s).
    + apply order_by_created_at_sorted.
    + intros H; apply Permutation_nil; symmetry; rewrite <- H.
      apply (select_messages_perm "patient_id" p s).
    + intros H; apply Permutation_nil; symmetry; rewrite <- H.
      apply (select_messages_perm "chat_id" c s).
    + intros row s2 column key Happ Hkey Hnew.
      unfold Store.insert_message in Happ.
      destruct (Store.new_row row s) as [m|] eqn:Hrow; [|discriminate].
      destruct (existsb _ (Store.messages s)) eqn:Hex; [discriminate|].
      injection Happ as <-.
      exists m; split; [reflexivity|].
      assert (Hm : Store.on_column column key m = true
                   /\ Msg.created_at m = Store.now s).
      { unfold Store.new_row in Hrow.
        destruct (IO.chat_id row), (IO.patient_id row), (IO.sender_id row),
          (IO.sender_type row), (IO.message row); try discriminate.
        injection Hrow as <-.
        destruct Hkey as [[-> Hk]|[-> Hk]]; injection Hk as ->;
          unfold Store.on_column; simpl; now rewrite String.eqb_refl. }
      destruct Hm as [Hon Hts].
      split.
      * unfold Store.select_messages; simpl.
        rewrite filter_app; simpl; rewrite Hon.
        apply order_by_created_at_snoc.
        rewrite Forall_forall in *; intros y Hy.
        apply filter_In in Hy; destruct Hy as [Hy1 Hy2].
        specialize (Hnew y Hy1 Hy2); lia.
      * intros Hin. unfold Msg.ids in Hin; apply in_map_iff in Hin.
        destruct Hin as [y [Hid Hy]].
        apply (Permutation_in _ (select_messages_perm column key s)) in Hy.
        apply filter_In in Hy; destruct Hy as [Hy _].
        assert (Hc : existsb (fun x => Msg.id x =? Msg.id m) (Store.messages s)
                     = true).
        { apply existsb_exists; exists y; split; [exact Hy|].
          now rewrite Hid, String.eqb_refl. }
        rewrite Hc in Hex; discriminate.
Qed.

Lemma fetch_selects_by_key_in_time_order_witness :
  exists m,
    Store.new_row (PatientChat.outgoing "p1" Sample.d1 "c1" Sample.hello)
      Sample.two_doctors = Some m
    /\ Store.select_messages "patient_id" "p1"
         (snd (Store.insert_message
                 (PatientChat.outgoing "p1" Sample.d1 "c1" Sample.hello)
                 Sample.two_doctors))
       = Store.select_messages "patient_id" "p1" Sample.two_doctors ++ [m]
    /\ ~ In (Msg.id m)
         (Msg.ids (Store.select_messages "patient_id" "p1" Sample.two_doctors)).
Proof.
  refine (proj2 (proj2 (proj2 (proj2 (proj2 (proj2 (proj2 (proj2 (proj2 (proj2
            (fetch_selects_by_key_in_time_order Sample.two_doctors "p1" "c1"
               (Sample.typing Sample.hello)
               (Sample.drafting Sample.hello)))))))))))
            (PatientChat.outgoing "p1" Sample.d1 "c1" Sample.hello)
            (snd (Store.insert_message
                    (PatientChat.outgoing "p1" Sample.d1 "c1" Sample.hello)
                    Sample.two_doctors))
            "patient_id" "p1" eq_refl (or_introl (conj eq_refl eq_refl)) _).
  repeat constructor; intros _; reflexivity.
Defined.

(** ** The pair-keyed screen *)

(** C10: when the chat partner is not the user, an insert event that passes
    the subscription's filter [receiver_id = user.id] never satisfies the
    second disjunct of the handler's test, so the handler appends exactly the
    partner's messages to the user; a message sent by the user is never
    appended by live delivery. *)
Theorem own_messages_never_arrive_live
    (user userId : string) (newMsg : UserChat.Message)
    (messages : list UserChat.Message)
    (Hpartner : userId <> user) :
  (Realtime.matches UserChat.column (UserChat.subscription_filter user) newMsg
   = true -> UserChat.from_me user userId newMsg = false)
  /\ UserChat.deliver user userId newMsg messages
     = (if UserChat.from_partner user userId newMsg
        then messages ++ [newMsg] else messages)
  /\ (UserChat.sender_id newMsg = user ->
      UserChat.deliver user userId newMsg messages = messages).
Proof.
  assert (Hm : Realtime.matches UserChat.column
                 (UserChat.subscription_filter user) newMsg
               = (UserChat.receiver_id newMsg =? user)) by reflexivity.
  assert (Hne : (user =? userId) = false)
    by (apply String.eqb_neq; congruence).
  assert (Hme : Realtime.matches UserChat.column
                  (UserChat.subscription_filter user) newMsg = true ->
                UserChat.from_me user userId newMsg = false).
  { rewrite Hm; intros H; apply String.eqb_eq in H.
    unfold UserChat.from_me; rewrite H, Hne; apply andb_false_r. }
  split; [exact Hme|split].
  - unfold UserChat.deliver, UserChat.onInsert.
    destruct (Realtime.matches _ _ newMsg) eqn:E.
    + rewrite (Hme eq_refl), orb_false_r; reflexivity.
    + unfold UserChat.from_partner.
      now rewrite <- Hm, andb_false_r.
  - intros Hs; unfold UserChat.deliver, UserChat.onInsert.
    destruct (Realtime.matches _ _ newMsg) eqn:E; [|reflexivity].
    rewrite (Hme eq_refl), orb_false_r.
    unfold UserChat.from_partner; rewrite Hs, Hne; reflexivity.
Qed.

Lemma own_messages_never_arrive_live_witness :
  UserChat.deliver "u1" "u2"
    (UserChat.mkMessage "m7" "u1" "u2" Sample.hello 100) []
  = [].
Proof.
  refine (proj2 (proj2 (own_messages_never_arrive_live "u1" "u2"
            (UserChat.mkMessage "m7" "u1" "u2" Sample.hello 100) [] _))
            eq_refl).
  discriminate.
Defined.

(** * Further properties of the screens *)

(** ** Programs *)

Lemma prog_run_bind {E S L A B} (tag : forall R, E R -> L)
    (serve : Prog.handler E S) (p : Prog.t E A) (f : A -> Prog.t E B) (s : S) :
  Prog.run tag serve (Prog.bind p f) s
  = let '(a, s1, l1) := Prog.run tag serve p s in
    let '(b, s2, l2) := Prog.run tag serve (f a) s1 in
    (b, s2, l1 ++ l2).
Proof.
  revert s; induction p as [a|R q k IH]; intros s; simpl.
  - now destruct (Prog.run tag serve (f a) s) as [[b s2] l2].
  - destruct (serve R q s) as [r s1]. rewrite IH.
    destruct (Prog.run tag serve (k r) s1) as [[a s2] l].
    now destruct (Prog.run tag serve (f a) s2) as [[b s3] l2].
Qed.

Lemma prog_run_always {E S L A} (tag : forall R, E R -> L)
    (serve : Prog.handler E S) (P : A -> Prop) (p : Prog.t E A) (s : S) :
  Prog.always P p -> P (fst (fst (Prog.run tag serve p s))).
Proof.
  revert s; induction p as [a|R q k IH]; intros s H; simpl; [exact H|].
  destruct (serve R q s) as [r s1].
  specialize (IH r s1 (H r)).
  destruct (Prog.run tag serve (k r) s1) as [[a s2] l]; exact IH.
Qed.

(** ** Loading the patient screen *)

Section PatientScreenLoading.

Import PatientChat PatientScreen.

(** A program of [IO] run as part of the screen makes the same requests and
    returns the same result. *)
Lemma play_lift {A} (a : answers) (p : IO.io A) :
  Prog.run (@logged) (answer a) (lift p) tt
  = (fst (IO.play (on_Query a) p), tt, map CallQuery (snd (IO.play (on_Query a) p))).
Proof.
  unfold IO.play; induction p as [x|R q k IH]; simpl; [reflexivity|].
  destruct q; simpl; rewrite IH;
    match goal with
    | |- context [IO.run ?h ?p ?s] => destruct (IO.run h p s) as [[y u] l]
    end; reflexivity.
Qed.

(** Whether the answers let [fetchChatContext] through, and with what. *)
Lemma fetchChatContext_outcome (a : answers) (patientId : string) (v : View) :
  let r := fst (play a (fetchChatContext patientId v)) in
  if fst r then
    exists uid ctx p d,
      authError (on_GetUser a) = None
      /\ user (on_GetUser a) = Some uid
      /\ on_GetChatContext a = Pg.Response (Some ctx) None
      /\ Db.patient_info ctx = Some p /\ Db.doctor_info ctx = Some d
      /\ snd r = set_currentDoctor (Some d) (set_patient (Some p) v)
      /\ snd (play a (fetchChatContext patientId v))
         = [CallGetUser; CallGetChatContext patientId uid]
  else
    exists msg,
      snd r = set_error (Some msg)
                (emit (ConsoleError "Error fetching chat context:") v)
      /\ (authError (on_GetUser a) <> None \/ user (on_GetUser a) = None
          \/ Pg.error (on_GetChatContext a) <> None
          \/ forall ctx, Pg.data (on_GetChatContext a) = Some ctx ->
               Db.patient_info ctx = None \/ Db.doctor_info ctx = None)
      /\ forall c, In c (snd (play a (fetchChatContext patientId v))) ->
           c = CallGetUser \/ exists uid, c = CallGetChatContext patientId uid.
Proof.
  unfold play, fetchChatContext, Prog.await; simpl.
  destruct (on_GetUser a) as [u ae]; simpl.
  destruct ae as [e|]; simpl.
  { eexists; split; [reflexivity|split; [left; discriminate|]].
    intros c [<-|[]]; now left. }
  destruct u as [uid|]; simpl.
  2:{ eexists; split; [reflexivity|split; [right; now left|]].
      intros c [<-|[]]; now left. }
  destruct (on_GetChatContext a) as [dt er]; simpl.
  assert (Hlog : forall c,
            In c [CallGetUser; CallGetChatContext patientId uid] ->
            c = CallGetUser \/ exists u0, c = CallGetChatContext patientId u0).
  { intros c [<-|[<-|[]]]; [now left|right; now eexists]. }
  destruct er as [e|]; simpl.
  { eexists; split; [reflexivity|split; [|exact Hlog]].
    right; right; left; discriminate. }
  destruct dt as [ctx|]; simpl.
  2:{ eexists; split; [reflexivity|split; [|exact Hlog]].
      right; right; right; intros ctx H; discriminate. }
  destruct (Db.patient_info ctx) as [p|] eqn:Hp; simpl.
  2:{ eexists; split; [reflexivity|split; [|exact Hlog]].
      right; right; right; intros c0 H; injection H as <-; now left. }
  destruct (Db.doctor_info ctx) as [d|] eqn:Hd; simpl.
  2:{ eexists; split; [reflexivity|split; [|exact Hlog]].
      right; right; right; intros c0 H; injection H as <-; now right. }
  exists uid, ctx, p, d; repeat split; assumption.
Qed.


(** The effect in terms of [fetchChatContext]. *)
Lemma effect_unfolded (a : answers) (patientId : string) (s : Screen) :
  JS.truthy_str patientId = true ->
  let c := play a (fetchChatContext patientId
                     (set_error None (view (world s)))) in
  play a (effect patientId s)
  = if fst (fst c) then
      (mkScreen
         (subscribeToMessages patientId (on_DateNow a)
            (mkWorld (fetched (IO.on_SelectMessages (on_Query a))
                              (snd (fst c)))
                     (client (world s))))
         false,
       snd c ++ [CallQuery (IO.CallSelectMessages "patient_id" patientId);
                 CallDateNow])
    else (mkScreen (mkWorld (snd (fst c)) (client (world s))) false, snd c).
Proof.
  intros Hp; cbv zeta; unfold effect; rewrite Hp; cbn [negb].
  unfold play, loadChatData; rewrite prog_run_bind.
  destruct (Prog.run (@logged) (answer a)
              (fetchChatContext patientId (set_error None (view (world s))))
              tt) as [[[ok v1] []] l].
  destruct ok; cbn [fst snd]; [|simpl; now rewrite app_nil_r].
  rewrite prog_run_bind, play_lift.
  unfold fetchMessages, IO.play, IO.await; simpl.
  reflexivity.
Qed.

Lemma fetched_channelRef (r : Pg.response (list Msg.t)) (v : View) :
  channelRef (fetched r v) = channelRef v.
Proof. unfold fetched; now destruct (Pg.error r). Qed.

(** X1: [fetchChatContext] loads both the patient and the doctor or
    neither: on success both are set and no error is recorded; on failure
    neither is touched, an error message is recorded and the failure is
    logged; the messages and the channel are never touched. *)
Theorem context_loads_both_or_neither
    (a : answers) (patientId : string) (v : View) :
  let r := fst (play a (fetchChatContext patientId v)) in
  messages (snd r) = messages v
  /\ channelRef (snd r) = channelRef v
  /\ (fst r = true ->
      (exists p d, patient (snd r) = Some p /\ currentDoctor (snd r) = Some d)
      /\ error (snd r) = error v /\ ui (snd r) = ui v)
  /\ (fst r = false ->
      patient (snd r) = patient v
      /\ currentDoctor (snd r) = currentDoctor v
      /\ error (snd r) <> None
      /\ ui (snd r) = ui v ++ [ConsoleError "Error fetching chat context:"]).
Proof.
  intros r; pose proof (fetchChatContext_outcome a patientId v) as H.
  fold r in H; simpl in H.
  destruct (fst r).
  - destruct H as (uid & ctx & p & d & _ & _ & _ & _ & _ & Hv & _).
    rewrite Hv; repeat split; try discriminate.
    exists p, d; split; reflexivity.
  - destruct H as (msg & Hv & _).
    rewrite Hv; repeat split; discriminate.
Qed.

(** X2: when the effect of a screen with a patient id has run, [loading] is
    off and the client holds exactly the channel of the view, if any; and
    if no error is recorded then the patient and the doctor are loaded, the
    sequence is the fetched history, and the view is subscribed to the
    inserts of that patient under the name made from the clock. *)
Theorem loaded_without_error_is_complete
    (a : answers) (patientId : string) (s : Screen)
    (Hid : JS.truthy_str patientId = true)
    (Hown : owned (world s)) :
  let s1 := fst (play a (effect patientId s)) in
  loading s1 = false
  /\ owned (world s1)
  /\ (error (view (world s1)) = None ->
      (exists p d,
         patient (view (world s1)) = Some p
         /\ currentDoctor (view (world s1)) = Some d)
      /\ messages (view (world s1))
         = match Pg.data (IO.on_SelectMessages (on_Query a)) with
           | Some l => l
           | None => []
           end
      /\ exists ch,
           channelRef (view (world s1)) = Some ch
           /\ Realtime.channels (client (world s1)) = [ch]
           /\ Realtime.on_insert ch = Realtime.Eq "patient_id" patientId
           /\ Realtime.name ch = channelName patientId (on_DateNow a)).
Proof.
  intros s1; unfold s1; rewrite (effect_unfolded a patientId s Hid).
  pose proof (fetchChatContext_outcome a patientId
                (set_error None (view (world s)))) as H.
  cbv zeta in H.
  destruct (play a (fetchChatContext patientId
                      (set_error None (view (world s))))) as [[ok v1] l].
  cbn [fst snd] in *; destruct ok; cbn [fst snd world loading].
  - destruct H as (uid & ctx & p & d & _ & _ & _ & _ & _ & Hv & _).
    set (v2 := fetched (IO.on_SelectMessages (on_Query a)) v1).
    assert (Ho : owned (mkWorld v2 (client (world s)))).
    { unfold owned; cbn [view client].
      unfold v2; rewrite fetched_channelRef, Hv. exact Hown. }
    destruct (subscribed_channel patientId (on_DateNow a) _ Ho) as [Hr Hc].
    set (w2 := subscribeToMessages patientId (on_DateNow a)
                 (mkWorld v2 (client (world s)))) in *.
    split; [reflexivity|split].
    + unfold owned; now rewrite Hr, Hc.
    + intros He.
      assert (E : messages (view w2) = messages v2
                  /\ error (view w2) = error v2
                  /\ patient (view w2) = patient v2
                  /\ currentDoctor (view w2) = currentDoctor v2).
      { unfold w2, subscribeToMessages, cleanup; cbn [view client].
        destruct (channelRef v2); repeat split. }
      destruct E as (Em & Ee & Ep & Ed).
      rewrite Ee in He; rewrite Em, Ep, Ed.
      unfold v2, fetched in He |- *.
      destruct (Pg.error (IO.on_SelectMessages (on_Query a)));
        [discriminate|].
      rewrite Hv; cbn.
      split; [exists p, d; split; reflexivity|split; [reflexivity|]].
      eexists; split; [exact Hr|split; [exact Hc|split; reflexivity]].
  - destruct H as (msg & Hv & _).
    split; [reflexivity|split].
    + unfold owned; cbn [view client]; rewrite Hv; exact Hown.
    + cbn [view]; rewrite Hv; discriminate.
Qed.

(** X3: without a patient id, or when the session, the procedure or one of
    the two records is missing, the effect ends with [loading] off and an
    error recorded, and does nothing else: no message is fetched, no channel
    is created, and the sequence, the patient and the doctor stay as they
    were. *)
Theorem failed_context_stops_loading
    (a : answers) (patientId : string) (s : Screen)
    (Hfail : patientId = ""
             \/ authError (on_GetUser a) <> None
             \/ user (on_GetUser a) = None
             \/ Pg.error (on_GetChatContext a) <> None
             \/ Pg.data (on_GetChatContext a) = None
             \/ exists ctx,
                  Pg.data (on_GetChatContext a) = Some ctx
                  /\ (Db.patient_info ctx = None \/ Db.doctor_info ctx = None)) :
  let r := play a (effect patientId s) in
  let s1 := fst r in
  loading s1 = false
  /\ error (view (world s1)) <> None
  /\ client (world s1) = client (world s)
  /\ channelRef (view (world s1)) = channelRef (view (world s))
  /\ messages (view (world s1)) = messages (view (world s))
  /\ patient (view (world s1)) = patient (view (world s))
  /\ currentDoctor (view (world s1)) = currentDoctor (view (world s))
  /\ forall c, In c (snd r) ->
       c = CallGetUser \/ exists uid, c = CallGetChatContext patientId uid.
Proof.
  intros r s1; unfold s1, r; clear r s1.
  destruct (JS.truthy_str patientId) eqn:Hid.
  2:{ unfold effect, play; rewrite Hid; simpl.
      repeat split; try discriminate. intros c []. }
  rewrite (effect_unfolded a patientId s Hid).
  pose proof (fetchChatContext_outcome a patientId
                (set_error None (view (world s)))) as H.
  cbv zeta in H.
  destruct (play a (fetchChatContext patientId
                      (set_error None (view (world s))))) as [[ok v1] l].
  cbn [fst snd] in *; destruct ok.
  - exfalso.
    destruct H as (uid & ctx & p & d & Ha & Hu & Hr & Hp & Hd & _).
    destruct Hfail as [->|[F|[F|[F|[F|(c0 & F & G)]]]]].
    + discriminate.
    + now apply F.
    + congruence.
    + rewrite Hr in F; now apply F.
    + rewrite Hr in F; discriminate.
    + rewrite Hr in F; injection F as <-. destruct G; congruence.
  - destruct H as (msg & Hv & _ & Hl).
    cbn [fst snd world loading view client]; rewrite Hv.
    repeat split; try discriminate. exact Hl.
Qed.

(** The result of [fetchChatContext] when everything is there. *)
Lemma fetchChatContext_success (a : answers) (patientId uid : string)
    (ctx : Db.ChatContext) (p : Patient) (d : Doctor) (v : View) :
  authError (on_GetUser a) = None ->
  user (on_GetUser a) = Some uid ->
  on_GetChatContext a = Pg.Response (Some ctx) None ->
  Db.patient_info ctx = Some p ->
  Db.doctor_info ctx = Some d ->
  play a (fetchChatContext patientId v)
  = ((true, set_currentDoctor (Some d) (set_patient (Some p) v)),
     [CallGetUser; CallGetChatContext patientId uid]).
Proof.
  intros Ha Hu Hr Hp Hd.
  unfold play, fetchChatContext, Prog.await; simpl.
  rewrite Ha, Hu; simpl. rewrite Hr; simpl. now rewrite Hp, Hd.
Qed.

(** X4: a history that cannot be fetched does not stop the subscription:
    the effect still ends subscribed to the patient's inserts, with the
    error recorded and the former sequence kept, and every later insert
    for that patient is appended to it. *)
Theorem failed_history_still_subscribes
    (a : answers) (patientId uid : string) (s : Screen)
    (ctx : Db.ChatContext) (p : Patient) (d : Doctor) (e : Pg.PgError)
    (Hid : JS.truthy_str patientId = true)
    (Hown : owned (world s))
    (Ha : authError (on_GetUser a) = None)
    (Hu : user (on_GetUser a) = Some uid)
    (Hr : on_GetChatContext a = Pg.Response (Some ctx) None)
    (Hp : Db.patient_info ctx = Some p)
    (Hd : Db.doctor_info ctx = Some d)
    (He : Pg.error (IO.on_SelectMessages (on_Query a)) = Some e) :
  let s1 := fst (play a (effect patientId s)) in
  error (view (world s1)) <> None
  /\ messages (view (world s1)) = messages (view (world s))
  /\ (exists ch, Realtime.channels (client (world s1)) = [ch]
                 /\ Realtime.on_insert ch = Realtime.Eq "patient_id" patientId)
  /\ forall m, Msg.patient_id m = patientId ->
       messages (view (deliver m (world s1)))
       = messages (view (world s)) ++ [m].
Proof.
  intros s1; unfold s1; clear s1.
  rewrite (effect_unfolded a patientId s Hid).
  rewrite (fetchChatContext_success a patientId uid ctx p d _ Ha Hu Hr Hp Hd).
  cbn [fst snd world].
  set (v2 := fetched (IO.on_SelectMessages (on_Query a)) _).
  assert (Ho : owned (mkWorld v2 (client (world s)))).
  { unfold owned; cbn [view client].
    unfold v2; rewrite fetched_channelRef. exact Hown. }
  destruct (subscribed_channel patientId (on_DateNow a) _ Ho) as [Hc Hl].
  set (w2 := subscribeToMessages patientId (on_DateNow a)
               (mkWorld v2 (client (world s)))) in *.
  assert (E : messages (view w2) = messages (view (world s))
              /\ error (view w2) <> None).
  { unfold w2, subscribeToMessages, cleanup; cbn [view client].
    unfold v2, fetched; rewrite He; simpl.
    destruct (channelRef (view (world s))); simpl; split;
      solve [reflexivity|discriminate]. }
  destruct E as [Em Ee].
  assert (Ho2 : owned w2) by (unfold owned; now rewrite Hc, Hl).
  split; [exact Ee|split; [exact Em|split]].
  - eexists; split; [exact Hl|reflexivity].
  - intros m Hm. rewrite (deliver_owned w2 m Ho2), Em.
    unfold delivers; rewrite (receivers_owned w2 m Ho2), Hc.
    unfold Realtime.matches; simpl. now rewrite Hm, String.eqb_refl.
Qed.

End PatientScreenLoading.

(** ** The chat context in the database *)

Section ChatContextRows.

Import PatientChat PatientScreen.

Variable uuid : Type.
Variable uuid_eqb : uuid -> uuid -> bool.
Variable uuid_out : uuid -> string.
Variable uuid_in : string -> option uuid.
Hypothesis uuid_eqb_eq : forall a b, uuid_eqb a b = true <-> a = b.

Lemma patient_rows_spec (p : uuid) (db : Db.t uuid) (x : Patient) :
  In x (Db.patient_rows uuid_eqb uuid_out p db) <->
  exists row pr,
    In row (Db.patients db) /\ In pr (Db.profiles db)
    /\ Db.patient_id row = p
    /\ Db.patient_user_id row = Db.profile_user_id pr
    /\ x = {| patient_id := uuid_out p; patient_name := Db.full_name pr |}.
Proof.
  unfold Db.patient_rows; rewrite in_flat_map; split.
  - intros (row & Hrow & Hx).
    destruct (uuid_eqb (Db.patient_id row) p) eqn:E; [|destruct Hx].
    apply uuid_eqb_eq in E. apply in_map_iff in Hx.
    destruct Hx as (pr & <- & Hpr). apply filter_In in Hpr.
    destruct Hpr as [Hpr Hu]; apply uuid_eqb_eq in Hu.
    exists row, pr; rewrite E; repeat split; assumption.
  - intros (row & pr & Hrow & Hpr & Hid & Hu & ->).
    exists row; split; [exact Hrow|].
    rewrite <- Hid, (proj2 (uuid_eqb_eq _ _) eq_refl). apply in_map_iff.
    exists pr; split; [reflexivity|]. apply filter_In; split; [exact Hpr|].
    now apply uuid_eqb_eq.
Qed.

Lemma doctor_rows_spec (u : uuid) (db : Db.t uuid) (x : Doctor) :
  In x (Db.doctor_rows uuid_eqb uuid_out u db) <->
  exists row pr,
    In row (Db.doctors db) /\ In pr (Db.profiles db)
    /\ Db.doctor_user_id row = u
    /\ Db.doctor_user_id row = Db.profile_user_id pr
    /\ x = {| doctor_id := uuid_out (Db.doctor_id row);
              doctor_name := Db.full_name pr |}.
Proof.
  unfold Db.doctor_rows; rewrite in_flat_map; split.
  - intros (row & Hrow & Hx).
    destruct (uuid_eqb (Db.doctor_user_id row) u) eqn:E; [|destruct Hx].
    apply uuid_eqb_eq in E. apply in_map_iff in Hx.
    destruct Hx as (pr & <- & Hpr). apply filter_In in Hpr.
    destruct Hpr as [Hpr Hu]; apply uuid_eqb_eq in Hu.
    exists row, pr; repeat split; assumption.
  - intros (row & pr & Hrow & Hpr & Hid & Hu & ->).
    exists row; split; [exact Hrow|].
    rewrite (proj2 (uuid_eqb_eq _ _) Hid). apply in_map_iff.
    exists pr; split; [reflexivity|]. apply filter_In; split; [exact Hpr|].
    now apply uuid_eqb_eq.
Qed.

Lemma hd_error_in {A : Type} (l : list A) (x : A) :
  hd_error l = Some x -> In x l.
Proof. destruct l; simpl; [discriminate|]. intros H; injection H; now left. Qed.

(** X5: for a signed-in user, [fetchChatContext] against the procedure of
    the migration, whose two arguments have type uuid, succeeds exactly when
    the route's patient id and the user id are both uuids, the first naming
    a patient with a profile and the second the user of a doctor record with
    a profile; the patient loaded then carries the text of that uuid and the
    doctor loaded is a doctor record of the user.  When both are uuids and
    a record is missing, the error shown is the one about missing patient
    or doctor information; when one of them is not a uuid the call is
    refused with error 22P02, the load fails, and the error shown is that
    error's message if the error object is an [Error] instance and the
    text about an unknown error otherwise. *)
Theorem chat_context_needs_both_records
    (srv : Server uuid) (patientId uid : string) (v : View)
    (Hs : session srv = {| user := Some uid; authError := None |}) :
  let r := fst (fst (Prog.run (@logged)
                       (serve uuid_eqb uuid_out uuid_in)
                       (fetchChatContext patientId v) srv)) in
  (fst r = true <->
   exists p u,
     uuid_in patientId = Some p /\ uuid_in uid = Some u
     /\ (exists row pr,
           In row (Db.patients (db srv)) /\ In pr (Db.profiles (db srv))
           /\ Db.patient_id row = p
           /\ Db.patient_user_id row = Db.profile_user_id pr)
     /\ (exists row pr,
           In row (Db.doctors (db srv)) /\ In pr (Db.profiles (db srv))
           /\ Db.doctor_user_id row = u
           /\ Db.doctor_user_id row = Db.profile_user_id pr))
  /\ (fst r = true ->
      exists p u pt d row,
        uuid_in patientId = Some p /\ uuid_in uid = Some u
        /\ patient (snd r) = Some pt /\ patient_id pt = uuid_out p
        /\ currentDoctor (snd r) = Some d
        /\ In row (Db.doctors (db srv))
        /\ Db.doctor_user_id row = u
        /\ doctor_id d = uuid_out (Db.doctor_id row))
  /\ (forall p u,
        uuid_in patientId = Some p -> uuid_in uid = Some u ->
        fst r = false ->
        error (snd r)
        = Some "Could not load patient or doctor information. The user may not exist or you may not have permission.")
  /\ (uuid_in patientId = None \/ uuid_in uid = None ->
      fst r = false
      /\ patient (snd r) = patient v
      /\ currentDoctor (snd r) = currentDoctor v
      /\ exists text,
           (text = patientId \/ text = uid) /\ uuid_in text = None
           /\ error (snd r)
              = Some (if errors_are_Errors srv
                      then Pg.message (E22P02 text true)
                      else "An unknown error occurred while loading chat information.")).
Proof.
  intros r; unfold r; clear r.
  unfold fetchChatContext, Prog.await; simpl.
  rewrite Hs; simpl. unfold rpc_get_chat_context.
  destruct (uuid_in patientId) as [p|] eqn:Ep.
  2:{ simpl. split; [split; [discriminate|]|].
      { intros (p & u & H & _); discriminate. }
      split; [discriminate|]. split; [discriminate|].
      intros _. repeat split.
      exists patientId; split; [now left|]. split; [exact Ep|].
      now destruct (errors_are_Errors srv). }
  destruct (uuid_in uid) as [u|] eqn:Eu.
  2:{ simpl. split; [split; [discriminate|]|].
      { intros (p' & u & _ & H & _); discriminate. }
      split; [discriminate|]. split; [discriminate|].
      intros _. repeat split.
      exists uid; split; [now right|]. split; [exact Eu|].
      now destruct (errors_are_Errors srv). }
  simpl. unfold Db.get_chat_context; simpl.
  destruct (hd_error (Db.patient_rows uuid_eqb uuid_out p (db srv)))
    as [pt|] eqn:Hp.
  - destruct (hd_error (Db.doctor_rows uuid_eqb uuid_out u (db srv)))
      as [d|] eqn:Hd; simpl.
    + apply hd_error_in, patient_rows_spec in Hp.
      apply hd_error_in, doctor_rows_spec in Hd.
      destruct Hp as (row & pr & H1 & H2 & H3 & H4 & ->).
      destruct Hd as (row' & pr' & G1 & G2 & G3 & G4 & ->).
      split; [split; [intros _|reflexivity]|].
      { exists p, u; repeat split;
          [exists row, pr|exists row', pr']; repeat split; assumption. }
      split; [intros _|split; [discriminate|intros [H|H]; discriminate]].
      exists p, u; eexists _, _, row'; repeat split; assumption.
    + split; [split; [discriminate|]|].
      { intros (p' & u' & Hp' & Hu' & _ & (row & pr & G1 & G2 & G3 & G4)).
        exfalso. injection Hu' as <-.
        assert (Hin : In {| doctor_id := uuid_out (Db.doctor_id row);
                            doctor_name := Db.full_name pr |}
                         (Db.doctor_rows uuid_eqb uuid_out u (db srv))).
        { apply doctor_rows_spec; exists row, pr; repeat split; assumption. }
        destruct (Db.doctor_rows uuid_eqb uuid_out u (db srv));
          [destruct Hin|discriminate]. }
      split; [discriminate|].
      split; [reflexivity|intros [H|H]; discriminate].
  - simpl. split; [split; [discriminate|]|].
    { intros (p' & u' & Hp' & Hu' & (row & pr & G1 & G2 & G3 & G4) & _).
      exfalso. injection Hp' as <-.
      assert (Hin : In {| patient_id := uuid_out p;
                          patient_name := Db.full_name pr |}
                       (Db.patient_rows uuid_eqb uuid_out p (db srv))).
      { apply patient_rows_spec; exists row, pr; repeat split; assumption. }
      destruct (Db.patient_rows uuid_eqb uuid_out p (db srv));
        [destruct Hin|discriminate]. }
    split; [discriminate|].
    split; [reflexivity|intros [H|H]; discriminate].
Qed.

End ChatContextRows.

(** ** Sending from the patient screen *)

Section PatientSend.

Import PatientChat.

(** X6: a send that starts while none is in flight always ends with
    [sending] off again, whatever the backend answers; a press that comes
    while [sending] is on is ignored without any request. *)
Theorem sending_flag_is_released
    (patientId : string) (v : View) (Hidle : sending v = false) :
  (forall (S : Type) (serve : IO.backend S) (s : S),
     sending (snd (fst (fst (IO.run serve (sendMessage patientId v) s))))
     = false)
  /\ (forall (S : Type) (serve : IO.backend S) (s : S),
        IO.run serve (sendMessage patientId (set_sending true v)) s
        = ((IO.Resolved, set_sending true v), s, [])).
Proof.
  split.
  - intros S serve s.
    apply (run_always serve (fun r => sending (snd r) = false)).
    unfold sendMessage, resolveConversation, createChat, IO.await.
    answers_cases; try reflexivity; exact Hidle.
  - intros S serve s; unfold sendMessage; simpl.
    destruct (currentDoctor v); [rewrite orb_true_r|]; reflexivity.
Qed.

Lemma truthy_trim (body : JS.jsstring) :
  JS.blank body = false -> JS.truthy (JS.trim body) = true.
Proof.
  intros H; destruct (JS.trim body) eqn:E; [|reflexivity].
  apply trim_nil in E; congruence.
Qed.

(** X7: a send in an existing conversation, with a draft that is not blank
    and a store that accepts the row, makes the lookup and the insert and
    nothing else; it clears the draft, shows no error, and a fetch right
    after it returns the former history of the patient followed by the new
    row, which carries the trimmed draft, the doctor as sender and the id
    of the conversation. *)
Theorem sent_message_ends_history
    (patientId : string) (v : View) (doc : Doctor) (c : Chat.t) (s : Store.t)
    (Hdoc : currentDoctor v = Some doc)
    (Hidle : sending v = false)
    (Hbody : JS.blank (newMessage v) = false)
    (Hchat : Store.pair_rows patientId (doctor_id doc) s = [c])
    (Hcid : JS.truthy_str (Chat.id c) = true)
    (Hfresh : existsb (fun x => Msg.id x =? Store.uuid (Store.next_uuid s))
                      (Store.messages s) = false)
    (Hlater : Forall (fun m => Msg.patient_id m = patientId ->
                               (Msg.created_at m < Store.now s)%Z)
                     (Store.messages s)) :
  let sent := IO.run Store.serve (sendMessage patientId v) s in
  let v1 := snd (fst (fst sent)) in
  let s1 := snd (fst sent) in
  let row := Msg.mk (Store.uuid (Store.next_uuid s)) (Chat.id c) patientId
               (doctor_id doc) "doctor" (JS.trim (newMessage v))
               (Store.now s) in
  snd sent = [IO.CallSelectChat patientId (doctor_id doc);
              IO.CallInsertMessage
                (outgoing patientId doc (Chat.id c) (newMessage v))]
  /\ newMessage v1 = [] /\ ui v1 = ui v /\ sending v1 = false
  /\ messages v1 = messages v
  /\ Store.chats s1 = Store.chats s
  /\ Store.messages s1 = Store.messages s ++ [row]
  /\ messages (fst (fst (IO.run Store.serve (fetchMessages patientId v1) s1)))
     = Store.select_messages "patient_id" patientId s ++ [row].
Proof.
  intros sent v1 s1 row.
  assert (E : sent
              = ((IO.Resolved, set_sending false (set_newMessage []
                                 (set_sending true v))),
                 Store.mk (Store.chats s) (Store.messages s ++ [row])
                   (Store.chats_pair_unique s) (Store.now s)
                   (N.succ (Store.next_uuid s)),
                 [IO.CallSelectChat patientId (doctor_id doc);
                  IO.CallInsertMessage
                    (outgoing patientId doc (Chat.id c) (newMessage v))])).
  { unfold sent, sendMessage.
    rewrite Hdoc, (truthy_trim _ Hbody), Hidle; cbn [negb orb].
    rewrite run_bind, (resolve_found _ _ _ _ Hchat Hcid).
    unfold IO.await; simpl.
    unfold Store.insert_message; simpl. rewrite Hfresh; reflexivity. }
  unfold v1, s1; rewrite E; cbn [fst snd].
  repeat split.
  unfold fetchMessages, IO.await; simpl.
  unfold Store.select_messages; simpl.
  rewrite filter_app; simpl.
  unfold Store.on_column at 2; simpl; rewrite String.eqb_refl.
  apply order_by_created_at_snoc.
  rewrite Forall_forall in *; intros y Hy.
  apply filter_In in Hy; destruct Hy as [Hy1 Hy2].
  unfold Store.on_column in Hy2; simpl in Hy2; apply String.eqb_eq in Hy2.
  specialize (Hlater y Hy1 Hy2); simpl; lia.
Qed.

(** X8: the first send of a pair, against a store that has no conversation
    for it and accepts both rows, makes exactly the lookup, the insert of
    the conversation and the insert of the message; afterwards the pair has
    exactly one conversation and the stored message belongs to it. *)
Theorem first_send_creates_conversation
    (patientId : string) (v : View) (doc : Doctor) (s : Store.t)
    (Hdoc : currentDoctor v = Some doc)
    (Hidle : sending v = false)
    (Hbody : JS.blank (newMessage v) = false)
    (Hnone : Store.pair_rows patientId (doctor_id doc) s = [])
    (Hc : existsb (fun x => Chat.id x =? Store.uuid (Store.next_uuid s))
                  (Store.chats s) = false)
    (Hm : existsb (fun x => Msg.id x
                            =? Store.uuid (N.succ (Store.next_uuid s)))
                  (Store.messages s) = false) :
  let sent := IO.run Store.serve (sendMessage patientId v) s in
  let s1 := snd (fst sent) in
  let cid := Store.uuid (Store.next_uuid s) in
  snd sent = [IO.CallSelectChat patientId (doctor_id doc);
              IO.CallInsertChat patientId (doctor_id doc);
              IO.CallInsertMessage (outgoing patientId doc cid (newMessage v))]
  /\ map Chat.id (Store.pair_rows patientId (doctor_id doc) s1) = [cid]
  /\ Store.messages s1
     = Store.messages s
       ++ [Msg.mk (Store.uuid (N.succ (Store.next_uuid s))) cid patientId
             (doctor_id doc) "doctor" (JS.trim (newMessage v)) (Store.now s)]
  /\ newMessage (snd (fst (fst sent))) = []
  /\ ui (snd (fst (fst sent))) = ui v.
Proof.
  intros sent s1 cid; unfold s1, sent, sendMessage.
  rewrite Hdoc, (truthy_trim _ Hbody), Hidle; cbn [negb orb].
  rewrite run_bind.
  unfold resolveConversation, createChat, IO.await; simpl.
  rewrite Hnone; simpl.
  unfold Store.insert_chat; rewrite Hc.
  rewrite (filter_nil_existsb _ _ Hnone), andb_false_r; simpl.
  unfold Store.insert_message; simpl. rewrite Hm; simpl.
  repeat split.
  unfold Store.pair_rows in *; simpl.
  rewrite filter_app, Hnone; simpl.
  unfold Store.is_pair; simpl. now rewrite !String.eqb_refl.
Qed.

(** X9: nothing is rendered for a message until both the patient and the
    doctor are loaded; after that a message is shown on the doctor's side
    under "Dr. ..." exactly when its sender is the current doctor, whatever
    its [sender_type]; every other message that the subscription delivers,
    another doctor's included, is appended and shown on the patient's side
    under the patient's name. *)
Theorem other_senders_shown_as_patient
    (formatTime : Z -> string) (tr : list event) (patientId : string)
    (now : N) (m : Msg.t) (d : Doctor) (p : Patient) :
  let w := subscribeToMessages patientId now (run start tr) in
  let v := PatientScreen.set_currentDoctor (Some d)
             (PatientScreen.set_patient (Some p) (view (deliver m w))) in
  (forall v0, currentDoctor v0 = None \/ patient v0 = None ->
     PatientScreen.renderMessage formatTime m v0 = None)
  /\ (exists b,
        PatientScreen.renderMessage formatTime m v = Some b
        /\ PatientScreen.messageContent b = Msg.message m
        /\ (PatientScreen.isDoctor b = true <-> Msg.sender_id m = doctor_id d)
        /\ (Msg.sender_id m <> doctor_id d ->
            PatientScreen.senderName b
            = PatientScreen.or_else (patient_name p) "Patient"))
  /\ (Msg.patient_id m = patientId ->
      messages v = messages (view w) ++ [m]).
Proof.
  intros w v; split; [|split].
  - intros v0 [H|H]; unfold PatientScreen.renderMessage; rewrite H;
      [reflexivity|now destruct (currentDoctor v0)].
  - eexists; split; [reflexivity|]; simpl.
    split; [reflexivity|split].
    + apply String.eqb_eq.
    + intros H; apply String.eqb_neq in H; now rewrite H.
  - intros Hm.
    assert (Ho : owned w)
      by apply (step_owned _ (Subscribe patientId now)), reachable_owned.
    unfold v; simpl.
    change (messages (view (deliver m w)) = messages (view w) ++ [m]).
    rewrite (deliver_owned w m Ho).
    destruct (subscribed_channel patientId now _ (reachable_owned tr))
      as [Hc _].
    unfold delivers; rewrite (receivers_owned w m Ho).
    fold w in Hc; rewrite Hc.
    unfold Realtime.matches; simpl. now rewrite Hm, String.eqb_refl.
Qed.

(** X19: with the doctor loaded, the send button is disabled in exactly the
    states in which [sendMessage] returns without a request; without the
    doctor the function returns at once whatever the button shows. *)
Theorem send_button_matches_guard (patientId : string) (v : View) :
  (currentDoctor v = None -> sendMessage patientId v = IO.Ret (IO.Resolved, v))
  /\ (currentDoctor v <> None ->
      (PatientScreen.sendDisabled v = true <->
       sendMessage patientId v = IO.Ret (IO.Resolved, v))).
Proof.
  unfold sendMessage, PatientScreen.sendDisabled; split.
  - now intros ->.
  - intros Hd; destruct (currentDoctor v) as [doc|]; [|now elim Hd].
    destruct (negb (JS.truthy (JS.trim (newMessage v))) || sending v).
    + split; reflexivity.
    + split; [discriminate|].
      unfold resolveConversation, IO.await; simpl; discriminate.
Qed.

End PatientSend.

(** ** Witnesses for the patient screen *)

Lemma loaded_without_error_is_complete_witness :
  PatientScreen.loading
    (fst (PatientScreen.play Sample2.all_good
            (PatientScreen.effect "p1" PatientScreen.mounted))) = false.
Proof.
  exact (proj1 (loaded_without_error_is_complete Sample2.all_good "p1"
                  PatientScreen.mounted eq_refl eq_refl)).
Defined.

Lemma failed_context_stops_loading_witness :
  PatientChat.messages (PatientChat.view (PatientScreen.world
    (fst (PatientScreen.play Sample2.signed_out
            (PatientScreen.effect "p1" PatientScreen.mounted)))))
  = [].
Proof.
  exact (proj1 (proj2 (proj2 (proj2 (proj2
           (failed_context_stops_loading Sample2.signed_out "p1"
              PatientScreen.mounted
              (or_intror (or_intror (or_introl eq_refl)))))))) ).
Defined.

Lemma failed_history_still_subscribes_witness :
  PatientChat.messages (PatientChat.view (PatientChat.deliver Sample.m2
    (PatientScreen.world
       (fst (PatientScreen.play Sample2.no_history
               (PatientScreen.effect "p1" PatientScreen.mounted))))))
  = [Sample.m2].
Proof.
  exact (proj2 (proj2 (proj2
           (failed_history_still_subscribes Sample2.no_history "p1" "user-d1"
              PatientScreen.mounted _ Sample2.p1 Sample.d1 Pg.E23502
              eq_refl eq_refl eq_refl eq_refl eq_refl eq_refl eq_refl
              eq_refl)))
           Sample.m2 eq_refl).
Defined.

Lemma chat_context_needs_both_records_witness :
  let r := fst (fst (Prog.run (@PatientScreen.logged)
                       (PatientScreen.serve String.eqb Sample2.uuid_out
                          Sample2.uuid_in)
                       (PatientScreen.fetchChatContext Sample2.patient_route
                          PatientChat.initial)
                       Sample2.server)) in
  exists p u pt d row,
    Sample2.uuid_in Sample2.patient_route = Some p
    /\ Sample2.uuid_in Sample2.doctor_user_uuid = Some u
    /\ PatientChat.patient (snd r) = Some pt
    /\ PatientChat.patient_id pt = Sample2.uuid_out p
    /\ PatientChat.currentDoctor (snd r) = Some d
    /\ In row (Db.doctors (PatientScreen.db Sample2.server))
    /\ Db.doctor_user_id row = u
    /\ PatientChat.doctor_id d = Sample2.uuid_out (Db.doctor_id row).
Proof.
  exact (proj1 (proj2 (chat_context_needs_both_records string String.eqb
                         Sample2.uuid_out Sample2.uuid_in String.eqb_eq
                         Sample2.server Sample2.patient_route
                         Sample2.doctor_user_uuid PatientChat.initial
                         eq_refl)) eq_refl).
Defined.

Lemma sending_flag_is_released_witness :
  IO.run Store.serve
    (PatientChat.sendMessage "p1"
       (PatientChat.set_sending true (Sample.typing Sample.hello)))
    Sample.two_doctors
  = ((IO.Resolved, PatientChat.set_sending true (Sample.typing Sample.hello)),
     Sample.two_doctors, []).
Proof.
  exact (proj2 (sending_flag_is_released "p1" (Sample.typing Sample.hello)
                  eq_refl) _ Store.serve Sample.two_doctors).
Defined.

Lemma sent_message_ends_history_witness :
  snd (IO.run Store.serve
         (PatientChat.sendMessage "p1" (Sample.typing Sample2.spaces_hello))
         Sample2.one_chat)
  = [IO.CallSelectChat "p1" "d1";
     IO.CallInsertMessage
       (PatientChat.outgoing "p1" Sample.d1 "c1" Sample2.spaces_hello)].
Proof.
  refine (proj1 (sent_message_ends_history "p1"
                   (Sample.typing Sample2.spaces_hello) Sample.d1 Sample.c1
                   Sample2.one_chat eq_refl eq_refl eq_refl eq_refl eq_refl
                   eq_refl _)).
  repeat constructor; intros _; reflexivity.
Defined.

Lemma first_send_creates_conversation_witness :
  map Chat.id (Store.pair_rows "p1" "d1"
    (snd (fst (IO.run Store.serve
                 (PatientChat.sendMessage "p1" (Sample.typing Sample.hello))
                 Sample.fresh_unique))))
  = ["u0"].
Proof.
  exact (proj1 (proj2 (first_send_creates_conversation "p1"
                  (Sample.typing Sample.hello) Sample.d1 Sample.fresh_unique
                  eq_refl eq_refl eq_refl eq_refl eq_refl eq_refl))).
Defined.

(** ** The pair-keyed screen: sending and history *)

Section UserChatSending.

Import UserChat UserChatScreen.

Lemma user_insert_perm (m : Message) (l : list Message) :
  Permutation (insert_by_created_at m l) (m :: l).
Proof.
  induction l as [|x l IH]; simpl; [reflexivity|].
  destruct (created_at m <=? created_at x)%Z; [reflexivity|].
  rewrite IH; apply perm_swap.
Qed.

(** The history holds exactly the rows of the table that the filter
    selects. *)
Lemma history_spec (user userId : string) (table : list Message) (m : Message) :
  In m (history user userId table) <->
  In m table /\ selected user userId m = true.
Proof.
  unfold history; rewrite <- filter_In.
  set (l := filter (selected user userId) table); clearbody l.
  assert (P : Permutation (fold_right insert_by_created_at [] l) l).
  { induction l as [|x l IH]; simpl; [reflexivity|].
    rewrite user_insert_perm; now constructor. }
  split; apply Permutation_in; [exact P|symmetry; exact P].
Qed.

(** X10: [sendMessage] of the pair-keyed screen never changes the
    in-memory sequence.  Without a signed-in user or with a blank draft it
    does nothing.  Otherwise it first inserts the trimmed draft from the
    user to the partner; if that is refused it logs, keeps the draft and
    stops; if it is stored the draft is cleared and the trimmed text is
    posted to the advice endpoint exactly once, and a further row is
    inserted only for a reply that is ok and parses, from "ai_bot" to the
    user. *)
Theorem user_send_discipline
    (a : answers) (uid userId : string) (v : View) :
  let body := JS.trim (newMessage v) in
  let own := {| insert_sender_id := uid; insert_receiver_id := userId;
                insert_content := Some body |} in
  let r := play a (sendMessage (Some uid) userId v) in
  messages (fst r) = messages v
  /\ (forall u, JS.blank (newMessage v) = true ->
        sendMessage u userId v = Prog.Ret v)
  /\ sendMessage None userId v = Prog.Ret v
  /\ (JS.blank (newMessage v) = false ->
      Pg.error (on_InsertMessages a own) <> None ->
      snd r = [CallInsertMessages own]
      /\ newMessage (fst r) = newMessage v
      /\ ui (fst r) = ui v ++ [ConsoleError "Error sending user message:"])
  /\ (JS.blank (newMessage v) = false ->
      Pg.error (on_InsertMessages a own) = None ->
      newMessage (fst r) = []
      /\ exists rest,
           snd r = CallInsertMessages own :: CallPostChat body :: rest
           /\ (rest = []
               \/ exists advice,
                    on_PostChat a body = HttpResponse true (Some advice)
                    /\ rest = [CallInsertMessages
                                 {| insert_sender_id := "ai_bot";
                                    insert_receiver_id := uid;
                                    insert_content := advice |}])).
Proof.
  intros body own r.
  assert (Hblank : JS.blank (newMessage v) = true ->
                   JS.truthy (JS.trim (newMessage v)) = false).
  { intros H; apply trim_nil in H; now rewrite H. }
  split; [|split; [|split; [reflexivity|split]]].
  - unfold r, play, sendMessage, Prog.await.
    destruct (negb _); [reflexivity|]; simpl.
    destruct (Pg.error (on_InsertMessages a _)); [reflexivity|]; simpl.
    destruct (on_PostChat a _) as [|[|] [adv|]]; simpl; try reflexivity.
    destruct (Pg.error (on_InsertMessages a _)); reflexivity.
  - intros u H; unfold sendMessage; rewrite (Hblank H); simpl.
    now destruct u.
  - intros Hb He; unfold r, play, sendMessage, Prog.await.
    rewrite (truthy_trim _ Hb); simpl. fold body; fold own.
    destruct (Pg.error (on_InsertMessages a own)); [|now elim He].
    repeat split.
  - intros Hb He; unfold r, play, sendMessage, Prog.await.
    rewrite (truthy_trim _ Hb); simpl. fold body; fold own.
    rewrite He; simpl.
    destruct (on_PostChat a body) as [|[|] [adv|]] eqn:Hp; simpl;
      try (split; [reflexivity|eexists; split; [reflexivity|now left]]).
    destruct (Pg.error (on_InsertMessages a
                {| insert_sender_id := "ai_bot"; insert_receiver_id := uid;
                   insert_content := adv |})); simpl;
      (split; [reflexivity|eexists; split; [reflexivity|]];
       right; exists adv; split; reflexivity).
Qed.

Lemma user_send_discipline_witness :
  snd (play {| on_InsertMessages := fun _ => Pg.failed Pg.E23505;
               on_PostChat := fun _ => NetworkError |}
         (sendMessage (Some "u1") "u2" (mkView [] Sample.hello [])))
  = [CallInsertMessages
       {| insert_sender_id := "u1"; insert_receiver_id := "u2";
          insert_content := Some Sample.hello |}].
Proof.
  refine (proj1 (proj1 (proj2 (proj2 (proj2
            (user_send_discipline
               {| on_InsertMessages := fun _ => Pg.failed Pg.E23505;
                  on_PostChat := fun _ => NetworkError |}
               "u1" "u2" (mkView [] Sample.hello [])))))
            eq_refl _)).
  discriminate.
Defined.

(** X11: in a chat with somebody else, a row that the user has sent to the
    partner is never appended by live delivery, yet the filter of the
    history selects it: it is in the history the next fetch returns, so the
    user's own messages show up after a reload only.  And whatever live
    delivery does append is selected by that filter too. *)
Theorem own_message_needs_reload
    (user userId : string) (row m : Message)
    (msgs table : list Message)
    (Hpartner : userId <> user)
    (Hfrom : sender_id row = user)
    (Hto : receiver_id row = userId) :
  deliver user userId row msgs = msgs
  /\ (In row table -> In row (history user userId table))
  /\ (deliver user userId m msgs = msgs ++ [m] ->
      selected user userId m = true)
  /\ (forall v l, messages (fetched (Pg.ok l) v) = l).
Proof.
  assert (Hne : (userId =? user) = false) by now apply String.eqb_neq.
  split; [|split; [|split; [|reflexivity]]].
  - unfold deliver, Realtime.matches; simpl.
    now rewrite Hto, Hne.
  - intros Hin; apply history_spec; split; [exact Hin|].
    unfold selected; now rewrite Hfrom, Hto, !String.eqb_refl.
  - unfold deliver, onInsert, from_partner, from_me, selected.
    destruct (Realtime.matches _ _ m).
    + destruct ((sender_id m =? userId) && (receiver_id m =? user)
                || (sender_id m =? user) && (receiver_id m =? userId)) eqn:E.
      * intros _; now rewrite orb_comm.
      * intros H; exfalso.
        apply (f_equal (@List.length Message)) in H.
        rewrite length_app in H; simpl in H; lia.
    + intros H; exfalso.
      apply (f_equal (@List.length Message)) in H.
      rewrite length_app in H; simpl in H; lia.
Qed.

Lemma own_message_needs_reload_witness :
  deliver "u1" "u2" (mkMessage "m7" "u1" "u2" Sample.hello 100) [] = [].
Proof.
  refine (proj1 (own_message_needs_reload "u1" "u2"
                   (mkMessage "m7" "u1" "u2" Sample.hello 100)
                   (mkMessage "m7" "u1" "u2" Sample.hello 100) [] []
                   _ eq_refl eq_refl)).
  discriminate.
Defined.

(** X12: the reply row that [sendMessage] stores, from "ai_bot" to the
    user, passes the filter of the subscription; but unless the chat
    partner is "ai_bot" itself the handler does not append it and the
    history does not hold it, so the advice is never shown in that chat;
    when the partner is "ai_bot" it is appended. *)
Theorem advice_shown_only_to_ai_bot_partner
    (user userId : string) (reply : Message) (msgs table : list Message)
    (Hfrom : sender_id reply = "ai_bot")
    (Hto : receiver_id reply = user)
    (Huser : user <> "ai_bot") :
  Realtime.matches column (subscription_filter user) reply = true
  /\ (userId <> "ai_bot" ->
      deliver user userId reply msgs = msgs
      /\ ~ In reply (history user userId table))
  /\ (userId = "ai_bot" ->
      deliver user userId reply msgs = msgs ++ [reply]
      /\ (In reply table -> In reply (history user userId table))).
Proof.
  assert (Hu : ("ai_bot" =? user) = false)
    by (apply String.eqb_neq; congruence).
  assert (Hm : Realtime.matches column (subscription_filter user) reply = true).
  { unfold Realtime.matches; simpl. now rewrite Hto, String.eqb_refl. }
  split; [exact Hm|split].
  - intros Hp.
    assert (Hp' : ("ai_bot" =? userId) = false)
      by (apply String.eqb_neq; congruence).
    split.
    + unfold deliver; rewrite Hm.
      unfold onInsert, from_partner, from_me. now rewrite Hfrom, Hp', Hu.
    + intros H; apply history_spec in H; destruct H as [_ H].
      unfold selected in H; rewrite Hfrom, Hp', Hu in H; discriminate.
  - intros ->; split.
    + unfold deliver; rewrite Hm.
      unfold onInsert, from_partner. now rewrite Hfrom, Hto, !String.eqb_refl.
    + intros Hin; apply history_spec; split; [exact Hin|].
      unfold selected. rewrite Hfrom, Hto, !String.eqb_refl; simpl.
      apply orb_true_r.
Qed.

Lemma advice_shown_only_to_ai_bot_partner_witness :
  deliver "u1" "u2" (mkMessage "m8" "ai_bot" "u1" Sample.hello 100) [] = [].
Proof.
  refine (proj1 (proj1 (proj2
            (advice_shown_only_to_ai_bot_partner "u1" "u2"
               (mkMessage "m8" "ai_bot" "u1" Sample.hello 100) [] []
               eq_refl eq_refl _)) _));
    discriminate.
Defined.

End UserChatSending.

(** ** The assistant *)

Section AssistantSending.

Variables (number context : Type).

(** The two messages a send appends, with their ids: the reply's id comes
    from the third reading of the clock, or from the fourth when the body
    of an ok response is null. *)
Lemma assistant_appended (d : AIChat.device number) (userId : string)
    (v : AIChat.View number context) :
  JS.blank (AIChat.input v) = false ->
  exists mine reply,
    AIChat.messages (fst (AIChat.play d (AIChat.sendMessage userId v)))
    = AIChat.messages v ++ [mine; reply]
    /\ AIChat.id mine = JS.toString (AIChat.clock d 0)
    /\ (AIChat.id reply = JS.toString (AIChat.clock d 2 + 1)
        \/ (AIChat.endpoint d (AIChat.input v)
            = AIChat.HttpResponse true (Some AIChat.JNull)
            /\ AIChat.id reply = JS.toString (AIChat.clock d 3 + 1))).
Proof.
  intros H; unfold AIChat.play, AIChat.sendMessage, AIChat.fallback,
    Prog.await.
  rewrite (truthy_trim _ H); simpl.
  destruct (AIChat.endpoint d (AIChat.input v)) as [|[|] [[| | | | |]|]];
    simpl; rewrite <- app_assoc; simpl;
    eexists _, _; (split; [reflexivity|]); (split; [reflexivity|]);
    solve [left; reflexivity | right; split; reflexivity].
Qed.

(** X13: a send with a draft that is not blank always appends exactly two
    messages: the user's, with the draft as typed, and then one from the
    assistant; the draft is cleared, [loading] ends off and the endpoint is
    asked once, after two readings of the clock.  When the response is ok
    and its body parses to a value other than null, the assistant's message
    carries the members [response], [suggestions] and [confidence] of that
    value, each undefined when the value has no such member, its id comes
    from the third reading, and no alert is raised.  When the body parses to
    null, the id of a reply is computed first, the read of [response] then
    throws, and the fallback is appended with an id from the fourth of five
    readings.  When the request fails, the response is not ok or the body
    does not parse, the fallback is appended with an id from the third of
    four readings.  Every fallback comes with the console error and the
    alert.  A blank draft sends nothing. *)
Theorem assistant_send_appends_two
    (d : AIChat.device number) (userId : string)
    (v : AIChat.View number context) :
  let r := AIChat.play d (AIChat.sendMessage userId v) in
  let asked := AIChat.endpoint d (AIChat.input v) in
  let failure :=
    [ConsoleError "Error getting AI response:";
     Alert "Error" "Failed to get AI response. Please try again."] in
  (JS.blank (AIChat.input v) = true ->
   AIChat.sendMessage userId v = Prog.Ret v)
  /\ (JS.blank (AIChat.input v) = false ->
      exists mine reply,
        AIChat.messages (fst r) = AIChat.messages v ++ [mine; reply]
        /\ mine = AIChat.mkMessage (JS.toString (AIChat.clock d 0))
                    (Some (AIChat.JString (AIChat.input v))) AIChat.user
                    (AIChat.clock d 1) None None
        /\ AIChat.from reply = AIChat.ai
        /\ AIChat.input (fst r) = []
        /\ AIChat.loading (fst r) = false
        /\ AIChat.aiContext (fst r) = AIChat.aiContext v
        /\ (forall data,
              asked = AIChat.HttpResponse true (Some data) ->
              data <> AIChat.JNull ->
              reply = AIChat.mkMessage (JS.toString (AIChat.clock d 2 + 1))
                        (AIChat.member "response" data) AIChat.ai
                        (AIChat.clock d 3)
                        (AIChat.member "suggestions" data)
                        (AIChat.member "confidence" data)
              /\ AIChat.ui (fst r) = AIChat.ui v
              /\ snd r = [AIChat.CallDateNow; AIChat.CallDateNow;
                          AIChat.CallPostAiChat (AIChat.input v) userId;
                          AIChat.CallDateNow; AIChat.CallDateNow])
        /\ (asked = AIChat.HttpResponse true (Some AIChat.JNull) ->
            reply = AIChat.mkMessage (JS.toString (AIChat.clock d 3 + 1))
                      (Some (AIChat.JString AIChat.fallbackText)) AIChat.ai
                      (AIChat.clock d 4) None None
            /\ AIChat.ui (fst r) = AIChat.ui v ++ failure
            /\ snd r = [AIChat.CallDateNow; AIChat.CallDateNow;
                        AIChat.CallPostAiChat (AIChat.input v) userId;
                        AIChat.CallDateNow; AIChat.CallDateNow;
                        AIChat.CallDateNow])
        /\ ((forall data, asked <> AIChat.HttpResponse true (Some data)) ->
            reply = AIChat.mkMessage (JS.toString (AIChat.clock d 2 + 1))
                      (Some (AIChat.JString AIChat.fallbackText)) AIChat.ai
                      (AIChat.clock d 3) None None
            /\ AIChat.ui (fst r) = AIChat.ui v ++ failure
            /\ snd r = [AIChat.CallDateNow; AIChat.CallDateNow;
                        AIChat.CallPostAiChat (AIChat.input v) userId;
                        AIChat.CallDateNow; AIChat.CallDateNow])).
Proof.
  intros r asked failure; split.
  - intros H; apply trim_nil in H.
    unfold AIChat.sendMessage; now rewrite H.
  - intros H; unfold r, asked, AIChat.play, AIChat.sendMessage,
      AIChat.fallback, Prog.await.
    rewrite (truthy_trim _ H); simpl.
    destruct (AIChat.endpoint d (AIChat.input v))
      as [|[|] [[| | | | |]|]] eqn:E;
      simpl; rewrite <- app_assoc; simpl;
      eexists _, _; repeat (split; [reflexivity|]);
      (split; [intros data Hd Hn|split; [intros Hd|intros Hd]]);
      try discriminate Hd;
      try (exfalso; eapply Hd; reflexivity);
      try (injection Hd as <-);
      try (exfalso; apply Hn; reflexivity);
      repeat split.
Qed.

(** X14: on a clock that does not run backwards the two messages of one
    send get different ids: the reply's id comes from the third reading,
    or from the fourth when an ok response has a null body, and either is
    not before the first. *)
Theorem assistant_ids_differ_within_a_send
    (d : AIChat.device number) (userId : string)
    (v : AIChat.View number context)
    (Hbody : JS.blank (AIChat.input v) = false)
    (Hclock : (AIChat.clock d 0 <= AIChat.clock d 2)%N)
    (Hnull : AIChat.endpoint d (AIChat.input v)
             = AIChat.HttpResponse true (Some AIChat.JNull) ->
             (AIChat.clock d 0 <= AIChat.clock d 3)%N) :
  NoDup (map AIChat.id
           (skipn (List.length (AIChat.messages v))
              (AIChat.messages
                 (fst (AIChat.play d (AIChat.sendMessage userId v)))))).
Proof.
  destruct (assistant_appended d userId v Hbody)
    as (mine & reply & Hm & Hi & Hr).
  rewrite Hm, skipn_app, skipn_all, Nat.sub_diag; simpl.
  constructor; [|repeat constructor; intros []].
  intros [H|[]]. rewrite Hi in H.
  destruct Hr as [Hr|[He Hr]]; rewrite Hr in H;
    apply toString_inj in H; [|specialize (Hnull He)]; lia.
Qed.

End AssistantSending.

Lemma assistant_send_appends_two_witness :
  let d : AIChat.device unit :=
    {| AIChat.clock := fun n => (Sample.t0 + N.of_nat n)%N;
       AIChat.endpoint := fun _ => AIChat.HttpResponse true (Some AIChat.JNull) |} in
  let v : AIChat.View unit unit := AIChat.mkView [] Sample.hello false tt [] in
  exists mine reply,
    AIChat.messages (fst (AIChat.play d (AIChat.sendMessage "u1" v)))
    = [mine; reply]
    /\ AIChat.text mine = Some (AIChat.JString Sample.hello)
    /\ AIChat.id reply = JS.toString (Sample.t0 + 3 + 1)
    /\ AIChat.text reply = Some (AIChat.JString AIChat.fallbackText)
    /\ List.length (snd (AIChat.play d (AIChat.sendMessage "u1" v))) = 6.
Proof.
  intros d v.
  destruct (proj2 (assistant_send_appends_two unit unit d "u1" v) eq_refl)
    as (mine & reply & Hm & Hmine & _ & _ & _ & _ & _ & Hnull & _).
  destruct (Hnull eq_refl) as (Hreply & _ & Hlog).
  exists mine, reply. split; [exact Hm|].
  rewrite Hmine, Hreply, Hlog. repeat split.
Defined.

Lemma assistant_ids_differ_within_a_send_witness :
  NoDup (map AIChat.id
           (AIChat.messages
              (fst (AIChat.play
                      {| AIChat.clock := fun n => (Sample.t0 + N.of_nat n)%N;
                         AIChat.endpoint := fun _ => AIChat.NetworkError |}
                      (AIChat.sendMessage "u1"
                         (@AIChat.mkView unit unit [] Sample.hello false tt
                            [])))))).
Proof.
  refine (assistant_ids_differ_within_a_send unit unit
            {| AIChat.clock := fun n => (Sample.t0 + N.of_nat n)%N;
               AIChat.endpoint := fun _ => AIChat.NetworkError |}
            "u1" (AIChat.mkView [] Sample.hello false tt []) eq_refl _ _).
  - vm_compute; discriminate.
  - discriminate.
Defined.

(** ** Submissions on the patients screen and on the dashboard *)

Section SubmissionCounts.

Variables (number : Type) (zero : number) (truthy_number : number -> bool).
Variable toLowerCase : JS.jsstring -> JS.jsstring.

Let Submission := Submissions.Submission number.
Let toPatient := Submissions.toPatient number zero truthy_number.
Let loadPatients := Submissions.loadPatients number zero truthy_number.
Let filterPatients := Submissions.filterPatients number toLowerCase.

Lemma filter_map_length {A B : Type} (f : B -> bool) (g : A -> B)
    (l : list A) :
  List.length (filter f (map g l))
  = List.length (filter (fun x => f (g x)) l).
Proof.
  induction l as [|x l IH]; simpl; [reflexivity|].
  destruct (f (g x)); simpl; now rewrite IH.
Qed.

Lemma nodup_length_le (l : list string) :
  List.length (nodup string_dec l) <= List.length l.
Proof.
  induction l as [|x l IH]; simpl; [lia|].
  destruct (in_dec string_dec x l); simpl; lia.
Qed.

Lemma nodup_length_eq (l : list string) :
  List.length (nodup string_dec l) = List.length l <-> NoDup l.
Proof.
  split.
  - induction l as [|x l IH]; simpl; [constructor|].
    pose proof (nodup_length_le l) as Hle.
    destruct (in_dec string_dec x l); simpl; intros H; [lia|].
    constructor; [assumption|apply IH; lia].
  - intros H; now rewrite nodup_fixed_point.
Qed.

Lemma critical_after_mapping (s : Submission) :
  (Submissions.riskCategory number (toPatient s) =? "critical")
  = match Submissions.first_prediction number s with
    | Some p => Submissions.risk_category number p =? "critical"
    | None => false
    end.
Proof.
  unfold toPatient, Submissions.toPatient; simpl.
  destruct (Submissions.first_prediction number s) as [p|]; [|reflexivity].
  destruct (Submissions.risk_category number p) as [|c r]; reflexivity.
Qed.

(** X15: for one and the same list of submissions the patients screen and
    the dashboard show the same number of pending reviews and of critical
    cases, and these are the numbers of patients the pending and critical
    filters list when nothing is searched; but "Total Patients" is the
    number of submissions on the patients screen and the number of distinct
    patients on the dashboard: the dashboard's is never larger, and the two
    agree exactly when no patient has two submissions. *)
Theorem patient_counts_across_screens (submissions : list Submission) :
  let patients := loadPatients submissions in
  Submissions.quickPending number patients
  = Submissions.pendingReviews number submissions
  /\ Submissions.quickCritical number patients
     = Submissions.criticalCases number submissions
  /\ List.length (filterPatients patients [] Submissions.pending)
     = Submissions.pendingReviews number submissions
  /\ List.length (filterPatients patients [] Submissions.critical)
     = Submissions.criticalCases number submissions
  /\ filterPatients patients [] Submissions.all = patients
  /\ Submissions.totalPatients number submissions
     <= Submissions.quickTotal number patients
  /\ (Submissions.totalPatients number submissions
      = Submissions.quickTotal number patients
      <-> NoDup (map (Submissions.patients_id number) submissions))
  /\ Submissions.pendingReviews number submissions
     + Submissions.reviewedCount number submissions
     <= List.length submissions.
Proof.
  intros patients.
  assert (Hp : Submissions.quickPending number patients
               = Submissions.pendingReviews number submissions).
  { unfold Submissions.quickPending, Submissions.pendingReviews, patients,
      loadPatients, Submissions.loadPatients.
    now rewrite filter_map_length. }
  assert (Hc : Submissions.quickCritical number patients
               = Submissions.criticalCases number submissions).
  { unfold Submissions.quickCritical, Submissions.criticalCases, patients,
      loadPatients, Submissions.loadPatients.
    rewrite filter_map_length. f_equal.
    apply filter_ext; intros s; apply critical_after_mapping. }
  assert (Hl : Submissions.quickTotal number patients
               = List.length (map (Submissions.patients_id number) submissions)).
  { unfold Submissions.quickTotal, patients, loadPatients,
      Submissions.loadPatients. now rewrite !length_map. }
  repeat split; try assumption.
  - unfold Submissions.totalPatients; rewrite Hl; apply nodup_length_le.
  - unfold Submissions.totalPatients; rewrite Hl; apply nodup_length_eq.
  - unfold Submissions.totalPatients; rewrite Hl; apply nodup_length_eq.
  - unfold Submissions.pendingReviews, Submissions.reviewedCount.
    clear; induction submissions as [|s l IH]; simpl; [lia|].
    destruct (Submissions.status number s) as [x|]; simpl; [|lia].
    destruct (x =? "pending") eqn:E1; destruct (x =? "reviewed") eqn:E2;
      simpl; try lia.
    apply String.eqb_eq in E1; apply String.eqb_eq in E2; congruence.
Qed.

(** X16: a submission without a risk prediction is listed as "low" risk
    with score zero and in the colour of low risk, and the critical filter
    never lists it, whatever is searched; and whatever the search and the
    filter, every patient listed is one of the loaded patients. *)
Theorem missing_prediction_is_low_risk
    (s : Submission) (patients : list (Submissions.Patient number))
    (searchQuery : JS.jsstring) (key : Submissions.filter_key)
    (Hnone : Submissions.first_prediction number s = None) :
  Submissions.riskCategory number (toPatient s) = "low"
  /\ Submissions.riskScore number (toPatient s) = zero
  /\ Submissions.getRiskColor
       (Submissions.riskCategory number (toPatient s)) = "#28A745"
  /\ ~ In (toPatient s)
          (filterPatients patients searchQuery Submissions.critical)
  /\ incl (filterPatients patients searchQuery key) patients.
Proof.
  assert (Hcat : Submissions.riskCategory number (toPatient s) = "low").
  { unfold toPatient, Submissions.toPatient; simpl. now rewrite Hnone. }
  split; [exact Hcat|split; [|split; [now rewrite Hcat|split]]].
  - unfold toPatient, Submissions.toPatient; simpl. now rewrite Hnone.
  - unfold filterPatients, Submissions.filterPatients.
    intros H; apply filter_In in H; destruct H as [_ H].
    rewrite Hcat in H; discriminate.
  - unfold filterPatients, Submissions.filterPatients.
    intros p Hp.
    assert (Hq : In p (if JS.truthy searchQuery
                       then filter (fun patient =>
                              Text.includes
                                (toLowerCase (Submissions.name number patient))
                                (toLowerCase searchQuery)) patients
                       else patients) -> In p patients).
    { destruct (JS.truthy searchQuery); [|tauto].
      intros H; now apply filter_In in H. }
    destruct key; [exact (Hq Hp)| |];
      apply filter_In in Hp; destruct Hp as [Hp _]; exact (Hq Hp).
Qed.

End SubmissionCounts.

Lemma missing_prediction_is_low_risk_witness :
  Submissions.riskCategory nat
    (Submissions.toPatient nat 0 (fun n => negb (Nat.eqb n 0))
       (Submissions.Build_Submission nat "s1" (Some "pending") None "p1"
          None None (Text.lit "Ann") (Some [])))
  = "low".
Proof.
  exact (proj1 (missing_prediction_is_low_risk nat 0
                  (fun n => negb (Nat.eqb n 0)) (fun x => x)
                  (Submissions.Build_Submission nat "s1" (Some "pending")
                     None "p1" None None (Text.lit "Ann") (Some []))
                  [] [] Submissions.all eq_refl)).
Defined.

(** ** Times on the conversations screen *)

(** X17: for a valid date [formatTime] decides by whole elapsed days, not by
    calendar days: under 24 hours before now it shows the time of day, from
    24 to under 48 hours "Yesterday", from 2 to under 7 days and for every
    date in the future the weekday, from 7 days on the month and the day;
    an invalid date is formatted as month and day. *)
Theorem formatTime_by_elapsed_days
    (parse : string -> option Z) (timeOfDay weekday : Z -> string)
    (monthDay : option Z -> string) (now : Z) (dateString : string) :
  let shown :=
    ChatsScreen.formatTime parse timeOfDay weekday monthDay now dateString in
  let day := 86400000%Z in
  (parse dateString = None -> shown = monthDay None)
  /\ (forall date, parse dateString = Some date ->
        ((0 <= now - date < day)%Z -> shown = timeOfDay date)
        /\ ((day <= now - date < 2 * day)%Z -> shown = "Yesterday")
        /\ ((2 * day <= now - date < 7 * day)%Z \/ (now < date)%Z ->
            shown = weekday date)
        /\ ((7 * day <= now - date)%Z -> shown = monthDay (Some date))).
Proof.
  intros shown day; unfold shown, ChatsScreen.formatTime; split.
  - now intros ->.
  - intros date ->.
    change (1000 * 60 * 60 * 24)%Z with day.
    assert (Hday : (0 < day)%Z) by (unfold day; lia).
    pose proof (Z.div_mod (now - date) day ltac:(lia)) as Hdm.
    pose proof (Z.mod_pos_bound (now - date) day Hday) as Hb.
    set (q := ((now - date) / day)%Z) in *.
    set (m := ((now - date) mod day)%Z) in *.
    unfold day in *.
    repeat split; intros H;
      destruct (Z.eqb_spec q 0); try lia;
      destruct (Z.eqb_spec q 1); try lia;
      destruct (Z.ltb_spec q 7); try lia; reflexivity.
Qed.

Lemma formatTime_by_elapsed_days_witness :
  ChatsScreen.formatTime (fun _ => Some 0%Z) (fun _ => "time")
    (fun _ => "day") (fun _ => "date") 120000 "1970-01-01T00:00:00Z"
  = "time".
Proof.
  refine (proj1 (proj2 (formatTime_by_elapsed_days (fun _ => Some 0%Z)
            (fun _ => "time") (fun _ => "day") (fun _ => "date") 120000
            "1970-01-01T00:00:00Z") 0%Z eq_refl) _).
  lia.
Defined.

(** ** History against live events in RealTimeChat *)

(** X18: RealTimeChat starts its fetch and its subscription together, and
    the fetched history replaces the sequence: an insert event of the chat
    that arrives before the history leaves no trace, so the message is
    shown only if the history holds it; one that arrives after the history
    is appended to it, also when the history holds it already. *)
Theorem history_replaces_earlier_live_events
    (tr : list RealTimeChat.event) (chatId : string) (m : Msg.t)
    (l : list Msg.t) (Hchat : Msg.chat_id m = chatId) :
  let w := RealTimeChat.effect chatId (RealTimeChat.run RealTimeChat.start tr) in
  RealTimeChat.messages (RealTimeChat.view
    (RealTimeChat.run w [RealTimeChat.Inserted m;
                         RealTimeChat.Fetched (Pg.ok l)])) = l
  /\ RealTimeChat.messages (RealTimeChat.view
       (RealTimeChat.run w [RealTimeChat.Fetched (Pg.ok l);
                            RealTimeChat.Inserted m])) = l ++ [m].
Proof.
  intros w; split; [reflexivity|].
  assert (Ho : RealTimeChat.owned (RealTimeChat.run RealTimeChat.start tr))
    by apply rtc_reachable_owned.
  destruct (rtc_effect_channel chatId _ Ho) as [Hs Hc]; fold w in Hs, Hc.
  set (w1 := RealTimeChat.step w (RealTimeChat.Fetched (Pg.ok l))).
  change (RealTimeChat.messages
            (RealTimeChat.view (RealTimeChat.deliver m w1)) = l ++ [m]).
  assert (Ho1 : RealTimeChat.owned w1).
  { apply rtc_step_owned. unfold RealTimeChat.owned; now rewrite Hs, Hc. }
  rewrite (rtc_deliver_owned w1 m Ho1).
  unfold RealTimeChat.delivers; rewrite (rtc_receivers_owned w1 m Ho1).
  change (RealTimeChat.subscription w1) with (RealTimeChat.subscription w).
  rewrite Hs; unfold Realtime.matches; simpl.
  now rewrite Hchat, String.eqb_refl.
Qed.

Lemma history_replaces_earlier_live_events_witness :
  RealTimeChat.messages (RealTimeChat.view
    (RealTimeChat.run (RealTimeChat.effect "c1" RealTimeChat.start)
       [RealTimeChat.Inserted Sample.m2; RealTimeChat.Fetched (Pg.ok [Sample.m1])]))
  = [Sample.m1].
Proof.
  exact (proj1 (history_replaces_earlier_live_events [] "c1" Sample.m2
                  [Sample.m1] eq_refl)).
Defined.
